(** * A shallow embedding of the cooperative task scheduler (Scheduler/OS.c, OS.h)

    The scheduler keeps three file-scope variables: the task table
    [task_array], its tail index [task_count] and the logical clock
    [os_time].  They are gathered here in one record which every operation
    receives and returns.

    Conventions
    - [uint32_t] values are integers in [Z]; every C addition that is stored
      back into a 32-bit field is written with [wrap32].
    - [uint8_t] values ([task_count], slot positions) are natural numbers;
      the one increment of the source is written with [wrap8].
    - Function and data pointers are addresses in [Z]; [NULL] is [0].
    - Behaviour that C leaves undefined (an access outside [task_array], a
      call through a null function pointer) makes an operation return [None].
    - Task bodies are foreign code.  They are a parameter [call] acting on an
      environment [Env] of their own: the table and the clock are [static]
      in OS.c, and a task body is assumed not to re-enter the scheduler. *)

From Stdlib Require Import ZArith Lia Sorted.
From stdpp Require Import base decidable option numbers list.

(** ** Constants and types of OS.h *)

Definition fncPtr : Type := Z.
Definition NULL : Z := 0%Z.

Definition OS_MAX_TASK_NUM : nat := 25.
Definition OS_MAX_TIME : Z := 86400000%Z.
Definition OS_MIN_TIME : Z := 1%Z.

Definition wrap32 (z : Z) : Z := (z mod 2 ^ 32)%Z.
Definition uint32 (z : Z) : Prop := (0 ≤ z < 2 ^ 32)%Z.
Definition wrap8 (n : nat) : nat := n mod 256.

Inductive OS_state : Type := SUSPENDED | BLOCKED | READY | STOPPED.

Inductive OS_feedback : Type :=
  OK | NOK_NULL_PTR | NOK_TIME_LIMIT | NOK_CNT_LIMIT | NOK_UNKNOWN.

#[global] Instance OS_state_eq_dec : EqDecision OS_state.
Proof. solve_decision. Defined.

#[global] Instance OS_feedback_eq_dec : EqDecision OS_feedback.
Proof. solve_decision. Defined.

Definition period_end : Z := 0%Z.
Definition period_1ms : Z := 1%Z.
Definition period_10ms : Z := (period_1ms * 10)%Z.
Definition period_100ms : Z := (period_1ms * 100)%Z.
Definition period_1s : Z := (period_1ms * 1000)%Z.
Definition period_1m : Z := (period_1ms * 1000 * 60)%Z.
Definition period_1h : Z := (period_1m * 60)%Z.

Record OS_struct : Type := mkTask {
  function : fncPtr;
  task_period : Z;
  execute_time : Z;
  state : OS_state;
  data_ptr : Z
}.

Arguments mkTask (_ _ _)%_Z _ _%_Z.

#[global] Instance OS_struct_eq_dec : EqDecision OS_struct.
Proof. solve_decision. Defined.

(** The file-scope variables of OS.c. *)
Record OS : Type := mkOS {
  task_array : list OS_struct;
  task_count : nat;
  os_time : Z
}.

(** A zero-initialised slot, as static storage starts out and as the timer
    pass leaves a reclaimed slot. *)
Definition zero_task : OS_struct := mkTask NULL 0 0 SUSPENDED NULL.

Definition OS_init : OS := mkOS (replicate OS_MAX_TASK_NUM zero_task) 0 0.

(** [task_array[i] = t]; a write outside the array is undefined. *)
Definition write_slot (i : nat) (t : OS_struct) (s : OS) : option OS :=
  if decide (i < length (task_array s))
  then Some (mkOS (<[i := t]> (task_array s)) (task_count s) (os_time s))
  else None.

(** ** OS_TaskFind

    [for (i = 0; i < task_count; i++)]: [n] counts the iterations left. *)
Fixpoint find_loop (f : fncPtr) (arr : list OS_struct) (n i : nat) : option nat :=
  match n with
  | O => Some (OS_MAX_TASK_NUM + 1)
  | S n' =>
      t ← arr !! i;
      if decide (function t = f) then Some i
      else find_loop f arr n' (S i)
  end.

Definition OS_TaskFind (f : fncPtr) (s : OS) : option nat :=
  find_loop f (task_array s) (task_count s) 0.

(** ** OS_TaskInsertPosition

    [for (i = 0; i <= task_count; i++)]: [n] counts the iterations left;
    when the loop runs out without a [break] the result is
    [task_count + 1].  The counter never wraps: a read outside the table
    comes first. *)
Fixpoint insert_loop (s : OS) (n i : nat) : option (nat * OS) :=
  match n with
  | O => Some (i, s)
  | S n' =>
      t ← task_array s !! i;
      if decide (function t = NULL) then
        if decide (i = task_count s)
        then Some (i, mkOS (task_array s) (wrap8 (task_count s + 1)) (os_time s))
        else Some (i, s)
      else insert_loop s n' (S i)
  end.

Definition OS_TaskInsertPosition (s : OS) : option (nat * OS) :=
  insert_loop s (task_count s + 1) 0.

(** ** OS_TaskCreate and its two wrappers

    The tests come in the order of the source: period bounds, then the
    tail index against the capacity, then lookup.  The field assignments of
    either branch are one write of the whole record; the branch for a known
    task keeps the entry point of the slot. *)
Definition OS_TaskCreate (f : fncPtr) (default_task_period : Z)
    (default_state : OS_state) (function_data_ptr : Z) (defer_time : Z)
    (s : OS) : option (OS_feedback * OS) :=
  if ((OS_MIN_TIME >? default_task_period) || (OS_MAX_TIME <? default_task_period))%Z
  then Some (NOK_TIME_LIMIT, s)
  else if decide (OS_MAX_TASK_NUM ≤ task_count s)
  then Some (NOK_CNT_LIMIT, s)
  else
    position ← OS_TaskFind f s;
    if decide (OS_MAX_TASK_NUM < position) then
      '(position, s1) ← OS_TaskInsertPosition s;
      s2 ← write_slot position
             (mkTask f default_task_period (wrap32 (os_time s1 + defer_time))
                     default_state function_data_ptr) s1;
      Some (OK, s2)
    else
      t ← task_array s !! position;
      s2 ← write_slot position
             (mkTask (function t) default_task_period
                     (wrap32 (os_time s + defer_time))
                     default_state function_data_ptr) s;
      Some (OK, s2).

Arguments OS_TaskCreate (_ _)%_Z _ (_ _)%_Z _.

Definition OS_TaskCreateSimple (f : fncPtr) (s : OS) : option (OS_feedback * OS) :=
  OS_TaskCreate f period_1ms BLOCKED NULL 0 s.

Definition OS_TaskScheduleSimple (f : fncPtr) (defer_time : Z) (s : OS)
    : option (OS_feedback * OS) :=
  OS_TaskCreate f period_1ms BLOCKED NULL defer_time s.

(** The arguments of one registration. *)
Record registration : Type := mkReg {
  reg_function : fncPtr;
  reg_period : Z;
  reg_state : OS_state;
  reg_data : Z;
  reg_defer : Z
}.

Arguments mkReg (_ _)%_Z _ (_ _)%_Z.

Definition OS_register (r : registration) (s : OS) : option (OS_feedback * OS) :=
  OS_TaskCreate (reg_function r) (reg_period r) (reg_state r) (reg_data r)
                (reg_defer r) s.

(** ** OS_TaskIsInQueue *)
Definition OS_TaskIsInQueue (f : fncPtr) (s : OS) : option bool :=
  position ← OS_TaskFind f s;
  Some (bool_decide (position < OS_MAX_TASK_NUM)).

(** ** OS_TaskTimer

    [timer_slot] is the body of the loop for one slot, [now] being the clock
    after its increment; a slot the source does not touch is written back as
    it is. *)
Definition timer_slot (now : Z) (t : OS_struct) : OS_struct :=
  if decide (state t ≠ SUSPENDED) then
    if decide (state t = BLOCKED) then
      if decide (execute_time t ≤ now)%Z then
        mkTask (function t) (task_period t)
               (wrap32 (execute_time t + wrap32 (task_period t * period_1ms)))
               READY (data_ptr t)
      else t
    else if decide (state t = STOPPED) then
      mkTask NULL 0 0 SUSPENDED NULL
    else t
  else t.

Fixpoint timer_loop (n i : nat) (s : OS) : option OS :=
  match n with
  | O => Some s
  | S n' =>
      t ← task_array s !! i;
      s' ← write_slot i (timer_slot (os_time s) t) s;
      timer_loop n' (S i) s'
  end.

Definition OS_TaskTimer (s : OS) : option OS :=
  let s1 := mkOS (task_array s) (task_count s) (wrap32 (os_time s + period_1ms)) in
  timer_loop (task_count s1) 0 s1.

(** [n] consecutive timer ticks. *)
Fixpoint OS_ticks (n : nat) (s : OS) : option OS :=
  match n with
  | O => Some s
  | S n' => s' ← OS_TaskTimer s; OS_ticks n' s'
  end.

(** ** OS_GetOsTime *)
Definition OS_GetOsTime (s : OS) : Z := os_time s.

(** ** Accessors *)
Definition OS_GetTaskState (f : fncPtr) (s : OS) : option OS_state :=
  position ← OS_TaskFind f s;
  if decide (position < OS_MAX_TASK_NUM)
  then t ← task_array s !! position; Some (state t)
  else Some SUSPENDED.

Definition OS_GetTaskPeriod (f : fncPtr) (s : OS) : option Z :=
  position ← OS_TaskFind f s;
  if decide (position < OS_MAX_TASK_NUM)
  then t ← task_array s !! position; Some (task_period t)
  else Some 0%Z.

Definition OS_GetTaskExecuteTime (f : fncPtr) (s : OS) : option Z :=
  position ← OS_TaskFind f s;
  if decide (position < OS_MAX_TASK_NUM)
  then t ← task_array s !! position; Some (execute_time t)
  else Some 0%Z.

Definition OS_SetTaskState (f : fncPtr) (new_state : OS_state) (s : OS)
    : option (OS_feedback * OS) :=
  position ← OS_TaskFind f s;
  if decide (position < OS_MAX_TASK_NUM) then
    t ← task_array s !! position;
    s' ← write_slot position
           (mkTask (function t) (task_period t) (execute_time t) new_state (data_ptr t)) s;
    Some (OK, s')
  else Some (NOK_NULL_PTR, s).

Definition OS_SetTaskPeriod (f : fncPtr) (new_task_period : Z) (s : OS)
    : option (OS_feedback * OS) :=
  position ← OS_TaskFind f s;
  if decide (position < OS_MAX_TASK_NUM) then
    t ← task_array s !! position;
    s' ← write_slot position
           (mkTask (function t) new_task_period (execute_time t) (state t) (data_ptr t)) s;
    Some (OK, s')
  else Some (NOK_NULL_PTR, s).

Definition OS_SetTaskExecuteTime (f : fncPtr) (new_execute_time : Z) (s : OS)
    : option (OS_feedback * OS) :=
  position ← OS_TaskFind f s;
  if decide (position < OS_MAX_TASK_NUM) then
    t ← task_array s !! position;
    s' ← write_slot position
           (mkTask (function t) (task_period t) new_execute_time (state t) (data_ptr t)) s;
    Some (OK, s')
  else Some (NOK_NULL_PTR, s).

(** ** OS_TaskExecution

    One record of the ghost log: the slot whose task was called and the
    value the call returned.  The log is not part of the program; it is what
    lets a statement speak about how often a task was invoked. *)
Record invocation : Type := mkInv { inv_slot : nat; inv_return : Z }.

Section Tasks.

Context {Env : Type}.

(** The task bodies: [call f d e] runs the function at address [f] on the
    data pointer [d] in environment [e].  Its result is a [uint32_t], read
    through [wrap32]. *)
Variable call : fncPtr → Z → Env → Z * Env.

(** The body of the loop for one slot.  A slot that is not READY is left
    as it is. *)
Definition exec_slot (now : Z) (i : nat) (t : OS_struct) (e : Env)
    : option (OS_struct * Env * list invocation) :=
  if decide (READY = state t) then
    if decide (function t = NULL) then None
    else
      let '(r, e') := call (function t) (data_ptr t) e in
      let period := wrap32 r in
      let t1 :=
        if decide (period ≠ task_period t)
        then mkTask (function t) period (wrap32 (now + period)) (state t) (data_ptr t)
        else t in
      let t2 :=
        if decide (period = period_end)
        then mkTask (function t1) (task_period t1) (execute_time t1) STOPPED (data_ptr t1)
        else mkTask (function t1) (task_period t1) (execute_time t1) BLOCKED (data_ptr t1) in
      Some (t2, e', [mkInv i period])
  else Some (t, e, []).

Fixpoint exec_loop (n i : nat) (s : OS) (e : Env)
    : option (OS * Env * list invocation) :=
  match n with
  | O => Some (s, e, [])
  | S n' =>
      t ← task_array s !! i;
      '(t', e', l1) ← exec_slot (OS_GetOsTime s) i t e;
      s' ← write_slot i t' s;
      '(s'', e'', l2) ← exec_loop n' (S i) s' e';
      Some (s'', e'', l1 ++ l2)
  end.

Definition OS_TaskExecution (s : OS) (e : Env)
    : option (OS * Env * list invocation) :=
  exec_loop (task_count s) 0 s e.

(** A schedule of the two passes, with the log of all calls made. *)
Inductive pass : Type := Tick | Run.

Fixpoint OS_passes (ps : list pass) (s : OS) (e : Env)
    : option (OS * Env * list invocation) :=
  match ps with
  | [] => Some (s, e, [])
  | Tick :: ps' => s' ← OS_TaskTimer s; OS_passes ps' s' e
  | Run :: ps' =>
      '(s', e', l1) ← OS_TaskExecution s e;
      '(s'', e'', l2) ← OS_passes ps' s' e';
      Some (s'', e'', l1 ++ l2)
  end.

(** [n] ticks followed by one execution pass, and [k] such rounds of ten
    ticks and a pass. *)
Definition ticks_then_run (n : nat) (s : OS) (e : Env)
    : option (OS * Env * list invocation) :=
  s' ← OS_ticks n s; OS_TaskExecution s' e.

Fixpoint scenario_cycles (k : nat) (s : OS) (e : Env) : option (OS * Env) :=
  match k with
  | O => Some (s, e)
  | S k' => '(s1, e1, _) ← ticks_then_run 10 s e; scenario_cycles k' s1 e1
  end.

(** ** The public interface as a transition system *)
Inductive OS_call : Type :=
| TaskCreate (f : fncPtr) (period : Z) (st : OS_state) (data : Z) (defer : Z)
| TaskCreateSimple (f : fncPtr)
| TaskScheduleSimple (f : fncPtr) (defer : Z)
| TaskTimer
| TaskExecution
| SetTaskState (f : fncPtr) (st : OS_state)
| SetTaskPeriod (f : fncPtr) (period : Z)
| SetTaskExecuteTime (f : fncPtr) (time : Z).

(** The numeric arguments of a call are [uint32_t] values. *)
Definition typed_call (c : OS_call) : Prop :=
  match c with
  | TaskCreate _ p _ _ d => uint32 p ∧ uint32 d
  | TaskScheduleSimple _ d => uint32 d
  | SetTaskPeriod _ p => uint32 p
  | SetTaskExecuteTime _ t => uint32 t
  | _ => True
  end.

Definition OS_step (c : OS_call) (x : OS * Env) : option (OS * Env) :=
  let '(s, e) := x in
  match c with
  | TaskCreate f p st d df => r ← OS_TaskCreate f p st d df s; Some (r.2, e)
  | TaskCreateSimple f => r ← OS_TaskCreateSimple f s; Some (r.2, e)
  | TaskScheduleSimple f df => r ← OS_TaskScheduleSimple f df s; Some (r.2, e)
  | TaskTimer => s' ← OS_TaskTimer s; Some (s', e)
  | TaskExecution => r ← OS_TaskExecution s e; Some (r.1.1, r.1.2)
  | SetTaskState f st => r ← OS_SetTaskState f st s; Some (r.2, e)
  | SetTaskPeriod f p => r ← OS_SetTaskPeriod f p s; Some (r.2, e)
  | SetTaskExecuteTime f t => r ← OS_SetTaskExecuteTime f t s; Some (r.2, e)
  end.

Fixpoint OS_run (cs : list OS_call) (x : OS * Env) : option (OS * Env) :=
  match cs with
  | [] => Some x
  | c :: cs' => x' ← OS_step c x; OS_run cs' x'
  end.

(** A state is reachable when some sequence of well-typed calls leads to
    it from the initial state. *)
Definition reachable (s : OS) : Prop :=
  ∃ cs e0 e, Forall typed_call cs ∧ OS_run cs (OS_init, e0) = Some (s, e).

(** *** Scripts of registrations

    A script lists registrations, whose feedback is collected, and other
    calls of the public interface made in between. *)
Inductive script_item : Type :=
| Register (r : registration)
| Between (c : OS_call).

Fixpoint run_script (items : list script_item) (x : OS * Env)
    : option (list OS_feedback * (OS * Env)) :=
  match items with
  | [] => Some ([], x)
  | Register r :: rest =>
      '(fb, s1) ← OS_register r x.1;
      '(fbs, x') ← run_script rest (s1, x.2);
      Some (fb :: fbs, x')
  | Between c :: rest => x1 ← OS_step c x; run_script rest x1
  end.

Definition registrations (items : list script_item) : list registration :=
  omap (λ it, match it with Register r => Some r | Between _ => None end) items.

Definition is_registration (c : OS_call) : Prop :=
  match c with
  | TaskCreate _ _ _ _ _ | TaskCreateSimple _ | TaskScheduleSimple _ _ => True
  | _ => False
  end.

(** No slot below the tail index is STOPPED: a tick on such a table
    reclaims nothing. *)
Definition none_stopped (s : OS) : Prop :=
  ∀ i t, i < task_count s → task_array s !! i = Some t → state t ≠ STOPPED.

(** No reclamation along a script: the calls in between are not
    registrations, and every timer tick among them runs on a table without a
    STOPPED slot. *)
Fixpoint no_reclamation (items : list script_item) (x : OS * Env) : Prop :=
  match items with
  | [] => True
  | Register r :: rest =>
      match OS_register r x.1 with
      | Some (_, s1) => no_reclamation rest (s1, x.2)
      | None => True
      end
  | Between c :: rest =>
      ¬ is_registration c ∧ (c = TaskTimer → none_stopped x.1) ∧
      match OS_step c x with
      | Some x1 => no_reclamation rest x1
      | None => True
      end
  end.

End Tasks.

(** The schedule of an application that runs one execution pass after every
    timer tick, for [n] ticks. *)
Fixpoint main_loop (n : nat) : list pass :=
  match n with
  | O => []
  | S n' => Tick :: Run :: main_loop n'
  end.

(** ** What an execution pass is to do, in the words of the interface

    The tasks a pass is to run, read off the table as it is before the
    pass: the READY slots among [i], ..., [i + n - 1] with their records,
    in the order of their indices. *)
Definition ready_at (arr : list OS_struct) (i : nat) : list (nat * OS_struct) :=
  match arr !! i with
  | Some t => if decide (state t = READY) then [(i, t)] else []
  | None => []
  end.

Fixpoint ready_range (arr : list OS_struct) (n i : nat) : list (nat * OS_struct) :=
  match n with
  | O => []
  | S n' => ready_at arr i ++ ready_range arr n' (S i)
  end.

Definition ready_slots (s : OS) : list (nat * OS_struct) :=
  ready_range (task_array s) (task_count s) 0.

(** Running a list of tasks: the body of each is applied once, to its data
    pointer, in the environment the one before it left; the result is the
    last environment and the values returned, one per call. *)
Fixpoint run_ready {Env : Type} (call : fncPtr → Z → Env → Z * Env)
    (l : list (nat * OS_struct)) (e : Env) : Env * list invocation :=
  match l with
  | [] => (e, [])
  | (i, t) :: l' =>
      let '(r, e1) := call (function t) (data_ptr t) e in
      let '(e2, log) := run_ready call l' e1 in
      (e2, mkInv i (wrap32 r) :: log)
  end.

(** Two assignments of bodies that agree on every entry point but [f]. *)
Definition agree_off {Env : Type} (f : fncPtr)
    (call call' : fncPtr → Z → Env → Z * Env) : Prop :=
  ∀ g d e, g ≠ f → call' g d e = call g d e.

Arguments TaskCreate (_ _)%_Z _ (_ _)%_Z.
Arguments TaskCreateSimple _%_Z.
Arguments TaskScheduleSimple (_ _)%_Z.
Arguments SetTaskState _%_Z _.
Arguments SetTaskPeriod (_ _)%_Z.
Arguments SetTaskExecuteTime (_ _)%_Z.

(** ** Vocabulary of the statements *)

(** The well-formedness of the table: it has [OS_MAX_TASK_NUM] slots, the
    tail index stays within it, the clock is a 32-bit value, every slot from
    the tail index on still has a null entry point, and no two slots below
    the tail index hold the same non-null entry point. *)
Record OS_inv (s : OS) : Prop := mkInvariant {
  inv_time : uint32 (os_time s);
  inv_length : length (task_array s) = OS_MAX_TASK_NUM;
  inv_count : task_count s ≤ OS_MAX_TASK_NUM;
  inv_tail : ∀ i t, task_array s !! i = Some t → task_count s ≤ i → function t = NULL;
  inv_unique : ∀ i j ti tj,
      i < task_count s → j < task_count s →
      task_array s !! i = Some ti → task_array s !! j = Some tj →
      function ti = function tj → function ti ≠ NULL → i = j
}.

(** An active record: a slot below the tail index whose entry point is [f]. *)
Definition holds (s : OS) (i : nat) (f : fncPtr) : Prop :=
  i < task_count s ∧ ∃ t, task_array s !! i = Some t ∧ function t = f.

(** The number of active records: slots below the tail index with a
    non-null entry point. *)
Definition active_count (s : OS) : nat :=
  length (filter (λ t, function t ≠ NULL) (take (task_count s) (task_array s))).

Definition valid_period (p : Z) : Prop := (OS_MIN_TIME ≤ p ≤ OS_MAX_TIME)%Z.

(** No slot below the tail index is free. *)
Definition dense (s : OS) : Prop :=
  ∀ i t, i < task_count s → task_array s !! i = Some t → function t ≠ NULL.

(** A registration the claims call well-formed: a non-null entry point and a
    period within the bounds. *)
Definition proper (r : registration) : Prop :=
  reg_function r ≠ NULL ∧ valid_period (reg_period r).

(** No slot with a null entry point below the tail index is BLOCKED or
    READY: the two passes never come to call through a null pointer. *)
Definition no_null_task (s : OS) : Prop :=
  ∀ j t, j < task_count s → task_array s !! j = Some t → function t = NULL →
         state t = SUSPENDED ∨ state t = STOPPED.

(** The calls that store a state for the entry point [f] on request: the
    state setter and the registrations of [f]. *)
Definition sets_state_of (f : fncPtr) (c : OS_call) : Prop :=
  match c with
  | SetTaskState g _ | TaskCreate g _ _ _ _
  | TaskCreateSimple g | TaskScheduleSimple g _ => g = f
  | _ => False
  end.

(** The second state has the tail index and the entry points of the first. *)
Definition same_functions (s s' : OS) : Prop :=
  task_count s' = task_count s ∧
  ∀ j, function <$> task_array s' !! j = function <$> task_array s !! j.

(** The first slot from the front whose entry point is null. *)
Definition first_free (s : OS) (r : nat) : Prop :=
  (∃ t, task_array s !! r = Some t ∧ function t = NULL) ∧
  ∀ j t', j < r → task_array s !! j = Some t' → function t' ≠ NULL.

(** The record of a READY task after its call returned [r] at time [now]. *)
Definition after_call (now : Z) (t : OS_struct) (r : Z) : OS_struct :=
  mkTask (function t)
         (if decide (r ≠ task_period t) then r else task_period t)
         (if decide (r ≠ task_period t) then wrap32 (now + r) else execute_time t)
         (if decide (r = period_end) then STOPPED else BLOCKED)
         (data_ptr t).

(** The calls of slot [j] recorded in a log. *)
Definition calls_of (j : nat) (log : list invocation) : list invocation :=
  filter (λ x, inv_slot x = j) log.

(** No READY slot in the range has a null entry point: the execution pass
    can call every task it selects. *)
Definition callable (arr : list OS_struct) (lo hi : nat) : Prop :=
  ∀ j t, lo ≤ j < hi → arr !! j = Some t → state t = READY → function t ≠ NULL.

(** The table after slot [r] received the record of a registration. *)
Definition with_record (s : OS) (r : nat) (f : fncPtr) (p : Z) (st : OS_state)
    (d df : Z) : list OS_struct :=
  <[r := mkTask f p (wrap32 (os_time s + df)) st d]> (task_array s).

Arguments OS_TaskFind _%_Z _.
Arguments OS_TaskIsInQueue _%_Z _.
Arguments OS_TaskCreateSimple _%_Z _.
Arguments OS_TaskScheduleSimple (_ _)%_Z _.
Arguments OS_GetTaskState _%_Z _.
Arguments OS_GetTaskPeriod _%_Z _.
Arguments OS_GetTaskExecuteTime _%_Z _.
Arguments OS_SetTaskState _%_Z _ _.
Arguments OS_SetTaskPeriod (_ _)%_Z _.
Arguments OS_SetTaskExecuteTime (_ _)%_Z _.
Arguments mkInv _ _%_Z.
Arguments holds _ _ _%_Z.

(** ** Concrete tables and task bodies used in examples *)

(** Task bodies without an environment: every task asks to be stopped, or
    every task asks for a period of ten ticks. *)
Definition stop_tasks : fncPtr → Z → unit → Z * unit := λ _ _ e, (period_end, e).
Definition ten_tasks : fncPtr → Z → unit → Z * unit := λ _ _ e, (period_10ms, e).

(** The same bodies but for entry point [f], whose body returns the
    terminal value. *)
Definition ten_tasks_but (f : fncPtr) : fncPtr → Z → unit → Z * unit :=
  λ g d e, if decide (g = f) then (period_end, e) else ten_tasks g d e.

(** Twenty-five registrations of the entry points 1 .. 25, and the table
    they produce from the initial state. *)
Definition full_calls : list OS_call :=
  (λ k, TaskCreate (Z.of_nat k + 1) 1 BLOCKED 0 0) <$> seq 0 OS_MAX_TASK_NUM.

Definition full_table : OS :=
  mkOS ((λ k, mkTask (Z.of_nat k + 1) 1 0 BLOCKED 0) <$> seq 0 OS_MAX_TASK_NUM)
       OS_MAX_TASK_NUM 0.

(** Twenty-five registrations of the entry points 1 .. 25 as arguments, and
    one more. *)
Definition fill_regs : list registration :=
  (λ k, mkReg (Z.of_nat k + 1) 1 BLOCKED 0 0) <$> seq 0 OS_MAX_TASK_NUM.

Definition extra_reg : registration := mkReg 26 1 BLOCKED 0 0.

(** A script with these registrations: two of them, then a tick, an
    execution pass and a state setter, then the other twenty-three. *)
Definition fill_script : list script_item :=
  (Register <$> take 2 fill_regs) ++
  [Between TaskTimer; Between TaskExecution; Between (SetTaskState 1 SUSPENDED)] ++
  (Register <$> drop 2 fill_regs).

(** One task, entry point 1, registered and made READY by the first tick. *)
Definition one_ready : OS :=
  mkOS (<[0 := mkTask 1 1 1 READY 0]> (replicate OS_MAX_TASK_NUM zero_task)) 1 1.

(** Two tasks, entry points 1 and 2, registered and made READY by the first
    tick; the table after both stopped and were reclaimed together. *)
Definition two_ready_calls : list OS_call :=
  [TaskCreateSimple 1; TaskCreateSimple 2; TaskTimer].

Definition two_ready : OS :=
  mkOS (<[0 := mkTask 1 1 1 READY 0]>
          (<[1 := mkTask 2 1 1 READY 0]> (replicate OS_MAX_TASK_NUM zero_task)))
       2 1.

Definition two_reclaimed : OS := mkOS (replicate OS_MAX_TASK_NUM zero_task) 2 2.

(** The full table after every task stopped and was reclaimed: all
    twenty-five slots are free and the tail index is still 25. *)
Definition all_reclaimed : OS :=
  mkOS (replicate OS_MAX_TASK_NUM zero_task) OS_MAX_TASK_NUM 2.

(** The table of the scenario with one periodic task: entry point [A] with
    period 10 and data pointer [ctx] in slot 0, in state [st] with deadline
    [deadline], at time [now]. *)
Definition scenario_table (A ctx : Z) (st : OS_state) (deadline now : Z) : OS :=
  mkOS (<[0 := mkTask A period_10ms deadline st ctx]>
          (replicate OS_MAX_TASK_NUM zero_task))
       1 now.

(** A table whose only task, entry point 1, was registered SUSPENDED. *)
Definition suspended_table : OS :=
  mkOS (<[0 := mkTask 1 1 0 SUSPENDED 0]> (replicate OS_MAX_TASK_NUM zero_task)) 1 0.

(** The empty table when the clock shows the last 32-bit value, and the
    table after entry point 1 was then registered BLOCKED with period 1 and
    a delay of 6 ticks. *)
Definition last_time : Z := (2 ^ 32 - 1)%Z.

Definition late_empty : OS := mkOS (replicate OS_MAX_TASK_NUM zero_task) 0 last_time.

Definition late_table : OS :=
  mkOS (<[0 := mkTask 1 1 5 BLOCKED 0]> (replicate OS_MAX_TASK_NUM zero_task))
       1 last_time.

(** A table at time 10 whose only task, entry point 1 with period 10 and
    deadline 20, is READY. *)
Definition ready_table : OS :=
  mkOS (<[0 := mkTask 1 10 20 READY 0]> (replicate OS_MAX_TASK_NUM zero_task)) 1 10.

(** * Properties *)

(** Arithmetic with the table capacity unfolded. *)
Ltac cap_lia := unfold OS_MAX_TASK_NUM in *; lia.

(** ** Lookup *)

Lemma find_loop_found f arr n i r t :
  arr !! r = Some t → function t = f → i ≤ r < i + n →
  (∀ j t', i ≤ j < r → arr !! j = Some t' → function t' ≠ f) →
  find_loop f arr n i = Some r.
Proof.
  revert i. induction n as [|n IH]; intros i Hr Hf Hir Hfirst; [lia|].
  simpl. destruct (decide (i = r)) as [->|Hne].
  - rewrite Hr. simpl. by rewrite decide_True.
  - assert (is_Some (arr !! i)) as [ti Hti].
    { apply lookup_lt_is_Some. apply lookup_lt_Some in Hr. lia. }
    rewrite Hti. simpl. rewrite decide_False.
    + apply IH; [done|done|lia|]. intros j t' Hj. apply Hfirst. lia.
    + apply (Hfirst i); [lia|done].
Qed.

Lemma find_loop_absent f arr n i :
  i + n ≤ length arr →
  (∀ j t', i ≤ j < i + n → arr !! j = Some t' → function t' ≠ f) →
  find_loop f arr n i = Some (OS_MAX_TASK_NUM + 1).
Proof.
  revert i. induction n as [|n IH]; intros i Hlen Hno; [done|].
  simpl. assert (is_Some (arr !! i)) as [ti Hti].
  { apply lookup_lt_is_Some. lia. }
  rewrite Hti. simpl. rewrite decide_False.
  - apply IH; [lia|]. intros j t' Hj. apply Hno. lia.
  - apply (Hno i); [lia|done].
Qed.

Lemma find_loop_Some f arr n i r :
  find_loop f arr n i = Some r →
  (r = OS_MAX_TASK_NUM + 1 ∧
     ∀ j t', i ≤ j < i + n → arr !! j = Some t' → function t' ≠ f) ∨
  (i ≤ r < i + n ∧ (∃ t, arr !! r = Some t ∧ function t = f) ∧
     ∀ j t', i ≤ j < r → arr !! j = Some t' → function t' ≠ f).
Proof.
  revert i. induction n as [|n IH]; intros i H; simpl in H.
  - left. split; [by injection H as <-|]. intros; lia.
  - destruct (arr !! i) as [ti|] eqn:Hti; simpl in H; [|done].
    destruct (decide (function ti = f)) as [Hf|Hf].
    + right. inversion H; subst r. split; [lia|]. split; [eauto|]. intros; lia.
    + destruct (IH _ H) as [[-> Hno]|(Hr & Hex & Hfirst)].
      * left. split; [done|]. intros j t' Hj Hl.
        destruct (decide (j = i)) as [->|]; [congruence|]. apply (Hno j); [lia|done].
      * right. split; [lia|]. split; [done|]. intros j t' Hj Hl.
        destruct (decide (j = i)) as [->|]; [congruence|]. apply (Hfirst j); [lia|done].
Qed.


Lemma find_loop_total f arr n i :
  i + n ≤ length arr → is_Some (find_loop f arr n i).
Proof.
  revert i. induction n as [|n IH]; intros i Hlen; simpl; [eauto|].
  destruct (lookup_lt_is_Some_2 arr i) as [t Ht]; [lia|].
  rewrite Ht. simpl. destruct (decide (function t = f)); [eauto|].
  apply IH. lia.
Qed.

Lemma TaskFind_total f s :
  task_count s ≤ length (task_array s) → is_Some (OS_TaskFind f s).
Proof. intros H. apply find_loop_total. lia. Qed.

(** What [OS_TaskFind] returns: the invalid position when no slot below the
    tail index holds [f], the first such slot otherwise. *)
Lemma TaskFind_Some f s r :
  OS_TaskFind f s = Some r →
  (r = OS_MAX_TASK_NUM + 1 ∧ ∀ i, ¬ holds s i f) ∨
  (holds s r f ∧ ∀ j, j < r → ¬ holds s j f).
Proof.
  intros H. apply find_loop_Some in H as [[-> Hno]|(Hr & (t & Ht & Hf) & Hfirst)].
  - left. split; [done|]. intros i (Hi & t & Ht & Hf). by apply (Hno i t); [lia|..].
  - right. split.
    + split; [lia|eauto].
    + intros j Hj (_ & t' & Ht' & Hf'). by apply (Hfirst j t'); [lia|..].
Qed.

Lemma TaskFind_fresh f s :
  task_count s ≤ length (task_array s) → (∀ i, ¬ holds s i f) →
  OS_TaskFind f s = Some (OS_MAX_TASK_NUM + 1).
Proof.
  intros Hlen Hno. apply find_loop_absent; [lia|].
  intros j t' Hj Ht' Hf. apply (Hno j). split; [lia|eauto].
Qed.

Lemma TaskFind_first f s r :
  holds s r f → (∀ j, j < r → ¬ holds s j f) → OS_TaskFind f s = Some r.
Proof.
  intros (Hr & t & Ht & Hf) Hfirst. apply (find_loop_found f _ _ _ r t); [done|done|lia|].
  intros j t' Hj Ht' Hf'. apply (Hfirst j); [lia|]. split; [lia|eauto].
Qed.

(** With unique identities the slot of a non-null entry point is the one
    lookup returns. *)
Lemma TaskFind_holds f s i :
  OS_inv s → holds s i f → f ≠ NULL → OS_TaskFind f s = Some i.
Proof.
  intros HI Hh Hf. apply TaskFind_first; [done|].
  intros j Hj (Hjc & tj & Htj & Hfj). destruct Hh as (Hic & ti & Hti & Hfi).
  assert (j = i); [|lia].
  apply (inv_unique s HI j i tj ti); congruence.
Qed.

(** A valid position returned by lookup is a slot that holds the entry
    point. *)
Lemma TaskFind_slot g s r :
  OS_TaskFind g s = Some r → r ≤ OS_MAX_TASK_NUM →
  ∃ tr, task_array s !! r = Some tr ∧ function tr = g.
Proof.
  intros H Hr. apply TaskFind_Some in H as [[-> _]|[(_ & tr & Htr) _]]; [lia|eauto].
Qed.

(** ** Choice of the slot of a new record *)

Lemma insert_loop_free s n i r t :
  task_array s !! r = Some t → function t = NULL → i ≤ r < i + n →
  (∀ j t', i ≤ j < r → task_array s !! j = Some t' → function t' ≠ NULL) →
  insert_loop s n i =
    Some (r, if decide (r = task_count s)
             then mkOS (task_array s) (wrap8 (task_count s + 1)) (os_time s)
             else s).
Proof.
  revert i. induction n as [|n IH]; intros i Hr Hf Hir Hfirst; [lia|].
  simpl. destruct (decide (i = r)) as [->|Hne].
  - rewrite Hr. simpl. rewrite decide_True by done. by destruct (decide (r = task_count s)).
  - destruct (lookup_lt_is_Some_2 (task_array s) i) as [ti Hti].
    { apply lookup_lt_Some in Hr. lia. }
    rewrite Hti. simpl. rewrite decide_False.
    + apply IH; [done|done|lia|]. intros j t' Hj. apply Hfirst. lia.
    + apply (Hfirst i); [lia|done].
Qed.

(** Below any slot that holds [f] there is a first one. *)
Lemma first_slot_below f (arr : list OS_struct) k t :
  arr !! k = Some t → function t = f →
  ∃ r tr, r ≤ k ∧ arr !! r = Some tr ∧ function tr = f ∧
          ∀ j t', j < r → arr !! j = Some t' → function t' ≠ f.
Proof.
  intros Hk Hf.
  destruct (list_find_elem_of (λ x, function x = f) arr t) as [[r tr] Hfind];
    [by eapply list_elem_of_lookup_2|done|].
  apply list_find_Some in Hfind as (Hr & Hfr & Hfirst).
  exists r, tr. repeat split; try done.
  - destruct (decide (r ≤ k)) as [|Hgt]; [done|].
    exfalso. apply (Hfirst k t); [done|lia|done].
  - intros j t' Hj Ht'. by apply (Hfirst j t').
Qed.

(** ** Registration *)

Lemma period_check_valid p :
  valid_period p → ((OS_MIN_TIME >? p) || (OS_MAX_TIME <? p))%Z = false.
Proof. unfold valid_period. intros H. apply orb_false_intro; lia. Qed.

Lemma period_check_invalid p :
  ¬ valid_period p → ((OS_MIN_TIME >? p) || (OS_MAX_TIME <? p))%Z = true.
Proof.
  unfold valid_period. intros H. apply orb_true_iff.
  destruct (decide (OS_MIN_TIME ≤ p)%Z); [right|left]; lia.
Qed.

Lemma TaskCreate_time_limit f p st d df s :
  ¬ valid_period p → OS_TaskCreate f p st d df s = Some (NOK_TIME_LIMIT, s).
Proof. intros H. unfold OS_TaskCreate. by rewrite period_check_invalid. Qed.

Lemma TaskCreate_cnt_limit f p st d df s :
  valid_period p → OS_MAX_TASK_NUM ≤ task_count s →
  OS_TaskCreate f p st d df s = Some (NOK_CNT_LIMIT, s).
Proof.
  intros Hp Hc. unfold OS_TaskCreate. rewrite period_check_valid by done.
  by rewrite decide_True.
Qed.

(** Re-registration below the capacity guard: the record found by lookup is
    overwritten where it is. *)
Lemma TaskCreate_found f p st d df s i :
  valid_period p → task_count s < OS_MAX_TASK_NUM →
  OS_TaskFind f s = Some i → holds s i f →
  OS_TaskCreate f p st d df s =
    Some (OK, mkOS (with_record s i f p st d df) (task_count s) (os_time s)).
Proof.
  intros Hp Hc Hfind (Hi & t & Ht & Hf). unfold OS_TaskCreate.
  rewrite period_check_valid by done. rewrite decide_False by lia.
  rewrite Hfind. simpl. rewrite decide_False by lia.
  rewrite Ht. simpl. unfold write_slot.
  rewrite decide_True by (by eapply lookup_lt_Some).
  simpl. by rewrite Hf.
Qed.

(** First registration of an identity below the capacity guard: the record
    goes to the first slot with a null entry point, and the tail index moves
    only when that slot is the tail itself. *)
Lemma TaskCreate_new f p st d df s :
  OS_inv s → valid_period p → task_count s < OS_MAX_TASK_NUM →
  (∀ i, ¬ holds s i f) →
  ∃ r, first_free s r ∧ r ≤ task_count s ∧
       OS_TaskCreate f p st d df s =
         Some (OK, mkOS (with_record s r f p st d df)
                        (if decide (r = task_count s) then task_count s + 1
                         else task_count s)
                        (os_time s)).
Proof.
  intros HI Hp Hc Hno.
  destruct (lookup_lt_is_Some_2 (task_array s) (task_count s)) as [tc Htc].
  { rewrite (inv_length s HI). done. }
  destruct (first_slot_below NULL _ _ _ Htc) as (r & tr & Hr & Htr & Hfr & Hfirst).
  { by apply (inv_tail s HI (task_count s)). }
  exists r. split; [split; eauto|]. split; [done|].
  unfold OS_TaskCreate. rewrite period_check_valid by done.
  rewrite decide_False by lia.
  rewrite TaskFind_fresh; [|rewrite (inv_length s HI); lia|done].
  simpl. unfold OS_TaskInsertPosition.
  rewrite (insert_loop_free s _ 0 r tr); [|done|done|lia|intros j t' Hj; apply Hfirst; lia].
  simpl. unfold write_slot. apply lookup_lt_Some in Htr.
  destruct (decide (r = task_count s)) as [->|Hne]; simpl.
  - rewrite decide_True by done. simpl. do 3 f_equal.
    unfold wrap8. apply Nat.mod_small. unfold OS_MAX_TASK_NUM in Hc. lia.
  - by rewrite decide_True.
Qed.

(** ** The timer pass *)

Lemma timer_loop_spec n : ∀ i s,
  i + n ≤ length (task_array s) →
  ∃ arr', timer_loop n i s = Some (mkOS arr' (task_count s) (os_time s)) ∧
          length arr' = length (task_array s) ∧
          ∀ j, arr' !! j =
               if decide (i ≤ j < i + n)
               then timer_slot (os_time s) <$> task_array s !! j
               else task_array s !! j.
Proof.
  induction n as [|n IH]; intros i s Hlen.
  - exists (task_array s). destruct s; simpl. split; [done|]. split; [done|].
    intros j. rewrite decide_False by lia. done.
  - simpl. destruct (lookup_lt_is_Some_2 (task_array s) i) as [t Ht]; [lia|].
    rewrite Ht. simpl. unfold write_slot. rewrite decide_True by lia. simpl.
    edestruct (IH (S i)) as (arr' & -> & Hl & Hlook).
    { simpl. rewrite length_insert. lia. }
    simpl in *. exists arr'. split; [done|]. rewrite length_insert in Hl.
    split; [done|]. intros j. rewrite Hlook.
    destruct (decide (j = i)) as [->|Hne].
    + rewrite decide_False by lia. rewrite decide_True by lia.
      rewrite list_lookup_insert_eq by lia. by rewrite Ht.
    + rewrite list_lookup_insert_ne by done.
      repeat case_decide; try done; lia.
Qed.

(** One tick: the clock moves on by one, and every slot below the tail index
    goes through [timer_slot] at the new time. *)
Lemma TaskTimer_spec s :
  task_count s ≤ length (task_array s) →
  ∃ arr', OS_TaskTimer s =
            Some (mkOS arr' (task_count s) (wrap32 (os_time s + period_1ms))) ∧
          length arr' = length (task_array s) ∧
          ∀ j, arr' !! j =
               if decide (j < task_count s)
               then timer_slot (wrap32 (os_time s + period_1ms)) <$> task_array s !! j
               else task_array s !! j.
Proof.
  intros Hlen. unfold OS_TaskTimer.
  edestruct (timer_loop_spec (task_count s) 0) as (arr' & -> & Hl & Hlook);
    [simpl; lia|].
  simpl in *. exists arr'. split; [done|]. split; [done|].
  intros j. rewrite Hlook. repeat case_decide; try done; lia.
Qed.

(** ** The execution pass *)

(** The list of READY slots of a range. *)
Lemma ready_range_ext arr arr' n : ∀ i,
  (∀ j, i ≤ j → arr' !! j = arr !! j) →
  ready_range arr' n i = ready_range arr n i.
Proof.
  induction n as [|n IH]; intros i H; [done|].
  simpl. unfold ready_at. rewrite (H i) by lia. f_equal.
  apply IH. intros j Hj. apply H. lia.
Qed.

Lemma ready_at_slot arr i j :
  filter (λ p, p.1 = j) (ready_at arr i) = if decide (i = j) then ready_at arr i else [].
Proof.
  unfold ready_at. destruct (arr !! i) as [t|]; [|by case_decide].
  case_decide; [|by case_decide].
  rewrite list.filter_cons, list.filter_nil. simpl. by repeat case_decide.
Qed.

(** Slot [j] occurs in the list once if it lies in the range and is READY,
    and not at all otherwise. *)
Lemma ready_range_slot arr n : ∀ i j,
  filter (λ p, p.1 = j) (ready_range arr n i) =
    if decide (i ≤ j < i + n) then ready_at arr j else [].
Proof.
  induction n as [|n IH]; intros i j.
  - simpl. rewrite decide_False by lia. done.
  - simpl. rewrite list.filter_app, ready_at_slot, IH.
    destruct (decide (i = j)) as [->|Hne].
    + rewrite decide_False by lia. rewrite decide_True by lia. by rewrite app_nil_r.
    + simpl. repeat case_decide; try done; lia.
Qed.

Lemma elem_of_ready_range arr n i j t :
  (j, t) ∈ ready_range arr n i ↔
  i ≤ j < i + n ∧ arr !! j = Some t ∧ state t = READY.
Proof.
  assert ((j, t) ∈ ready_range arr n i ↔
          (j, t) ∈ filter (λ p, p.1 = j) (ready_range arr n i)) as ->.
  { rewrite list_elem_of_filter. simpl. tauto. }
  rewrite ready_range_slot. unfold ready_at. case_decide as Hr.
  - destruct (arr !! j) as [tj|] eqn:Hj.
    + case_decide as Hst.
      * rewrite list_elem_of_singleton. split.
        -- intros [= <-]. done.
        -- intros (_ & [= ->] & _). done.
      * split; [by intros ?%not_elem_of_nil|]. intros (_ & [= ->] & ?). done.
    + split; [by intros ?%not_elem_of_nil|]. intros (_ & ? & _). done.
  - split; [by intros ?%not_elem_of_nil|]. intros (? & _). done.
Qed.

Lemma ready_range_sorted arr n : ∀ i,
  StronglySorted lt (ready_range arr n i).*1 ∧ Forall (le i) (ready_range arr n i).*1.
Proof.
  induction n as [|n IH]; intros i; [split; constructor|].
  destruct (IH (S i)) as [Hsort Hle]. simpl. unfold ready_at.
  assert (Forall (le i) (ready_range arr n (S i)).*1) as Hle'.
  { eapply Forall_impl; [exact Hle|]. intros; simpl in *; lia. }
  destruct (arr !! i) as [t|]; [|done]. case_decide; [|done].
  simpl. split; [by constructor|]. by constructor.
Qed.

Section Execution.

Context {Env : Type} (call : fncPtr → Z → Env → Z * Env).

Lemma exec_slot_ready now i t e :
  state t = READY → function t ≠ NULL →
  exec_slot call now i t e =
    Some (after_call now t (wrap32 (call (function t) (data_ptr t) e).1),
          (call (function t) (data_ptr t) e).2,
          [mkInv i (wrap32 (call (function t) (data_ptr t) e).1)]).
Proof.
  intros Hst Hf. unfold exec_slot, after_call.
  rewrite decide_True by done. rewrite decide_False by done.
  destruct (call (function t) (data_ptr t) e) as [r e']. simpl.
  repeat case_decide; try done; destruct t; simpl in *; congruence.
Qed.

Lemma exec_slot_idle now i t e :
  state t ≠ READY → exec_slot call now i t e = Some (t, e, []).
Proof. intros Hst. unfold exec_slot. by rewrite decide_False. Qed.

Lemma exec_loop_spec n : ∀ i s e,
  i + n ≤ length (task_array s) →
  callable (task_array s) i (i + n) →
  ∃ arr' e' log,
    exec_loop call n i s e = Some (mkOS arr' (task_count s) (os_time s), e', log) ∧
    length arr' = length (task_array s) ∧
    (∀ x, x ∈ log → i ≤ inv_slot x < i + n) ∧
    ∀ j t, task_array s !! j = Some t →
      if decide (i ≤ j < i + n ∧ state t = READY)
      then ∃ ej, let r := wrap32 (call (function t) (data_ptr t) ej).1 in
                 calls_of j log = [mkInv j r] ∧
                 arr' !! j = Some (after_call (os_time s) t r)
      else calls_of j log = [] ∧ arr' !! j = Some t.
Proof.
  induction n as [|n IH]; intros i s e Hlen Hcall.
  - exists (task_array s), e, []. destruct s; simpl. split; [done|]. split; [done|].
    split; [by intros x Hx; apply elem_of_nil in Hx|].
    intros j t Ht. rewrite decide_False by lia. done.
  - simpl. destruct (lookup_lt_is_Some_2 (task_array s) i) as [t Ht]; [lia|].
    rewrite Ht. simpl.
    assert (∃ t' e1 l1,
      exec_slot call (OS_GetOsTime s) i t e = Some (t', e1, l1) ∧
      if decide (state t = READY)
      then ∃ ej, let r := wrap32 (call (function t) (data_ptr t) ej).1 in
                 l1 = [mkInv i r] ∧ t' = after_call (os_time s) t r
      else l1 = [] ∧ t' = t) as (t' & e1 & l1 & -> & Hslot).
    { destruct (decide (state t = READY)) as [Hst|Hst].
      - rewrite exec_slot_ready; [|done|by apply (Hcall i); [lia|..]].
        do 3 eexists. split; [done|]. exists e. by split.
      - rewrite exec_slot_idle by done. by do 3 eexists. }
    simpl. unfold write_slot. rewrite decide_True by lia. simpl.
    edestruct (IH (S i) (mkOS (<[i:=t']> (task_array s)) (task_count s) (os_time s)) e1)
      as (arr' & e' & l2 & -> & Hl & Hin & Hlook).
    { simpl. rewrite length_insert. lia. }
    { intros j tj Hj. simpl. rewrite list_lookup_insert_ne by lia.
      apply Hcall. lia. }
    simpl in *. rewrite length_insert in Hl.
    exists arr', e', (l1 ++ l2). split; [done|]. split; [done|]. split.
    + intros x [Hx|Hx]%elem_of_app.
      * destruct (decide (state t = READY)); [destruct Hslot as (ej & -> & _)|destruct Hslot as [-> _]].
        -- apply list_elem_of_singleton in Hx as ->. simpl. lia.
        -- by apply elem_of_nil in Hx.
      * apply Hin in Hx. lia.
    + intros j tj Htj. unfold calls_of in *. rewrite list.filter_app.
      destruct (decide (j = i)) as [->|Hne].
      * assert (tj = t) as -> by congruence.
        specialize (Hlook i t'). rewrite list_lookup_insert_eq in Hlook by lia.
        specialize (Hlook eq_refl). rewrite decide_False in Hlook by lia.
        destruct Hlook as [-> ->]. rewrite app_nil_r.
        destruct (decide (state t = READY)) as [Hst|Hst].
        -- rewrite decide_True by (split; [lia|done]).
           destruct Hslot as (ej & -> & ->). exists ej. simpl.
           rewrite filter_cons_True by done. done.
        -- rewrite decide_False by tauto. destruct Hslot as [-> ->]. done.
      * specialize (Hlook j tj). rewrite list_lookup_insert_ne in Hlook by done.
        specialize (Hlook Htj).
        assert (filter (λ x, inv_slot x = j) l1 = []) as ->.
        { destruct (decide (state t = READY)); [destruct Hslot as (ej & -> & _)|destruct Hslot as [-> _]]; [|done].
          rewrite filter_cons_False by (simpl; congruence). done. }
        simpl. case_decide as Hdec.
        -- destruct Hdec as [Hr Hs]. rewrite decide_True by (split; [lia|done]). done.
        -- rewrite decide_False; [done|].
           intros [Hr Hs]. apply Hdec. split; [lia|done].
Qed.

(** One execution pass over a table whose READY slots can all be called:
    READY slots are called once and become what [after_call] says, every
    other slot is neither called nor changed. *)
Lemma TaskExecution_spec s e :
  task_count s ≤ length (task_array s) →
  callable (task_array s) 0 (task_count s) →
  ∃ arr' e' log,
    OS_TaskExecution call s e =
      Some (mkOS arr' (task_count s) (os_time s), e', log) ∧
    length arr' = length (task_array s) ∧
    (∀ x, x ∈ log → inv_slot x < task_count s) ∧
    ∀ j t, task_array s !! j = Some t →
      if decide (j < task_count s ∧ state t = READY)
      then ∃ ej, let r := wrap32 (call (function t) (data_ptr t) ej).1 in
                 calls_of j log = [mkInv j r] ∧
                 arr' !! j = Some (after_call (os_time s) t r)
      else calls_of j log = [] ∧ arr' !! j = Some t.
Proof.
  intros Hlen Hcall. unfold OS_TaskExecution.
  destruct (exec_loop_spec (task_count s) 0 s e) as (arr' & e' & log & -> & Hl & Hin & Hlook);
    [simpl; lia|done|].
  exists arr', e', log. split; [done|]. split; [done|]. split.
  - intros x Hx. apply Hin in Hx. simpl in Hx. lia.
  - intros j t Ht. specialize (Hlook j t Ht). simpl in Hlook.
    case_decide as Hdec.
    + destruct Hdec as [Hr Hs]. rewrite decide_True by (split; [lia|done]). done.
    + rewrite decide_False; [done|].
      intros [Hr Hs]. apply Hdec. split; [lia|done].
Qed.

(** Whatever the tasks do, a pass that returns has changed neither the
    tail index, nor the clock, nor any entry point. *)
Lemma exec_loop_frame n : ∀ i s e s' e' log,
  exec_loop call n i s e = Some (s', e', log) →
  task_count s' = task_count s ∧ os_time s' = os_time s ∧
  length (task_array s') = length (task_array s) ∧
  ∀ j, function <$> task_array s' !! j = function <$> task_array s !! j.
Proof.
  induction n as [|n IH]; intros i s e s' e' log H; simpl in H.
  - by inversion H.
  - destruct (task_array s !! i) as [t|] eqn:Ht; simpl in H; [|done].
    destruct (exec_slot call (OS_GetOsTime s) i t e) as [[[t1 e1] l1]|] eqn:Hslot;
      simpl in H; [|done].
    unfold write_slot in H. case_decide as Hi; simpl in H; [|done].
    destruct (exec_loop call n (S i) _ e1) as [[[s2 e2] l2]|] eqn:Hloop;
      simpl in H; [|done].
    inversion H; subst. apply IH in Hloop as (Hc & Ho & Hl & Hf). simpl in *.
    rewrite length_insert in Hl. repeat split; try done.
    intros j. rewrite Hf. destruct (decide (j = i)) as [->|Hne].
    + rewrite list_lookup_insert_eq by done. rewrite Ht. simpl. f_equal.
      unfold exec_slot in Hslot. case_decide; [|by inversion Hslot].
      case_decide; [done|].
      destruct (call (function t) (data_ptr t) e) as [r er].
      inversion Hslot; subst. repeat case_decide; done.
    + by rewrite list_lookup_insert_ne.
Qed.

(** The environment and the log of the loop are those of running the
    bodies of the READY slots of its range, each once, in slot order. *)
Lemma exec_loop_trace n : ∀ i s e s' e' log,
  exec_loop call n i s e = Some (s', e', log) →
  run_ready call (ready_range (task_array s) n i) e = (e', log).
Proof.
  induction n as [|n IH]; intros i s e s' e' log H; simpl in H.
  - by inversion H.
  - destruct (task_array s !! i) as [t|] eqn:Ht; simpl in H; [|done].
    destruct (exec_slot call (OS_GetOsTime s) i t e) as [[[t1 e1] l1]|] eqn:Hslot;
      simpl in H; [|done].
    unfold write_slot in H. case_decide as Hi; simpl in H; [|done].
    destruct (exec_loop call n (S i) _ e1) as [[[s2 e2] l2]|] eqn:Hloop;
      simpl in H; [|done].
    inversion H; subst. apply IH in Hloop. simpl in Hloop.
    rewrite (ready_range_ext (task_array s)) in Hloop
      by (intros j Hj; apply list_lookup_insert_ne; lia).
    change (ready_range (task_array s) (S n) i)
      with (ready_at (task_array s) i ++ ready_range (task_array s) n (S i)).
    unfold ready_at. rewrite Ht.
    unfold exec_slot in Hslot. case_decide as Hst.
    + case_decide; [done|]. rewrite decide_True by congruence.
      destruct (call (function t) (data_ptr t) e) as [r er] eqn:Hcall.
      inversion Hslot; subst. simpl. rewrite Hcall, Hloop. done.
    + rewrite decide_False by congruence. inversion Hslot; subst. done.
Qed.

Lemma TaskExecution_trace s e s' e' log :
  OS_TaskExecution call s e = Some (s', e', log) →
  run_ready call (ready_slots s) e = (e', log).
Proof. apply exec_loop_trace. Qed.

End Execution.

(** ** The table invariant *)

Lemma OS_init_inv : OS_inv OS_init.
Proof.
  split; unfold OS_init; cbn [task_array task_count os_time].
  - unfold uint32. lia.
  - by rewrite length_replicate.
  - cap_lia.
  - intros i t Ht _. apply lookup_replicate in Ht as [-> _]. done.
  - intros; lia.
Qed.

(** An operation that keeps the tail index and leaves every entry point as
    it was, or clears it, keeps the invariant. *)
Lemma inv_same_functions s arr' now :
  OS_inv s → uint32 now → length arr' = length (task_array s) →
  (∀ j t', arr' !! j = Some t' →
     ∃ t, task_array s !! j = Some t ∧ (function t' = function t ∨ function t' = NULL)) →
  OS_inv (mkOS arr' (task_count s) now).
Proof.
  intros [Htime Hlen Hcnt Htail Huniq] Hnow Hl Hf. split; simpl.
  - done.
  - congruence.
  - done.
  - intros i t' Ht' Hi. destruct (Hf i t' Ht') as (t & Ht & [->| ->]); [|done].
    by apply (Htail i).
  - intros i j ti' tj' Hi Hj Hti Htj Heq Hnn.
    destruct (Hf i ti' Hti) as (ti & Hti0 & [Hfi|Hfi]); [|done].
    destruct (Hf j tj' Htj) as (tj & Htj0 & [Hfj|Hfj]); [|congruence].
    apply (Huniq i j ti tj); congruence.
Qed.

Lemma inv_write_same s i t t' :
  OS_inv s → task_array s !! i = Some t → function t' = function t →
  OS_inv (mkOS (<[i:=t']> (task_array s)) (task_count s) (os_time s)).
Proof.
  intros HI Ht Hf.
  apply inv_same_functions; [done|apply (inv_time s HI)|by rewrite length_insert|].
  intros j tj Hj. destruct (decide (j = i)) as [->|Hne].
  - rewrite list_lookup_insert_eq in Hj by (by eapply lookup_lt_Some).
    inversion Hj; subst. eauto.
  - rewrite list_lookup_insert_ne in Hj by done. eauto.
Qed.

Lemma timer_slot_function now t :
  function (timer_slot now t) = function t ∨ function (timer_slot now t) = NULL.
Proof. unfold timer_slot. repeat case_decide; simpl; auto. Qed.

Lemma TaskTimer_inv s s' : OS_inv s → OS_TaskTimer s = Some s' → OS_inv s'.
Proof.
  intros HI H. destruct (TaskTimer_spec s) as (arr' & Heq & Hl & Hlook).
  { rewrite (inv_length s HI). apply (inv_count s HI). }
  rewrite Heq in H. inversion H; subst.
  apply inv_same_functions; [done|by apply Z.mod_pos_bound|done|].
  intros j t' Hj. rewrite Hlook in Hj. case_decide; [|eauto].
  destruct (task_array s !! j) as [t|]; simpl in Hj; [|done].
  inversion Hj; subst. exists t. split; [done|]. apply timer_slot_function.
Qed.

Lemma inv_new_record s r t' :
  OS_inv s → first_free s r → r ≤ task_count s → task_count s < OS_MAX_TASK_NUM →
  (∀ i, ¬ holds s i (function t')) →
  OS_inv (mkOS (<[r:=t']> (task_array s))
               (if decide (r = task_count s) then task_count s + 1 else task_count s)
               (os_time s)).
Proof.
  intros [Htime Hlen Hcnt Htail Huniq] [(tr & Htr & Hfr) Hfirst] Hr Hc Hno.
  assert (r < length (task_array s)) as Hrl by (by eapply lookup_lt_Some).
  split; simpl.
  - done.
  - by rewrite length_insert.
  - case_decide; cap_lia.
  - intros i t Ht Hi. rewrite list_lookup_insert_ne in Ht by (case_decide; lia).
    apply (Htail i t Ht). case_decide; lia.
  - intros i j ti tj Hi Hj Hti Htj Heq Hnn.
    assert (∀ k, k < (if decide (r = task_count s) then task_count s + 1 else task_count s) →
                 k ≠ r → k < task_count s) as Hlt by (intros k; case_decide; lia).
    destruct (decide (i = r)) as [->|Hir], (decide (j = r)) as [->|Hjr]; [done|..].
    + rewrite list_lookup_insert_eq in Hti by done.
      rewrite list_lookup_insert_ne in Htj by done. inversion Hti; subst ti.
      exfalso. apply (Hno j). split; [auto|]. exists tj. eauto.
    + rewrite list_lookup_insert_eq in Htj by done.
      rewrite list_lookup_insert_ne in Hti by done. inversion Htj; subst tj.
      exfalso. apply (Hno i). split; [auto|]. exists ti. eauto.
    + rewrite list_lookup_insert_ne in Hti by done.
      rewrite list_lookup_insert_ne in Htj by done.
      apply (Huniq i j ti tj); auto.
Qed.

Lemma TaskCreate_inv f p st d df s fb s' :
  OS_inv s → OS_TaskCreate f p st d df s = Some (fb, s') → OS_inv s'.
Proof.
  intros HI H.
  destruct (decide (valid_period p)) as [Hp|Hp];
    [|rewrite TaskCreate_time_limit in H by done; by inversion H; subst].
  destruct (decide (OS_MAX_TASK_NUM ≤ task_count s)) as [Hc|Hc];
    [rewrite TaskCreate_cnt_limit in H by done; by inversion H; subst|].
  destruct (TaskFind_total f s) as [r Hr].
  { rewrite (inv_length s HI). apply (inv_count s HI). }
  destruct (TaskFind_Some f s r Hr) as [[-> Hno]|[Hh Hfirst]].
  - destruct (TaskCreate_new f p st d df s) as (q & Hq & Hqc & Heq); [done|done|lia|done|].
    rewrite Heq in H. inversion H; subst. apply inv_new_record; [done|done|done|lia|done].
  - rewrite (TaskCreate_found f p st d df s r) in H; [|done|lia|done|done].
    inversion H; subst. destruct Hh as (_ & t & Ht & Hf).
    by apply (inv_write_same s r t).
Qed.

(** The three setters write one field of the record lookup returned. *)
Ltac setter_inv HI H :=
  match type of H with
  | context [OS_TaskFind ?f ?s] =>
      let r := fresh "r" in let Hr := fresh "Hr" in
      let t := fresh "t" in let Ht := fresh "Ht" in
      destruct (OS_TaskFind f s) as [r|] eqn:Hr; simpl in H; [|done];
      case_decide; [|by inversion H; subst];
      destruct (task_array s !! r) as [t|] eqn:Ht; simpl in H; [|done];
      unfold write_slot in H; case_decide; simpl in H; [|done];
      inversion H; subst; by apply (inv_write_same s r t)
  end.

Lemma SetTaskState_inv f st s fb s' :
  OS_inv s → OS_SetTaskState f st s = Some (fb, s') → OS_inv s'.
Proof. intros HI H. unfold OS_SetTaskState in H. setter_inv HI H. Qed.

Lemma SetTaskPeriod_inv f p s fb s' :
  OS_inv s → OS_SetTaskPeriod f p s = Some (fb, s') → OS_inv s'.
Proof. intros HI H. unfold OS_SetTaskPeriod in H. setter_inv HI H. Qed.

Lemma SetTaskExecuteTime_inv f x s fb s' :
  OS_inv s → OS_SetTaskExecuteTime f x s = Some (fb, s') → OS_inv s'.
Proof. intros HI H. unfold OS_SetTaskExecuteTime in H. setter_inv HI H. Qed.

Section Reachability.

Context {Env : Type} (call : fncPtr → Z → Env → Z * Env).

Lemma TaskExecution_inv s e s' e' log :
  OS_inv s → OS_TaskExecution call s e = Some (s', e', log) → OS_inv s'.
Proof.
  intros HI H. apply exec_loop_frame in H as (Hc & Ho & Hl & Hf).
  destruct s' as [arr' c' now']. simpl in *. subst c' now'.
  apply inv_same_functions; [done|apply (inv_time s HI)|done|].
  intros j t' Hj. specialize (Hf j). rewrite Hj in Hf. simpl in Hf.
  destruct (task_array s !! j) as [t|]; simpl in Hf; [|done].
  exists t. split; [done|]. left. congruence.
Qed.

Lemma OS_step_inv c s e s' e' :
  OS_inv s → OS_step call c (s, e) = Some (s', e') → OS_inv s'.
Proof.
  intros HI H. destruct c; simpl in H;
    match type of H with
    | (?m ≫= _) = _ => destruct m as [x|] eqn:Hm; simpl in H; [|done]
    end; inversion H; subst.
  - destruct x. by eapply TaskCreate_inv.
  - destruct x. by eapply TaskCreate_inv.
  - destruct x. by eapply TaskCreate_inv.
  - by eapply TaskTimer_inv.
  - destruct x as [[? ?] ?]. by eapply TaskExecution_inv.
  - destruct x. by eapply SetTaskState_inv.
  - destruct x. by eapply SetTaskPeriod_inv.
  - destruct x. by eapply SetTaskExecuteTime_inv.
Qed.

Lemma OS_run_inv cs : ∀ s e s' e',
  OS_inv s → OS_run call cs (s, e) = Some (s', e') → OS_inv s'.
Proof.
  induction cs as [|c cs IH]; intros s e s' e' HI H.
  - by inversion H; subst.
  - change (OS_step call c (s, e) ≫= OS_run call cs = Some (s', e')) in H.
    destruct (OS_step call c (s, e)) as [[s1 e1]|] eqn:Hstep; [|done].
    eapply IH; [|exact H]. by eapply OS_step_inv.
Qed.

(** Every reachable state satisfies the table invariant. *)
Lemma reachable_inv s : reachable call s → OS_inv s.
Proof.
  intros (cs & e0 & e & _ & H). eapply OS_run_inv; [|done]. apply OS_init_inv.
Qed.

End Reachability.

(** ** Re-registration (C1) *)

(** The number of active records depends on the entry points only. *)
Lemma active_length_functions (l l' : list OS_struct) :
  function <$> l = function <$> l' →
  length (filter (λ t, function t ≠ NULL) l) =
  length (filter (λ t, function t ≠ NULL) l').
Proof.
  revert l'. induction l as [|x l IH]; intros [|y l'] H; try done.
  simpl in H. injection H as Hxy Hl.
  rewrite !filter_cons. rewrite <- Hxy.
  destruct (decide (function x ≠ NULL)); simpl; rewrite (IH l'); done.
Qed.

Lemma active_count_write_same s i t t' :
  task_array s !! i = Some t → function t' = function t →
  active_count (mkOS (<[i:=t']> (task_array s)) (task_count s) (os_time s)) =
  active_count s.
Proof.
  intros Ht Hf. unfold active_count. simpl. apply active_length_functions.
  rewrite !fmap_take. f_equal. rewrite list_fmap_insert.
  apply list_insert_id. rewrite list_lookup_fmap, Ht. simpl. congruence.
Qed.

(** Below the capacity guard the claim holds: re-registering an entry point
    that has an active record returns OK, rewrites that record where it is,
    leaves every other slot, the tail index and the number of active records
    as they were. *)
Lemma TaskCreate_reregister f p st d df s i :
  OS_inv s → holds s i f → f ≠ NULL → valid_period p →
  task_count s < OS_MAX_TASK_NUM →
  ∃ s', OS_TaskCreate f p st d df s = Some (OK, s') ∧
        task_array s' !! i = Some (mkTask f p (wrap32 (os_time s + df)) st d) ∧
        (∀ j, j ≠ i → task_array s' !! j = task_array s !! j) ∧
        task_count s' = task_count s ∧ os_time s' = os_time s ∧
        active_count s' = active_count s.
Proof.
  intros HI Hh Hf Hp Hc. eexists. split.
  { apply TaskCreate_found; [done|done|by apply TaskFind_holds|done]. }
  destruct Hh as (Hi & t & Ht & Hft). simpl. unfold with_record.
  split; [by rewrite list_lookup_insert_eq by (by eapply lookup_lt_Some)|].
  split; [by intros j Hj; rewrite list_lookup_insert_ne|].
  split; [done|]. split; [done|].
  by apply (active_count_write_same s i t).
Qed.

(** Once the tail index has reached the capacity the guard answers first:
    the call returns NOK_CNT_LIMIT and changes nothing, also for an entry
    point that has an active record. *)
Lemma TaskCreate_reregister_full f p st d df s i :
  holds s i f → valid_period p → task_count s = OS_MAX_TASK_NUM →
  OS_TaskCreate f p st d df s = Some (NOK_CNT_LIMIT, s).
Proof. intros _ Hp Hc. apply TaskCreate_cnt_limit; [done|lia]. Qed.

Lemma full_calls_typed : Forall typed_call full_calls.
Proof.
  unfold full_calls. apply Forall_fmap, Forall_forall. intros k _.
  simpl. unfold uint32. lia.
Qed.

(** C1, the failing input.  The table filled by twenty-five registrations
    holds entry point 1 in slot 0; registering entry point 1 again with the
    valid period 5 returns NOK_CNT_LIMIT and leaves the record as it was,
    where the claim asks for OK and an overwritten record. *)
Theorem C1_reregistration_refused_at_capacity :
  ∀ (Env : Type) (call : fncPtr → Z → Env → Z * Env) (e : Env),
    OS_run call full_calls (OS_init, e) = Some (full_table, e) ∧
    task_array full_table !! 0 = Some (mkTask 1 1 0 BLOCKED 0) ∧
    task_count full_table = OS_MAX_TASK_NUM ∧
    OS_TaskCreate 1 5 READY 7 3 full_table = Some (NOK_CNT_LIMIT, full_table).
Proof. intros Env call e. repeat split; vm_compute; reflexivity. Qed.

(** ** The clock (C9) and the deadline of a BLOCKED task (C4) *)

Lemma wrap32_range z : uint32 (wrap32 z).
Proof. by apply Z.mod_pos_bound. Qed.

Lemma wrap32_small z : uint32 z → wrap32 z = z.
Proof. intros H. by apply Z.mod_small. Qed.

Lemma wrap32_add_l a b : wrap32 (wrap32 a + b) = wrap32 (a + b).
Proof. unfold wrap32. by rewrite Zplus_mod_idemp_l. Qed.

Lemma wrap32_add_r a b : wrap32 (a + wrap32 b) = wrap32 (a + b).
Proof. unfold wrap32. by rewrite Zplus_mod_idemp_r. Qed.

Lemma OS_ticks_spec n : ∀ s,
  task_count s ≤ length (task_array s) →
  ∃ s', OS_ticks n s = Some s' ∧
        task_count s' = task_count s ∧
        length (task_array s') = length (task_array s) ∧
        (uint32 (os_time s) → os_time s' = wrap32 (os_time s + Z.of_nat n)).
Proof.
  induction n as [|n IH]; intros s Hlen.
  - exists s. repeat split; try done. intros Hr. by rewrite Z.add_0_r, wrap32_small.
  - simpl. destruct (TaskTimer_spec s Hlen) as (arr' & -> & Hl & _). simpl.
    destruct (IH (mkOS arr' (task_count s) (wrap32 (os_time s + period_1ms))))
      as (s' & -> & Hc & Hl' & Ht); [simpl; lia|].
    simpl in *. exists s'. repeat split; [done|congruence|].
    intros _. rewrite Ht by apply wrap32_range. rewrite wrap32_add_l.
    f_equal. unfold period_1ms. lia.
Qed.

Section Wraparound.

Context {Env : Type} (call : fncPtr → Z → Env → Z * Env).

Lemma OS_run_app cs1 : ∀ cs2 x,
  OS_run call (cs1 ++ cs2) x = OS_run call cs1 x ≫= OS_run call cs2.
Proof.
  induction cs1 as [|c cs1 IH]; intros cs2 x; [done|].
  change (OS_step call c x ≫= OS_run call (cs1 ++ cs2) =
          (OS_step call c x ≫= OS_run call cs1) ≫= OS_run call cs2).
  destruct (OS_step call c x) as [x'|]; [|done]. apply IH.
Qed.

(** Ticks on the empty table only move the clock. *)
Lemma OS_run_empty_ticks n : ∀ now e,
  OS_run call (replicate n TaskTimer)
         (mkOS (replicate OS_MAX_TASK_NUM zero_task) 0 now, e) =
    Some (mkOS (replicate OS_MAX_TASK_NUM zero_task) 0
               (if n is O then now else wrap32 (now + Z.of_nat n)), e).
Proof.
  induction n as [|n IH]; intros now e; [done|].
  change (replicate (S n) TaskTimer) with (TaskTimer :: replicate n TaskTimer).
  change (OS_run call (replicate n TaskTimer)
            (mkOS (replicate OS_MAX_TASK_NUM zero_task) 0 (wrap32 (now + period_1ms)), e) =
          Some (mkOS (replicate OS_MAX_TASK_NUM zero_task) 0
                     (wrap32 (now + Z.of_nat (S n))), e)).
  rewrite IH. destruct n as [|n]; do 3 f_equal.
  - rewrite wrap32_add_l. f_equal. unfold period_1ms. lia.
Qed.

Lemma last_time_ticks (e : Env) :
  Forall typed_call (replicate (Z.to_nat last_time) TaskTimer) ∧
  OS_run call (replicate (Z.to_nat last_time) TaskTimer) (OS_init, e) =
    Some (late_empty, e).
Proof.
  split; [by apply Forall_replicate|].
  unfold OS_init. rewrite OS_run_empty_ticks. unfold late_empty.
  assert (Z.of_nat (Z.to_nat last_time) = last_time) as Hn
    by (apply Z2Nat.id; unfold last_time; lia).
  destruct (Z.to_nat last_time) as [|m].
  - exfalso. unfold last_time in Hn. lia.
  - rewrite Hn. reflexivity.
Qed.

(** The clock reaches its last value after so many ticks; the states
    used to show the wrap-around are reachable. *)
Lemma late_empty_reachable (e : Env) : reachable call late_empty.
Proof.
  exists (replicate (Z.to_nat last_time) TaskTimer), e, e. apply last_time_ticks.
Qed.

Lemma late_table_reachable (e : Env) : reachable call late_table.
Proof.
  exists (replicate (Z.to_nat last_time) TaskTimer ++ [TaskCreate 1 1 BLOCKED 0 6]), e, e.
  destruct (last_time_ticks e) as [Hty Hrun]. split.
  - apply Forall_app. split; [done|]. apply Forall_singleton. simpl. unfold uint32. lia.
  - rewrite OS_run_app, Hrun. reflexivity.
Qed.

End Wraparound.

(** C9, counterexample.  With the clock at its last 32-bit value, a state
    reached after 2^32 - 1 ticks, one more tick takes the clock back to
    zero: the counter is not strictly increasing over that tick. *)
Lemma C9_clock_wraps_to_zero :
  ∃ s', OS_TaskTimer late_empty = Some s' ∧
        OS_GetOsTime late_empty = (2 ^ 32 - 1)%Z ∧
        OS_GetOsTime s' = 0%Z ∧
        ¬ (OS_GetOsTime late_empty < OS_GetOsTime s')%Z.
Proof. eexists. split; [reflexivity|]. vm_compute. repeat split; congruence. Qed.

(** C9, amended.  Every tick returns and sets the clock to its old value
    plus one tick unit modulo 2^32; so does every sequence of [n] ticks,
    with [n] units.  While the sum stays below 2^32 the new value is the old
    one plus [n], hence strictly larger for [n > 0]; from 2^32 - 1 the clock
    goes to 0. *)
Theorem C9_clock_advances_modulo s n :
  task_count s ≤ length (task_array s) → uint32 (OS_GetOsTime s) →
  (∃ s1, OS_TaskTimer s = Some s1 ∧
         OS_GetOsTime s1 = wrap32 (OS_GetOsTime s + period_1ms) ∧
         ((OS_GetOsTime s < 2 ^ 32 - 1)%Z →
            OS_GetOsTime s1 = (OS_GetOsTime s + 1)%Z ∧
            (OS_GetOsTime s < OS_GetOsTime s1)%Z) ∧
         (OS_GetOsTime s = (2 ^ 32 - 1)%Z → OS_GetOsTime s1 = 0%Z)) ∧
  (∃ sn, OS_ticks n s = Some sn ∧
         OS_GetOsTime sn = wrap32 (OS_GetOsTime s + Z.of_nat n) ∧
         ((OS_GetOsTime s + Z.of_nat n < 2 ^ 32)%Z →
            OS_GetOsTime sn = (OS_GetOsTime s + Z.of_nat n)%Z)).
Proof.
  intros Hlen Hr. unfold OS_GetOsTime in *. split.
  - destruct (TaskTimer_spec s Hlen) as (arr' & -> & _ & _).
    eexists. split; [done|]. simpl. split; [done|]. unfold period_1ms. split.
    + intros Hlt. rewrite wrap32_small by (unfold uint32 in *; lia). lia.
    + intros ->. reflexivity.
  - destruct (OS_ticks_spec n s Hlen) as (sn & -> & _ & _ & Ht).
    exists sn. split; [done|]. rewrite Ht by done. split; [done|].
    intros Hlt. apply wrap32_small. unfold uint32 in *. lia.
Qed.

Lemma C9_clock_advances_modulo_witness :
  ∃ s1, OS_TaskTimer full_table = Some s1 ∧ OS_GetOsTime s1 = 1%Z.
Proof.
  destruct (C9_clock_advances_modulo full_table 3) as [(s1 & H1 & _ & Hlt & _) _].
  - vm_compute. lia.
  - vm_compute. split; congruence.
  - exists s1. split; [exact H1|]. apply Hlt. vm_compute. reflexivity.
Defined.

(** C4, counterexample.  The clock shows T = 2^32 - 1 and the BLOCKED task
    in slot 0 has period 1 and deadline d = 5, so d ≤ T; this state is
    reached by 2^32 - 1 ticks and one registration with a delay of 6.  The
    next tick takes the clock to 0, the test [5 <= 0] fails, and the task
    stays BLOCKED with its deadline unchanged. *)
Lemma C4_blocked_past_deadline_not_readied :
  task_array late_table !! 0 = Some (mkTask 1 1 5 BLOCKED 0) ∧
  0 < task_count late_table ∧
  (5 ≤ OS_GetOsTime late_table)%Z ∧
  ∃ s', OS_TaskTimer late_table = Some s' ∧
        task_array s' !! 0 = Some (mkTask 1 1 5 BLOCKED 0) ∧
        task_array s' !! 0 ≠ Some (mkTask 1 1 (5 + 1) READY 0).
Proof.
  split; [reflexivity|]. split; [vm_compute; lia|]. split; [vm_compute; congruence|].
  eexists. split; [reflexivity|]. split; [reflexivity|]. vm_compute. congruence.
Qed.

(** C4, amended.  For a BLOCKED task below the tail index with period P and
    deadline d, a tick at time T returns and compares d with the post-tick
    time (T + 1) mod 2^32: if d is at most that, the task becomes READY with
    deadline (d + P) mod 2^32, the old deadline plus the period; otherwise it
    stays BLOCKED with all fields unchanged.  In particular every d ≤ T with
    T below 2^32 - 1 makes the task READY. *)
Theorem C4_timer_readies_blocked_task s i t :
  task_count s ≤ length (task_array s) → uint32 (OS_GetOsTime s) →
  i < task_count s → task_array s !! i = Some t → state t = BLOCKED →
  ∃ s', OS_TaskTimer s = Some s' ∧
        OS_GetOsTime s' = wrap32 (OS_GetOsTime s + 1) ∧
        ((execute_time t ≤ OS_GetOsTime s')%Z →
           task_array s' !! i =
             Some (mkTask (function t) (task_period t)
                          (wrap32 (execute_time t + task_period t))
                          READY (data_ptr t))) ∧
        ((OS_GetOsTime s' < execute_time t)%Z → task_array s' !! i = Some t) ∧
        ((execute_time t ≤ OS_GetOsTime s)%Z → (OS_GetOsTime s < 2 ^ 32 - 1)%Z →
           task_array s' !! i =
             Some (mkTask (function t) (task_period t)
                          (wrap32 (execute_time t + task_period t))
                          READY (data_ptr t))).
Proof.
  intros Hlen Hr Hi Ht Hst. unfold OS_GetOsTime in *.
  destruct (TaskTimer_spec s Hlen) as (arr' & -> & _ & Hlook).
  eexists. split; [done|]. simpl. split; [done|].
  assert (∀ now, (execute_time t ≤ now)%Z →
            timer_slot now t =
              mkTask (function t) (task_period t)
                     (wrap32 (execute_time t + task_period t)) READY (data_ptr t)) as Hgo.
  { intros now Hle. unfold timer_slot. rewrite Hst. simpl.
    rewrite decide_True by done. rewrite wrap32_add_r. do 3 f_equal.
    unfold period_1ms. lia. }
  rewrite Hlook, decide_True, Ht by done. simpl. unfold period_1ms. split; [|split].
  - intros Hle. by rewrite Hgo.
  - intros Hlt. unfold timer_slot. rewrite Hst. simpl.
    rewrite decide_False by lia. done.
  - intros Hle Hlt. rewrite Hgo; [done|].
    rewrite wrap32_small by (unfold uint32 in *; lia). lia.
Qed.

Lemma C4_timer_readies_blocked_task_witness :
  ∃ s', OS_TaskTimer full_table = Some s' ∧
        task_array s' !! 3 = Some (mkTask 4 1 1 READY 0).
Proof.
  destruct (C4_timer_readies_blocked_task full_table 3 (mkTask 4 1 0 BLOCKED 0))
    as (s' & H1 & Ht & Hgo & _).
  - vm_compute. lia.
  - vm_compute. split; congruence.
  - vm_compute. lia.
  - reflexivity.
  - reflexivity.
  - exists s'. split; [exact H1|]. apply Hgo. rewrite Ht. vm_compute. congruence.
Defined.

(** ** What the execution pass does to a READY task (C5, C6) *)

Lemma ready_table_callable : callable (task_array ready_table) 0 (task_count ready_table).
Proof.
  intros j t Hj Ht _. assert (j = 0) as -> by (simpl in Hj; lia).
  injection Ht as <-. done.
Qed.

Section ExecutionClaims.

Context {Env : Type} (call : fncPtr → Z → Env → Z * Env).

(** C5.  A READY task below the tail index is called in some environment
    [ej]; with [r] the value it returns there (read as a [uint32_t]): if
    [r] differs from the stored period, the period becomes [r] and the
    deadline becomes the clock value plus [r] in 32-bit arithmetic, which
    is the plain sum whenever that fits in 32 bits; if [r] equals the
    stored period, period and deadline stay as they were. *)
Theorem C5_execution_applies_returned_period s e i t :
  task_count s ≤ length (task_array s) →
  callable (task_array s) 0 (task_count s) →
  i < task_count s → task_array s !! i = Some t → state t = READY →
  ∃ s' e' log ej t',
    OS_TaskExecution call s e = Some (s', e', log) ∧
    let r := wrap32 (call (function t) (data_ptr t) ej).1 in
    calls_of i log = [mkInv i r] ∧
    task_array s' !! i = Some t' ∧
    (r ≠ task_period t →
       task_period t' = r ∧
       execute_time t' = wrap32 (OS_GetOsTime s + r) ∧
       (uint32 (OS_GetOsTime s) → (OS_GetOsTime s + r < 2 ^ 32)%Z →
          execute_time t' = (OS_GetOsTime s + r)%Z)) ∧
    (r = task_period t →
       task_period t' = task_period t ∧ execute_time t' = execute_time t).
Proof.
  intros Hlen Hcall Hi Ht Hst.
  destruct (TaskExecution_spec call s e Hlen Hcall) as (arr' & e' & log & Hrun & _ & _ & Hlook).
  specialize (Hlook i t Ht). rewrite decide_True in Hlook by done.
  destruct Hlook as (ej & Hlog & Harr).
  exists (mkOS arr' (task_count s) (os_time s)), e', log, ej.
  eexists. split; [done|]. simpl. split; [done|]. split; [done|].
  unfold after_call, OS_GetOsTime. simpl. split.
  - intros Hne. rewrite !decide_True by done. split; [done|]. split; [done|].
    intros Hr Hlt. apply wrap32_small.
    pose proof (wrap32_range (call (function t) (data_ptr t) ej).1) as Hw.
    unfold uint32 in *. lia.
  - intros Heq. rewrite !decide_False by (intros Hne; by apply Hne). done.
Qed.

(** C6.  An execution pass over a table whose READY slots can all be
    called returns.  The environment and the values it returns are those of
    running the bodies of the READY slots below the tail index, each once,
    in slot order, every body in the environment the one before it left.
    A slot found READY occurs once among the tasks run; the value [r] its
    body returned is its one entry in the log, and the slot ends STOPPED if
    and only if [r] is [period_end], BLOCKED otherwise.  A slot that was
    not READY is not among the tasks run and is not changed.  No slot below
    the tail index is READY afterwards. *)
Theorem C6_execution_pass_dispositions s e :
  task_count s ≤ length (task_array s) →
  callable (task_array s) 0 (task_count s) →
  ∃ s' e' log,
    OS_TaskExecution call s e = Some (s', e', log) ∧
    run_ready call (ready_slots s) e = (e', log) ∧
    (∀ i t, (i, t) ∈ ready_slots s ↔
            i < task_count s ∧ task_array s !! i = Some t ∧ state t = READY) ∧
    task_count s' = task_count s ∧
    (∀ i t, i < task_count s → task_array s !! i = Some t → state t = READY →
       ∃ ej r t', r = wrap32 (call (function t) (data_ptr t) ej).1 ∧
                  filter (λ p, p.1 = i) (ready_slots s) = [(i, t)] ∧
                  calls_of i log = [mkInv i r] ∧
                  task_array s' !! i = Some t' ∧
                  (state t' = STOPPED ↔ r = period_end) ∧
                  (r ≠ period_end → state t' = BLOCKED)) ∧
    (∀ i t, task_array s !! i = Some t → state t ≠ READY →
       filter (λ p, p.1 = i) (ready_slots s) = [] ∧
       calls_of i log = [] ∧ task_array s' !! i = Some t) ∧
    (∀ i t', i < task_count s' → task_array s' !! i = Some t' → state t' ≠ READY).
Proof.
  intros Hlen Hcall.
  destruct (TaskExecution_spec call s e Hlen Hcall) as (arr' & e' & log & Hrun & Hl & _ & Hlook).
  exists (mkOS arr' (task_count s) (os_time s)), e', log.
  split; [done|]. split; [by apply (TaskExecution_trace call s e _ _ _ Hrun)|].
  split.
  { intros i t. unfold ready_slots. rewrite elem_of_ready_range.
    split; intros (? & ? & ?); (split; [lia|done]). }
  simpl. split; [done|]. split; [|split].
  - intros i t Hi Ht Hst. specialize (Hlook i t Ht). rewrite decide_True in Hlook by done.
    destruct Hlook as (ej & Hlog & Harr). exists ej. do 2 eexists.
    split; [reflexivity|]. split.
    { unfold ready_slots. rewrite ready_range_slot, decide_True by lia.
      unfold ready_at. rewrite Ht. by rewrite decide_True. }
    split; [exact Hlog|]. split; [exact Harr|]. unfold after_call. simpl.
    case_decide; split; done.
  - intros i t Ht Hst. specialize (Hlook i t Ht).
    rewrite decide_False in Hlook by (intros [_ ?]; done).
    split; [|done]. unfold ready_slots. rewrite ready_range_slot.
    case_decide; [|done]. unfold ready_at. rewrite Ht. by rewrite decide_False.
  - intros i t' Hi Ht'.
    destruct (lookup_lt_is_Some_2 (task_array s) i) as [t Ht]; [lia|].
    specialize (Hlook i t Ht). case_decide as Hdec.
    + destruct Hlook as (ej & _ & Harr). rewrite Harr in Ht'. injection Ht' as <-.
      unfold after_call. simpl. by case_decide.
    + destruct Hlook as [_ Harr]. rewrite Harr in Ht'. injection Ht' as <-.
      intros Hst. apply Hdec. done.
Qed.

End ExecutionClaims.

Lemma C5_execution_applies_returned_period_witness :
  ∃ s' e' log t',
    OS_TaskExecution stop_tasks ready_table () = Some (s', e', log) ∧
    task_array s' !! 0 = Some t' ∧
    task_period t' = 0%Z ∧ execute_time t' = 10%Z.
Proof.
  destruct (C5_execution_applies_returned_period stop_tasks ready_table () 0
              (mkTask 1 10 20 READY 0))
    as (s' & e' & log & ej & t' & Hrun & _ & Harr & Hne & _).
  - vm_compute. lia.
  - exact ready_table_callable.
  - vm_compute. lia.
  - reflexivity.
  - reflexivity.
  - exists s', e', log, t'. split; [exact Hrun|]. split; [exact Harr|].
    destruct Hne as (Hp & Hx & _); [vm_compute; congruence|].
    split; [exact Hp|]. rewrite Hx. reflexivity.
Defined.

Lemma C6_execution_pass_dispositions_witness :
  ∃ s' e' log,
    OS_TaskExecution ten_tasks ready_table () = Some (s', e', log) ∧
    run_ready ten_tasks (ready_slots ready_table) () = (e', log) ∧
    ∀ i t', i < task_count s' → task_array s' !! i = Some t' → state t' ≠ READY.
Proof.
  destruct (C6_execution_pass_dispositions ten_tasks ready_table ())
    as (s' & e' & log & Hrun & Htrace & _ & _ & _ & _ & Hnone).
  - vm_compute. lia.
  - exact ready_table_callable.
  - exists s', e', log. split; [exact Hrun|]. split; [exact Htrace|exact Hnone].
Defined.

(** ** Null entry points (C10) *)

(** Below the capacity guard a registration with a valid period returns OK
    whatever the entry point, null included. *)
Lemma TaskCreate_OK f p st d df s :
  OS_inv s → valid_period p → task_count s < OS_MAX_TASK_NUM →
  ∃ s', OS_TaskCreate f p st d df s = Some (OK, s').
Proof.
  intros HI Hp Hc. destruct (TaskFind_total f s) as [r Hr].
  { rewrite (inv_length s HI). apply (inv_count s HI). }
  destruct (TaskFind_Some f s r Hr) as [[-> Hno]|[Hh _]].
  - destruct (TaskCreate_new f p st d df s) as (q & _ & _ & ->); eauto.
  - rewrite (TaskCreate_found f p st d df s r); eauto.
Qed.

Lemma TaskCreate_feedback f p st d df s fb s' :
  OS_TaskCreate f p st d df s = Some (fb, s') →
  fb = OK ∨ fb = NOK_TIME_LIMIT ∨ fb = NOK_CNT_LIMIT.
Proof.
  unfold OS_TaskCreate. intros H.
  destruct ((OS_MIN_TIME >? p)%Z || (OS_MAX_TIME <? p)%Z); [inversion H; auto|].
  case_decide; [inversion H; auto|].
  destruct (OS_TaskFind f s) as [r|]; simpl in H; [|done].
  case_decide.
  - destruct (OS_TaskInsertPosition s) as [[q s1]|]; simpl in H; [|done].
    destruct (write_slot q _ s1); simpl in H; inversion H; auto.
  - destruct (task_array s !! r); simpl in H; [|done].
    destruct (write_slot r _ s); simpl in H; inversion H; auto.
Qed.

Lemma TaskIsInQueue_holds f s i :
  task_count s ≤ OS_MAX_TASK_NUM → holds s i f → OS_TaskIsInQueue f s = Some true.
Proof.
  intros Hc (Hi & t & Ht & Hf). unfold OS_TaskIsInQueue.
  destruct (first_slot_below f _ _ _ Ht Hf) as (r & tr & Hr & Htr & Hfr & Hfirst).
  rewrite (TaskFind_first f s r).
  - simpl. f_equal. apply bool_decide_eq_true. lia.
  - split; [lia|eauto].
  - intros j Hj (_ & tj & Htj & Hfj). by apply (Hfirst j tj).
Qed.

(** The state setter accepts whatever entry point lookup finds, null
    included. *)
Lemma SetTaskState_found g st s i :
  OS_inv s → holds s i g → ∃ s', OS_SetTaskState g st s = Some (OK, s').
Proof.
  intros HI Hh. unfold OS_SetTaskState.
  destruct (TaskFind_total g s) as [r Hr].
  { rewrite (inv_length s HI). apply (inv_count s HI). }
  rewrite Hr. simpl.
  destruct (TaskFind_Some g s r Hr) as [[-> Hno]|[(Hrc & tr & Htr & _) _]];
    [by destruct (Hno i)|].
  pose proof (inv_count s HI). rewrite decide_True by lia.
  rewrite Htr. simpl. unfold write_slot.
  rewrite decide_True by (by eapply lookup_lt_Some). simpl. eauto.
Qed.

(** C10.  A reachable state has a reclaimed slot below the tail index: after
    entry point 1 was registered, set STOPPED and reclaimed by a tick, slot 0
    is cleared and OS_TaskIsInQueue(NULL) answers true.  It answers true in
    every state with a null entry point below the tail index, and there
    OS_SetTaskState(NULL, ...) returns OK as for any entry point found.  No
    registration rejects the null entry point: OS_TaskCreate never returns
    NOK_NULL_PTR and, below the capacity guard and with a valid period,
    returns OK for NULL. *)
Theorem C10_null_reported_as_registered :
  ∀ (Env : Type) (call : fncPtr → Z → Env → Z * Env) (e : Env),
    (∃ s, reachable call s ∧
          0 < task_count s ∧ task_array s !! 0 = Some zero_task ∧
          OS_TaskIsInQueue NULL s = Some true) ∧
    (∀ s i, task_count s ≤ OS_MAX_TASK_NUM → holds s i NULL →
            OS_TaskIsInQueue NULL s = Some true) ∧
    (∀ s i st, OS_inv s → holds s i NULL →
            ∃ s', OS_SetTaskState NULL st s = Some (OK, s')) ∧
    (∀ s p st d df, OS_inv s → valid_period p → task_count s < OS_MAX_TASK_NUM →
            ∃ s', OS_TaskCreate NULL p st d df s = Some (OK, s')) ∧
    (∀ f p st d df s fb s',
            OS_TaskCreate f p st d df s = Some (fb, s') → fb ≠ NOK_NULL_PTR).
Proof.
  intros Env call e. split; [|split; [|split; [|split]]].
  - eexists. split; [|split; [|split]].
    + exists [TaskCreateSimple 1; SetTaskState 1 STOPPED; TaskTimer], e, e.
      split; [repeat constructor|]. vm_compute. reflexivity.
    + simpl. lia.
    + reflexivity.
    + reflexivity.
  - intros s i Hc Hh. by apply (TaskIsInQueue_holds NULL s i).
  - intros s i st HI Hh. by apply (SetTaskState_found NULL st s i).
  - intros s p st d df. apply TaskCreate_OK.
  - intros f p st d df s fb s' H.
    apply TaskCreate_feedback in H as [->|[->| ->]]; discriminate.
Qed.


(** ** Filling the table (C7) *)

Lemma filter_all_active (l : list OS_struct) :
  Forall (λ t, function t ≠ NULL) l → filter (λ t, function t ≠ NULL) l = l.
Proof.
  induction 1 as [|x l Hx _ IH]; [done|].
  rewrite filter_cons_True by done. by rewrite IH.
Qed.

Lemma dense_active_count s :
  task_count s ≤ length (task_array s) → dense s → active_count s = task_count s.
Proof.
  intros Hlen Hd. unfold active_count. rewrite filter_all_active.
  - rewrite length_take. lia.
  - apply Forall_lookup. intros i t Hi.
    apply lookup_take_Some in Hi as [Hi Hlt]. by apply (Hd i).
Qed.

(** In a table without free slots a new identity goes to the tail. *)
Lemma TaskCreate_append f p st d df s :
  OS_inv s → dense s → task_count s < OS_MAX_TASK_NUM →
  f ≠ NULL → valid_period p → (∀ i, ¬ holds s i f) →
  ∃ s', OS_TaskCreate f p st d df s = Some (OK, s') ∧
        OS_inv s' ∧ dense s' ∧ task_count s' = task_count s + 1 ∧
        ∀ g, (∃ i, holds s' i g) ↔ (∃ i, holds s i g) ∨ g = f.
Proof.
  intros HI Hd Hc Hf Hp Hno.
  destruct (TaskCreate_new f p st d df s HI Hp Hc Hno) as (r & Hfree & Hr & Heq).
  assert (r = task_count s) as ->.
  { destruct Hfree as [(tr & Htr & Hfr) _].
    destruct (decide (r = task_count s)) as [|Hne]; [done|].
    exfalso. apply (Hd r tr); [lia|done|done]. }
  rewrite decide_True in Heq by done.
  eexists. split; [exact Heq|].
  assert (task_count s < length (task_array s)) as Hlt by (rewrite (inv_length s HI); done).
  split; [|split; [|split]].
  - eapply TaskCreate_inv; [exact HI|exact Heq].
  - intros i t Hi Ht. simpl in *. unfold with_record in Ht.
    destruct (decide (i = task_count s)) as [->|Hne].
    + rewrite list_lookup_insert_eq in Ht by done. by injection Ht as <-.
    + rewrite list_lookup_insert_ne in Ht by done. apply (Hd i t); [lia|done].
  - done.
  - intros g. simpl. unfold holds, with_record. simpl. split.
    + intros (i & Hi & t & Ht & Hg). destruct (decide (i = task_count s)) as [->|Hne].
      * rewrite list_lookup_insert_eq in Ht by done. injection Ht as <-. by right.
      * rewrite list_lookup_insert_ne in Ht by done. left. exists i. split; [lia|eauto].
    + intros [(i & Hi & t & Ht & Hg)| ->].
      * exists i. split; [lia|]. exists t. by rewrite list_lookup_insert_ne by lia.
      * exists (task_count s). split; [lia|]. eexists.
        by rewrite list_lookup_insert_eq by done.
Qed.

Lemma same_functions_dense s s' : same_functions s s' → dense s → dense s'.
Proof.
  intros [Hc Hf] Hd i t' Hi Ht'. specialize (Hf i). rewrite Ht' in Hf. simpl in Hf.
  destruct (task_array s !! i) as [t|] eqn:Ht; simpl in Hf; [|done].
  injection Hf as ->. apply (Hd i t); [lia|done].
Qed.

Lemma same_functions_holds s s' g :
  same_functions s s' → (∃ i, holds s' i g) ↔ (∃ i, holds s i g).
Proof.
  intros [Hc Hf]. split; intros (i & Hi & t & Ht & Hg); exists i; (split; [lia|]);
    specialize (Hf i); rewrite Ht in Hf; simpl in Hf.
  - destruct (task_array s !! i) as [t0|]; simpl in Hf; [|done].
    injection Hf as Hf. exists t0. split; [done|congruence].
  - destruct (task_array s' !! i) as [t0|]; simpl in Hf; [|done].
    injection Hf as Hf. exists t0. split; [done|congruence].
Qed.

Lemma same_functions_write s r tr t' :
  task_array s !! r = Some tr → function t' = function tr →
  same_functions s (mkOS (<[r:=t']> (task_array s)) (task_count s) (os_time s)).
Proof.
  intros Htr Hf. split; [done|]. intros j. simpl.
  destruct (decide (j = r)) as [->|Hne].
  - rewrite list_lookup_insert_eq by (by eapply lookup_lt_Some).
    rewrite Htr. simpl. by rewrite Hf.
  - by rewrite list_lookup_insert_ne.
Qed.

(** The three setters always return on a well-formed table, and leave the
    tail index and the entry points alone. *)
Ltac setter_total HI :=
  match goal with
  | |- context [OS_TaskFind ?g ?s] =>
      let r := fresh "r" in let Hr := fresh "Hr" in
      let tr := fresh "tr" in let Htr := fresh "Htr" in
      destruct (TaskFind_total g s) as [r Hr];
        [rewrite (inv_length s HI); apply (inv_count s HI)|];
      rewrite Hr; simpl; case_decide;
        [|do 2 eexists; split; [done|]; by split];
      destruct (TaskFind_slot g s r Hr) as (tr & Htr & _); [lia|];
      rewrite Htr; simpl; unfold write_slot;
      rewrite decide_True by (by eapply lookup_lt_Some); simpl;
      do 2 eexists; split; [done|]; by apply (same_functions_write s r tr)
  end.

Lemma SetTaskState_total g st s :
  OS_inv s → ∃ fb s', OS_SetTaskState g st s = Some (fb, s') ∧ same_functions s s'.
Proof. intros HI. unfold OS_SetTaskState. setter_total HI. Qed.

Lemma SetTaskPeriod_total g p s :
  OS_inv s → ∃ fb s', OS_SetTaskPeriod g p s = Some (fb, s') ∧ same_functions s s'.
Proof. intros HI. unfold OS_SetTaskPeriod. setter_total HI. Qed.

Lemma SetTaskExecuteTime_total g x s :
  OS_inv s → ∃ fb s', OS_SetTaskExecuteTime g x s = Some (fb, s') ∧ same_functions s s'.
Proof. intros HI. unfold OS_SetTaskExecuteTime. setter_total HI. Qed.

(** A tick that meets no STOPPED slot keeps every entry point. *)
Lemma TaskTimer_quiet s :
  task_count s ≤ length (task_array s) → none_stopped s →
  ∃ s', OS_TaskTimer s = Some s' ∧ same_functions s s'.
Proof.
  intros Hlen Hq. destruct (TaskTimer_spec s Hlen) as (arr' & -> & Hl & Hlook).
  eexists. split; [done|]. split; [done|]. intros j. simpl. rewrite Hlook.
  case_decide as Hj; [|done].
  destruct (task_array s !! j) as [t|] eqn:Ht; simpl; [|done]. f_equal.
  pose proof (Hq j t Hj Ht) as Hns. unfold timer_slot. repeat case_decide; done.
Qed.

Section Scripts.

Context {Env : Type} (call : fncPtr → Z → Env → Z * Env).

Lemma TaskExecution_dense s e :
  task_count s ≤ length (task_array s) → dense s →
  ∃ s' e' log, OS_TaskExecution call s e = Some (s', e', log) ∧ same_functions s s'.
Proof.
  intros Hlen Hd.
  destruct (TaskExecution_spec call s e Hlen) as (arr' & e' & log & Hrun & _).
  { intros j t Hj Ht _. apply (Hd j t); [lia|done]. }
  do 3 eexists. split; [exact Hrun|].
  apply exec_loop_frame in Hrun as (Hc & _ & _ & Hf). by split.
Qed.

(** A call in between that is no registration and reclaims nothing returns,
    and keeps the tail index and the entry points. *)
Lemma between_step c s e :
  OS_inv s → dense s → ¬ is_registration c → (c = TaskTimer → none_stopped s) →
  ∃ s' e', OS_step call c (s, e) = Some (s', e') ∧ same_functions s s'.
Proof.
  intros HI Hd Hc Hq.
  assert (task_count s ≤ length (task_array s)) as Hlen.
  { rewrite (inv_length s HI). apply (inv_count s HI). }
  destruct c; simpl in Hc; try done; simpl.
  - destruct (TaskTimer_quiet s Hlen (Hq eq_refl)) as (s' & -> & Hsame). simpl. eauto.
  - destruct (TaskExecution_dense s e Hlen Hd) as (s' & e' & log & -> & Hsame). simpl. eauto.
  - destruct (SetTaskState_total f st s HI) as (fb & s' & -> & Hsame). simpl. eauto.
  - destruct (SetTaskPeriod_total f period s HI) as (fb & s' & -> & Hsame). simpl. eauto.
  - destruct (SetTaskExecuteTime_total f time s HI) as (fb & s' & -> & Hsame). simpl. eauto.
Qed.

Lemma run_script_between c rest x :
  run_script call (Between c :: rest) x = OS_step call c x ≫= run_script call rest.
Proof. reflexivity. Qed.

Lemma run_script_fresh items : ∀ s e,
  OS_inv s → dense s →
  task_count s + length (registrations items) ≤ OS_MAX_TASK_NUM →
  Forall proper (registrations items) →
  NoDup (reg_function <$> registrations items) →
  (∀ r i, r ∈ registrations items → ¬ holds s i (reg_function r)) →
  no_reclamation call items (s, e) →
  ∃ s' e', run_script call items (s, e) =
             Some (replicate (length (registrations items)) OK, (s', e')) ∧
           OS_inv s' ∧ dense s' ∧
           task_count s' = task_count s + length (registrations items) ∧
           ∀ g, (∃ i, holds s' i g) ↔
                (∃ i, holds s i g) ∨ g ∈ reg_function <$> registrations items.
Proof.
  induction items as [|[r|c] items IH]; intros s e HI Hd Hc Hprop Hnd Hnew Hquiet.
  - exists s, e. simpl. split; [done|]. split; [done|]. split; [done|]. split; [lia|].
    intros g. split; [by left|].
    intros [?|Hg]; [done|]. by apply elem_of_nil in Hg.
  - change (registrations (Register r :: items)) with (r :: registrations items) in *.
    apply Forall_cons in Hprop as [[Hf Hp] Hprop].
    rewrite fmap_cons in Hnd. apply NoDup_cons in Hnd as [Hr Hnd]. simpl in Hc.
    destruct (TaskCreate_append (reg_function r) (reg_period r) (reg_state r)
                (reg_data r) (reg_defer r) s) as (s1 & Heq & HI1 & Hd1 & Hc1 & Hh1);
      [done|done|lia|done|done|by intros i; apply Hnew; left|].
    simpl in Hquiet. unfold OS_register in Hquiet at 1. rewrite Heq in Hquiet.
    destruct (IH s1 e) as (s' & e' & Hall & HI' & Hd' & Hc' & Hh');
      [done|done|lia|done|done| |done|].
    { intros q i Hq Hh.
      assert (∃ j, holds s1 j (reg_function q)) as Hex by eauto.
      apply Hh1 in Hex as [[j Hj]|Heqf].
      - apply (Hnew q j); [by right|done].
      - apply Hr. rewrite <- Heqf. by apply list_elem_of_fmap_2. }
    exists s', e'. simpl. unfold OS_register at 1. rewrite Heq. simpl. rewrite Hall. simpl.
    split; [done|]. split; [done|]. split; [done|]. split; [lia|].
    intros g. split.
    + intros Hg. apply Hh' in Hg as [Hg|Hg].
      * apply Hh1 in Hg as [Hg| ->]; [by left|right; left].
      * right. by right.
    + intros [Hg|Hg]; apply Hh'.
      * left. apply Hh1. by left.
      * apply elem_of_cons in Hg as [->|Hg]; [left; apply Hh1; by right|by right].
  - change (registrations (Between c :: items)) with (registrations items) in *.
    destruct Hquiet as (Hnr & Hns & Hquiet).
    destruct (between_step c s e HI Hd Hnr Hns) as (s1 & e1 & Hstep & Hsame).
    rewrite Hstep in Hquiet.
    destruct (IH s1 e1) as (s' & e' & Hall & HI' & Hd' & Hc' & Hh').
    + by eapply OS_step_inv.
    + by eapply same_functions_dense.
    + destruct Hsame as [-> _]. done.
    + done.
    + done.
    + intros q i Hq Hh. assert (∃ j, holds s1 j (reg_function q)) as Hex by eauto.
      apply (same_functions_holds s s1 _ Hsame) in Hex as [j Hj]. by apply (Hnew q j).
    + done.
    + exists s', e'. rewrite run_script_between, Hstep.
      split; [exact Hall|]. split; [done|]. split; [done|].
      destruct Hsame as [Hcount Hfun]. split; [lia|].
      intros g. rewrite Hh'. by rewrite (same_functions_holds s s1 g (conj Hcount Hfun)).
Qed.

(** C7.  From an empty table, a script registers twenty-five distinct
    non-null entry points with valid periods; between the registrations any
    other calls of the public interface may run, provided no timer tick
    meets a STOPPED slot, so that nothing is reclaimed.  Then every
    registration returns OK, the table holds twenty-five active records, and
    one more registration of a further distinct entry point returns
    NOK_CNT_LIMIT and leaves the state as it was. *)
Theorem C7_capacity_exceeded items s0 e0 extra :
  OS_inv s0 → task_count s0 = 0 →
  length (registrations items) = OS_MAX_TASK_NUM →
  Forall proper (registrations items ++ [extra]) →
  NoDup (reg_function <$> registrations items ++ [extra]) →
  no_reclamation call items (s0, e0) →
  ∃ s e, run_script call items (s0, e0) = Some (replicate OS_MAX_TASK_NUM OK, (s, e)) ∧
         task_count s = OS_MAX_TASK_NUM ∧ active_count s = OS_MAX_TASK_NUM ∧
         (∀ r, r ∈ registrations items → ∃ i, holds s i (reg_function r)) ∧
         (∀ i, ¬ holds s i (reg_function extra)) ∧
         OS_register extra s = Some (NOK_CNT_LIMIT, s).
Proof.
  intros HI0 Hc0 Hlen Hprop Hnd Hquiet.
  apply Forall_app in Hprop as [Hprop Hextra]. apply Forall_singleton in Hextra as [_ Hpe].
  rewrite fmap_app in Hnd. apply NoDup_app in Hnd as (Hnd & Hdisj & _).
  destruct (run_script_fresh items s0 e0) as (s & e & Hall & HI & Hd & Hc & Hh);
    [done|by intros i t Hi; lia|lia|done|done|by intros r i _ [Hi _]; lia|done|].
  exists s, e. rewrite Hlen in *. split; [done|]. split; [lia|]. split; [|split; [|split]].
  - rewrite dense_active_count; [lia| |done]. rewrite (inv_length s HI). lia.
  - intros r Hr. apply Hh. right. by apply list_elem_of_fmap_2.
  - intros i Hi. assert (∃ j, holds s j (reg_function extra)) as Hex by eauto.
    apply Hh in Hex as [[j [Hj _]]|Hin]; [lia|].
    apply (Hdisj _ Hin). simpl. by left.
  - apply TaskCreate_cnt_limit; [done|lia].
Qed.

End Scripts.

Lemma C7_capacity_exceeded_witness :
  ∃ s e, run_script ten_tasks fill_script (OS_init, ()) =
           Some (replicate OS_MAX_TASK_NUM OK, (s, e)) ∧
         OS_register extra_reg s = Some (NOK_CNT_LIMIT, s).
Proof.
  destruct (C7_capacity_exceeded ten_tasks fill_script OS_init () extra_reg)
    as (s & e & Hall & _ & _ & _ & _ & Hextra).
  - exact OS_init_inv.
  - reflexivity.
  - reflexivity.
  - apply (bool_decide_unpack _). vm_compute. exact I.
  - apply (bool_decide_unpack _). vm_compute. exact I.
  - vm_compute. repeat split; try (intros ?; discriminate); try (intros []).
    intros i t Hi Ht Hs. destruct i as [|[|i]]; [| |lia]; injection Ht as <-; discriminate Hs.
  - exists s, e. split; [exact Hall|exact Hextra].
Defined.

(** ** Reclamation and reuse of a slot (C2) *)

Section Reclamation.

Context {Env : Type} (call : fncPtr → Z → Env → Z * Env).

(** A pass that returns has met no READY slot with a null entry point. *)
Lemma exec_loop_callable n : ∀ i s e r,
  exec_loop call n i s e = Some r → callable (task_array s) i (i + n).
Proof.
  induction n as [|n IH]; intros i s e r H j t Hj Ht Hst; [lia|].
  simpl in H. destruct (task_array s !! i) as [ti|] eqn:Hti; simpl in H; [|done].
  destruct (exec_slot call (OS_GetOsTime s) i ti e) as [[[t1 e1] l1]|] eqn:Hslot;
    simpl in H; [|done].
  unfold write_slot in H. case_decide; simpl in H; [|done].
  destruct (exec_loop call n (S i) _ e1) as [r2|] eqn:Hloop; simpl in H; [|done].
  destruct (decide (j = i)) as [->|Hne].
  - assert (t = ti) as -> by congruence. intros Hnull.
    unfold exec_slot in Hslot. rewrite decide_True in Hslot by done.
    by rewrite decide_True in Hslot.
  - apply (IH _ _ _ _ Hloop j t); [lia| |done].
    simpl. by rewrite list_lookup_insert_ne.
Qed.

(** A slot whose call returned the terminal value was READY before the pass
    and is STOPPED after it, with the entry point it had. *)
Lemma TaskExecution_stopped s e s1 e1 log i :
  task_count s ≤ length (task_array s) →
  OS_TaskExecution call s e = Some (s1, e1, log) →
  mkInv i period_end ∈ log →
  i < task_count s ∧ task_count s1 = task_count s ∧ os_time s1 = os_time s ∧
  ∃ t t1, task_array s !! i = Some t ∧ state t = READY ∧
          task_array s1 !! i = Some t1 ∧ function t1 = function t ∧
          state t1 = STOPPED.
Proof.
  intros Hlen Hrun Hin.
  destruct (TaskExecution_spec call s e Hlen) as (arr' & e' & log' & Hrun' & Hl & Hslots & Hlook).
  { eapply (exec_loop_callable _ 0). exact Hrun. }
  rewrite Hrun in Hrun'. injection Hrun' as -> -> ->.
  pose proof (Hslots _ Hin) as Hi. simpl in Hi.
  destruct (lookup_lt_is_Some_2 (task_array s) i) as [t Ht]; [lia|].
  specialize (Hlook i t Ht). simpl. split; [done|]. split; [done|]. split; [done|].
  assert (mkInv i period_end ∈ calls_of i log') as Hc.
  { unfold calls_of. apply list_elem_of_filter. by split. }
  case_decide as Hdec.
  - destruct Hdec as [_ Hst]. destruct Hlook as (ej & Hlog & Harr).
    rewrite Hlog in Hc. apply list_elem_of_singleton in Hc. injection Hc as Hr.
    exists t. eexists. split; [done|]. split; [done|]. split; [exact Harr|].
    unfold after_call. simpl. split; [done|]. rewrite <- Hr. by rewrite decide_True.
  - destruct Hlook as [Hlog _]. rewrite Hlog in Hc. by apply elem_of_nil in Hc.
Qed.

End Reclamation.

(** The tick after a slot became STOPPED clears it, and its entry point is
    no longer found. *)
Lemma TaskTimer_reclaims s1 s2 i t1 :
  OS_inv s1 → i < task_count s1 →
  task_array s1 !! i = Some t1 → state t1 = STOPPED → function t1 ≠ NULL →
  OS_TaskTimer s1 = Some s2 →
  OS_inv s2 ∧ task_count s2 = task_count s1 ∧
  task_array s2 !! i = Some zero_task ∧
  (∀ j, ¬ holds s2 j (function t1)) ∧
  OS_TaskIsInQueue (function t1) s2 = Some false.
Proof.
  intros HI Hi Ht Hst Hf Htick.
  pose proof (TaskTimer_inv s1 s2 HI Htick) as HI2.
  destruct (TaskTimer_spec s1) as (arr' & Heq & Hl & Hlook).
  { rewrite (inv_length s1 HI). apply (inv_count s1 HI). }
  rewrite Heq in Htick. injection Htick as <-. simpl.
  assert (arr' !! i = Some zero_task) as Hi2.
  { rewrite Hlook, decide_True, Ht by done. simpl. unfold timer_slot.
    rewrite Hst. reflexivity. }
  assert (∀ j, ¬ holds (mkOS arr' (task_count s1) (wrap32 (os_time s1 + period_1ms))) j
                  (function t1)) as Hno.
  { intros j (Hj & tj & Htj & Hfj). simpl in *.
    rewrite Hlook, decide_True in Htj by done.
    destruct (task_array s1 !! j) as [tj1|] eqn:Htj1; simpl in Htj; [|done].
    injection Htj as <-.
    destruct (timer_slot_function (wrap32 (os_time s1 + period_1ms)) tj1) as [Hsame|Hnull];
      [|congruence].
    assert (j = i) as ->.
    { apply (inv_unique s1 HI j i tj1 t1); congruence. }
    assert (tj1 = t1) as -> by congruence.
    unfold timer_slot in Hfj. rewrite Hst in Hfj. simpl in Hfj. congruence. }
  split; [done|]. split; [done|]. split; [done|]. split; [done|].
  unfold OS_TaskIsInQueue. rewrite TaskFind_fresh; [done| |done].
  simpl. rewrite Hl, (inv_length s1 HI). apply (inv_count s1 HI).
Qed.

Lemma TaskIsInQueue_false f s :
  task_count s ≤ OS_MAX_TASK_NUM → OS_TaskIsInQueue f s = Some false →
  ∀ i, ¬ holds s i f.
Proof.
  intros Hc H i Hh. rewrite (TaskIsInQueue_holds f s i) in H by done. discriminate.
Qed.

Lemma TaskCreate_cnt_limit_inv f p st d df s s' :
  OS_TaskCreate f p st d df s = Some (NOK_CNT_LIMIT, s') →
  OS_MAX_TASK_NUM ≤ task_count s.
Proof.
  unfold OS_TaskCreate. intros H.
  destruct ((OS_MIN_TIME >? p)%Z || (OS_MAX_TIME <? p)%Z); [by inversion H|].
  case_decide; [done|].
  destruct (OS_TaskFind f s) as [r|]; simpl in H; [|done].
  case_decide.
  - destruct (OS_TaskInsertPosition s) as [[q s1]|]; simpl in H; [|done].
    destruct (write_slot q _ s1); simpl in H; by inversion H.
  - destruct (task_array s !! r); simpl in H; [|done].
    destruct (write_slot r _ s); simpl in H; by inversion H.
Qed.

(** C2, counterexample.  First part: the tasks 1 and 2 are READY, both
    return the terminal value in one pass and the next tick reclaims both
    slots; entry point 3 is not registered, and registering it returns OK
    but fills slot 0: slot 1, freed by task 2, is still empty.  Second part:
    the table was filled, every task stopped and was reclaimed; there are
    free slots and no active record, yet registering entry point 26 returns
    NOK_CNT_LIMIT. *)
Lemma C2_freed_slot_not_reused :
  (OS_run stop_tasks two_ready_calls (OS_init, ()) = Some (two_ready, ()) ∧
   ∃ s1 log, OS_TaskExecution stop_tasks two_ready () = Some (s1, (), log) ∧
             mkInv 1 period_end ∈ log ∧
             OS_TaskTimer s1 = Some two_reclaimed) ∧
  (task_array two_reclaimed !! 1 = Some zero_task ∧
   OS_TaskIsInQueue 3 two_reclaimed = Some false ∧
   ∃ s3, OS_TaskCreate 3 1 BLOCKED 0 0 two_reclaimed = Some (OK, s3) ∧
         task_array s3 !! 0 = Some (mkTask 3 1 2 BLOCKED 0) ∧
         task_array s3 !! 1 = Some zero_task) ∧
  (OS_run stop_tasks (full_calls ++ [TaskTimer; TaskExecution; TaskTimer])
          (OS_init, ()) = Some (all_reclaimed, ()) ∧
   active_count all_reclaimed = 0 ∧
   task_array all_reclaimed !! 0 = Some zero_task ∧
   OS_TaskIsInQueue 26 all_reclaimed = Some false ∧
   OS_TaskCreate 26 1 BLOCKED 0 0 all_reclaimed = Some (NOK_CNT_LIMIT, all_reclaimed)).
Proof.
  split; [|split].
  - split; [vm_compute; reflexivity|]. do 2 eexists.
    split; [vm_compute; reflexivity|]. split; [|vm_compute; reflexivity].
    apply elem_of_cons. right. apply elem_of_cons. by left.
  - split; [reflexivity|]. split; [vm_compute; reflexivity|].
    eexists. split; [vm_compute; reflexivity|]. split; reflexivity.
  - repeat split; vm_compute; reflexivity.
Qed.

Section ReclamationClaim.

Context {Env : Type} (call : fncPtr → Z → Env → Z * Env).

(** C2, amended.  In a reachable state let an execution pass call the task
    of slot [i] and let it return the terminal value.  Then the next tick
    returns, slot [i] is cleared and OS_TaskIsInQueue on its former entry
    point answers false.  If the tail index is below OS_MAX_TASK_NUM, the
    registration of a new non-null entry point with a valid period returns
    OK and fills the first free slot from the front, which is at or before
    slot [i] and is slot [i] itself when no slot before it is free; the
    tail index does not move.  OS_TaskCreate returns NOK_CNT_LIMIT only when
    the tail index is at OS_MAX_TASK_NUM. *)
Theorem C2_reclaimed_slot_reused_first_fit s e s1 e1 log i :
  reachable call s →
  OS_TaskExecution call s e = Some (s1, e1, log) →
  mkInv i period_end ∈ log →
  ∃ t s2,
    task_array s !! i = Some t ∧ state t = READY ∧ function t ≠ NULL ∧
    OS_TaskTimer s1 = Some s2 ∧
    i < task_count s2 ∧
    task_array s2 !! i = Some zero_task ∧
    OS_TaskIsInQueue (function t) s2 = Some false ∧
    (∀ g p st d df,
       g ≠ NULL → OS_TaskIsInQueue g s2 = Some false → valid_period p →
       task_count s2 < OS_MAX_TASK_NUM →
       ∃ r s3, OS_TaskCreate g p st d df s2 = Some (OK, s3) ∧
               first_free s2 r ∧ r ≤ i ∧
               task_array s3 !! r = Some (mkTask g p (wrap32 (os_time s2 + df)) st d) ∧
               task_count s3 = task_count s2 ∧
               ((∀ j t', j < i → task_array s2 !! j = Some t' → function t' ≠ NULL) →
                r = i)) ∧
    (∀ g p st d df fb s3,
       OS_TaskCreate g p st d df s2 = Some (fb, s3) → fb = NOK_CNT_LIMIT →
       task_count s2 = OS_MAX_TASK_NUM).
Proof.
  intros Hreach Hrun Hin.
  pose proof (reachable_inv call s Hreach) as HI.
  pose proof (TaskExecution_inv call s e s1 e1 log HI Hrun) as HI1.
  assert (task_count s ≤ length (task_array s)) as Hlen.
  { rewrite (inv_length s HI). apply (inv_count s HI). }
  destruct (TaskExecution_stopped call s e s1 e1 log i Hlen Hrun Hin)
    as (Hi & Hc1 & _ & t & t1 & Ht & Hst & Ht1 & Hf1 & Hst1).
  assert (function t ≠ NULL) as Hnn.
  { apply (exec_loop_callable call _ 0 _ _ _ Hrun i t); [lia|done|done]. }
  destruct (TaskTimer_spec s1) as (arr2 & Htick & _).
  { rewrite (inv_length s1 HI1). apply (inv_count s1 HI1). }
  set (s2 := mkOS arr2 (task_count s1) (wrap32 (os_time s1 + period_1ms))) in *.
  destruct (TaskTimer_reclaims s1 s2 i t1 HI1) as (HI2 & Hc2 & Hz & Hno & Hq);
    [lia|done|done|congruence|exact Htick|].
  rewrite Hf1 in Hq. exists t, s2.
  split; [done|]. split; [done|]. split; [done|]. split; [exact Htick|].
  split; [lia|]. split; [done|]. split; [done|]. split.
  - intros g p st d df Hg Hnew Hp Hc.
    pose proof (TaskIsInQueue_false g s2 (inv_count s2 HI2) Hnew) as Hfresh.
    destruct (TaskCreate_new g p st d df s2 HI2 Hp Hc Hfresh) as (r & Hfree & Hr & Heq).
    assert (r ≤ i) as Hri.
    { destruct Hfree as [_ Hfirst]. destruct (decide (r ≤ i)) as [|Hgt]; [done|].
      exfalso. apply (Hfirst i zero_task); [lia|done|done]. }
    exists r. eexists. split; [exact Heq|]. split; [done|]. split; [done|].
    destruct Hfree as [(tr & Htr & Hfr) Hfirst]. split; [|split].
    + cbn [task_array]. unfold with_record. rewrite list_lookup_insert_eq; [done|].
      by eapply lookup_lt_Some.
    + cbn [task_count]. rewrite decide_False by lia. done.
    + intros Hbefore. destruct (decide (r = i)) as [|Hne]; [done|].
      exfalso. apply (Hbefore r tr); [lia|done|done].
  - intros g p st d df fb s3 Hcreate ->.
    apply TaskCreate_cnt_limit_inv in Hcreate. pose proof (inv_count s2 HI2). lia.
Qed.

End ReclamationClaim.

Lemma one_ready_reachable : reachable stop_tasks one_ready.
Proof.
  exists [TaskCreateSimple 1; TaskTimer], (), (). split; [repeat constructor|].
  vm_compute. reflexivity.
Qed.

Lemma C2_reclaimed_slot_reused_first_fit_witness :
  ∃ s2, OS_TaskTimer (mkOS (<[0 := mkTask 1 0 1 STOPPED 0]>
                              (replicate OS_MAX_TASK_NUM zero_task)) 1 1) = Some s2 ∧
        OS_TaskIsInQueue 1 s2 = Some false ∧
        task_array s2 !! 0 = Some zero_task.
Proof.
  destruct (C2_reclaimed_slot_reused_first_fit stop_tasks one_ready ()
              (mkOS (<[0 := mkTask 1 0 1 STOPPED 0]> (replicate OS_MAX_TASK_NUM zero_task)) 1 1)
              () [mkInv 0 0] 0)
    as (t & s2 & Ht & _ & _ & Htick & _ & Hz & Hq & _).
  - exact one_ready_reachable.
  - vm_compute. reflexivity.
  - apply elem_of_cons. by left.
  - injection Ht as <-. exists s2. split; [exact Htick|]. split; [exact Hq|exact Hz].
Defined.


(** ** Suspended tasks (C8) *)

Lemma timer_slot_suspended now t : state t = SUSPENDED → timer_slot now t = t.
Proof.
  intros H. unfold timer_slot. rewrite decide_False; [done|].
  intros Hne. by apply Hne.
Qed.

Lemma TaskTimer_keeps_suspended s i t :
  task_count s ≤ length (task_array s) →
  task_array s !! i = Some t → state t = SUSPENDED →
  ∃ s', OS_TaskTimer s = Some s' ∧ task_array s' !! i = Some t ∧
        task_count s' = task_count s ∧
        length (task_array s') = length (task_array s).
Proof.
  intros Hlen Ht Hst. destruct (TaskTimer_spec s Hlen) as (arr' & -> & Hl & Hlook).
  eexists. split; [done|]. simpl. split; [|done].
  rewrite Hlook, Ht. case_decide; [|done]. simpl. by rewrite timer_slot_suspended.
Qed.

Lemma OS_ticks_keep_suspended n : ∀ s i t,
  task_count s ≤ length (task_array s) →
  task_array s !! i = Some t → state t = SUSPENDED →
  ∃ s', OS_ticks n s = Some s' ∧ task_array s' !! i = Some t.
Proof.
  induction n as [|n IH]; intros s i t Hlen Ht Hst; [by exists s|].
  destruct (TaskTimer_keeps_suspended s i t Hlen Ht Hst) as (s1 & H1 & Ht1 & Hc1 & Hl1).
  simpl. rewrite H1. simpl. apply IH; [lia|done|done].
Qed.

Lemma TaskTimer_no_null_task s s' :
  task_count s ≤ length (task_array s) →
  no_null_task s → OS_TaskTimer s = Some s' → no_null_task s'.
Proof.
  intros Hlen Hn Htick. destruct (TaskTimer_spec s Hlen) as (arr' & Heq & Hl & Hlook).
  rewrite Heq in Htick. injection Htick as <-. intros j t' Hj Ht' Hf. simpl in *.
  rewrite Hlook, decide_True in Ht' by done.
  destruct (task_array s !! j) as [t|] eqn:Ht; simpl in Ht'; [|done].
  injection Ht' as <-. specialize (Hn j t Hj Ht). revert Hf Hn.
  unfold timer_slot. repeat case_decide; simpl; auto.
  intros Hf Hn. destruct (Hn Hf); congruence.
Qed.

Lemma no_null_task_callable s :
  no_null_task s → callable (task_array s) 0 (task_count s).
Proof.
  intros Hn j t Hj Ht Hst Hf. destruct (Hn j t) as [H|H]; [lia|done|done|..]; congruence.
Qed.

Section Suspension.

Context {Env : Type} (call : fncPtr → Z → Env → Z * Env).

Lemma TaskExecution_no_null_task s e :
  task_count s ≤ length (task_array s) → no_null_task s →
  ∃ s' e' log,
    OS_TaskExecution call s e = Some (s', e', log) ∧
    no_null_task s' ∧ task_count s' = task_count s ∧
    length (task_array s') = length (task_array s) ∧
    ∀ i t, task_array s !! i = Some t → state t ≠ READY →
           calls_of i log = [] ∧ task_array s' !! i = Some t.
Proof.
  intros Hlen Hn.
  destruct (TaskExecution_spec call s e Hlen (no_null_task_callable s Hn))
    as (arr' & e' & log & Hrun & Hl & _ & Hlook).
  eexists _, e', log. split; [exact Hrun|]. simpl. split; [|split; [done|split; [done|]]].
  - intros j t' Hj Ht' Hf. simpl in *.
    destruct (lookup_lt_is_Some_2 (task_array s) j) as [t Ht]; [lia|].
    specialize (Hlook j t Ht). case_decide as Hdec.
    + destruct Hlook as (ej & _ & Harr). rewrite Harr in Ht'. injection Ht' as <-.
      simpl in Hf. destruct Hdec as [_ Hst]. destruct (Hn j t Hj Ht Hf); congruence.
    + destruct Hlook as [_ Harr]. rewrite Harr in Ht'. injection Ht' as <-.
      by apply (Hn j t).
  - intros i t Ht Hst. specialize (Hlook i t Ht).
    rewrite decide_False in Hlook by (intros [_ ?]; done). done.
Qed.

(** Any schedule of the two passes leaves a SUSPENDED record as it is and
    never calls it. *)
Lemma OS_passes_keep_suspended ps : ∀ s e i t,
  task_count s ≤ length (task_array s) → no_null_task s →
  task_array s !! i = Some t → state t = SUSPENDED →
  ∃ s' e' log, OS_passes call ps s e = Some (s', e', log) ∧
               task_array s' !! i = Some t ∧ calls_of i log = [].
Proof.
  induction ps as [|[|] ps IH]; intros s e i t Hlen Hn Ht Hst.
  - by exists s, e, [].
  - destruct (TaskTimer_keeps_suspended s i t Hlen Ht Hst) as (s1 & H1 & Ht1 & Hc1 & Hl1).
    destruct (IH s1 e i t) as (s' & e' & log & Hrun & Hres);
      [lia|by eapply TaskTimer_no_null_task|done|done|].
    exists s', e', log. simpl. rewrite H1. simpl. by rewrite Hrun.
  - destruct (TaskExecution_no_null_task s e Hlen Hn)
      as (s1 & e1 & l1 & H1 & Hn1 & Hc1 & Hl1 & Hidle).
    destruct (Hidle i t Ht) as [Hlog1 Ht1]; [by rewrite Hst|].
    destruct (IH s1 e1 i t) as (s' & e' & l2 & Hrun & Ht' & Hlog2); [lia|done|done|done|].
    exists s', e', (l1 ++ l2). simpl. rewrite H1. simpl. rewrite Hrun. simpl.
    split; [done|]. split; [done|].
    unfold calls_of in *. by rewrite list.filter_app, Hlog1, Hlog2.
Qed.

End Suspension.

(** ** Tasks whose body is never run *)

Section Independence.

Context {Env : Type} (call call' : fncPtr → Z → Env → Z * Env).

Lemma exec_slot_ext now i t e :
  (state t = READY →
   call' (function t) (data_ptr t) e = call (function t) (data_ptr t) e) →
  exec_slot call' now i t e = exec_slot call now i t e.
Proof.
  intros H. unfold exec_slot. case_decide as Hst; [|done].
  case_decide; [done|]. rewrite H by done. done.
Qed.

(** The loop depends on the bodies of the READY slots of its range only. *)
Lemma exec_loop_ext n : ∀ i s e,
  (∀ j t e0, i ≤ j < i + n → task_array s !! j = Some t → state t = READY →
     call' (function t) (data_ptr t) e0 = call (function t) (data_ptr t) e0) →
  exec_loop call' n i s e = exec_loop call n i s e.
Proof.
  induction n as [|n IH]; intros i s e H; [done|].
  simpl. destruct (task_array s !! i) as [t|] eqn:Ht; simpl; [|done].
  rewrite (exec_slot_ext _ i t e) by (intros Hst; apply (H i t e); [lia|done|done]).
  destruct (exec_slot call (OS_GetOsTime s) i t e) as [[[t1 e1] l1]|]; simpl; [|done].
  unfold write_slot. case_decide; simpl; [|done].
  rewrite IH; [done|]. intros j tj e0 Hj Htj Hst. simpl in Htj.
  rewrite list_lookup_insert_ne in Htj by lia. apply (H j tj e0); [lia|done|done].
Qed.

(** An execution pass on a well-formed table does not depend on the body
    of an entry point whose slot is not READY. *)
Lemma TaskExecution_ext s e i t :
  OS_inv s → i < task_count s → task_array s !! i = Some t →
  function t ≠ NULL → state t ≠ READY → agree_off (function t) call call' →
  OS_TaskExecution call' s e = OS_TaskExecution call s e.
Proof.
  intros HI Hi Ht Hf Hst Hagree. apply exec_loop_ext.
  intros j tj e0 Hj Htj Hstj. apply Hagree. intros Heq.
  assert (j = i) as -> by (apply (inv_unique s HI j i tj t); [lia|done|done|done|done|congruence]).
  congruence.
Qed.

Lemma TaskExecution_idle_slot s e s1 e1 l1 i t :
  task_count s ≤ length (task_array s) →
  OS_TaskExecution call s e = Some (s1, e1, l1) →
  task_array s !! i = Some t → state t ≠ READY →
  task_array s1 !! i = Some t ∧ calls_of i l1 = [].
Proof.
  intros Hlen Hrun Ht Hst.
  pose proof (exec_loop_callable call _ _ _ _ _ Hrun) as Hcall.
  destruct (TaskExecution_spec call s e Hlen Hcall) as (arr' & e2 & l2 & Heq & _ & _ & Hlook).
  rewrite Hrun in Heq. injection Heq as -> _ ->.
  specialize (Hlook i t Ht). rewrite decide_False in Hlook by (intros [_ ?]; done).
  destruct Hlook as [Hlog Harr]. done.
Qed.

(** No schedule of the two passes depends on the body of a SUSPENDED
    task: with any other body in its place the schedule returns the same
    table, environment and values. *)
Lemma OS_passes_suspended_ext ps : ∀ s e i t,
  OS_inv s → i < task_count s → task_array s !! i = Some t →
  state t = SUSPENDED → function t ≠ NULL → agree_off (function t) call call' →
  OS_passes call' ps s e = OS_passes call ps s e.
Proof.
  induction ps as [|[|] ps IH]; intros s e i t HI Hi Ht Hst Hf Hagree; [done| |].
  - assert (task_count s ≤ length (task_array s)) as Hlen.
    { rewrite (inv_length s HI). apply (inv_count s HI). }
    destruct (TaskTimer_keeps_suspended s i t Hlen Ht Hst) as (s1 & H1 & Ht1 & Hc1 & Hl1).
    simpl. rewrite H1. simpl.
    apply (IH s1 e i t); [by eapply TaskTimer_inv|lia|done|done|done|done].
  - assert (task_count s ≤ length (task_array s)) as Hlen.
    { rewrite (inv_length s HI). apply (inv_count s HI). }
    simpl. rewrite (TaskExecution_ext s e i t) by (done || congruence).
    destruct (OS_TaskExecution call s e) as [[[s1 e1] l1]|] eqn:H1; simpl; [|done].
    destruct (TaskExecution_idle_slot s e s1 e1 l1 i t Hlen H1 Ht) as [Ht1 _]; [congruence|].
    destruct (exec_loop_frame call _ _ _ _ _ _ _ H1) as (Hc1 & _).
    rewrite (IH s1 e1 i t);
      [done|by eapply TaskExecution_inv|lia|done|done|done|done].
Qed.

(** A schedule of the two passes that returns leaves a SUSPENDED record
    as it is and returns no value of a call of its slot. *)
Lemma OS_passes_suspended_frame ps : ∀ s e s' e' log i t,
  task_count s ≤ length (task_array s) →
  task_array s !! i = Some t → state t = SUSPENDED →
  OS_passes call ps s e = Some (s', e', log) →
  task_array s' !! i = Some t ∧ calls_of i log = [].
Proof.
  induction ps as [|[|] ps IH]; intros s e s' e' log i t Hlen Ht Hst H; simpl in H.
  - by injection H as <- _ <-.
  - destruct (TaskTimer_keeps_suspended s i t Hlen Ht Hst) as (s1 & H1 & Ht1 & Hc1 & Hl1).
    rewrite H1 in H. simpl in H. apply (IH s1 e s' e' log i t); [lia|done|done|done].
  - destruct (OS_TaskExecution call s e) as [[[s1 e1] l1]|] eqn:H1; simpl in H; [|done].
    destruct (OS_passes call ps s1 e1) as [[[s2 e2] l2]|] eqn:H2; simpl in H; [|done].
    injection H as <- <- <-.
    destruct (TaskExecution_idle_slot s e s1 e1 l1 i t Hlen H1 Ht) as [Ht1 Hlog1];
      [congruence|].
    destruct (exec_loop_frame call _ _ _ _ _ _ _ H1) as (Hc1 & _ & Hl1 & _).
    destruct (IH s1 e1 s2 e2 l2 i t) as [Ht2 Hlog2]; [lia|done|done|done|].
    split; [done|]. unfold calls_of in *. by rewrite list.filter_app, Hlog1, Hlog2.
Qed.

End Independence.

(** A registration of another entry point leaves the record alone. *)
Lemma TaskCreate_other g p st d df s fb s' i t :
  OS_inv s → OS_TaskCreate g p st d df s = Some (fb, s') →
  task_array s !! i = Some t → function t ≠ NULL → function t ≠ g →
  task_array s' !! i = Some t.
Proof.
  intros HI H Ht Hnn Hg.
  destruct (decide (valid_period p)) as [Hp|Hp];
    [|rewrite TaskCreate_time_limit in H by done; by injection H as _ <-].
  destruct (decide (OS_MAX_TASK_NUM ≤ task_count s)) as [Hc|Hc];
    [rewrite TaskCreate_cnt_limit in H by done; by injection H as _ <-|].
  destruct (TaskFind_total g s) as [r Hr].
  { rewrite (inv_length s HI). apply (inv_count s HI). }
  destruct (TaskFind_Some g s r Hr) as [[-> Hno]|[Hh Hfirst]].
  - destruct (TaskCreate_new g p st d df s) as (q & [(tq & Htq & Hfq) _] & _ & Heq);
      [done|done|lia|done|].
    rewrite Heq in H. injection H as _ <-. simpl. unfold with_record.
    rewrite list_lookup_insert_ne; [done|]. intros ->. congruence.
  - rewrite (TaskCreate_found g p st d df s r) in H; [|done|lia|done|done].
    injection H as _ <-. simpl. unfold with_record.
    destruct Hh as (_ & tr & Htr & Hfr).
    rewrite list_lookup_insert_ne; [done|]. intros ->. congruence.
Qed.

Lemma SetTaskState_other g st s fb s' i t :
  OS_SetTaskState g st s = Some (fb, s') →
  task_array s !! i = Some t → function t ≠ g → task_array s' !! i = Some t.
Proof.
  unfold OS_SetTaskState. intros H Ht Hg.
  destruct (OS_TaskFind g s) as [r|] eqn:Hr; simpl in H; [|done].
  case_decide; [|by injection H as _ <-].
  destruct (TaskFind_slot g s r Hr) as (tr & Htr & Hfr); [lia|].
  rewrite Htr in H. simpl in H. unfold write_slot in H.
  case_decide; simpl in H; [|done]. injection H as _ <-. simpl.
  rewrite list_lookup_insert_ne; [done|]. intros ->. congruence.
Qed.

Lemma SetTaskPeriod_state g p s fb s' i t :
  OS_SetTaskPeriod g p s = Some (fb, s') → task_array s !! i = Some t →
  ∃ t', task_array s' !! i = Some t' ∧ function t' = function t ∧ state t' = state t.
Proof.
  unfold OS_SetTaskPeriod. intros H Ht.
  destruct (OS_TaskFind g s) as [r|] eqn:Hr; simpl in H; [|done].
  case_decide; [|injection H as _ <-; eauto].
  destruct (task_array s !! r) as [tr|] eqn:Htr; simpl in H; [|done].
  unfold write_slot in H. case_decide; simpl in H; [|done]. injection H as _ <-. simpl.
  destruct (decide (i = r)) as [->|Hne].
  - rewrite list_lookup_insert_eq by done. eexists. split; [done|]. simpl.
    split; congruence.
  - rewrite list_lookup_insert_ne by done. eauto.
Qed.

Lemma SetTaskExecuteTime_state g x s fb s' i t :
  OS_SetTaskExecuteTime g x s = Some (fb, s') → task_array s !! i = Some t →
  ∃ t', task_array s' !! i = Some t' ∧ function t' = function t ∧ state t' = state t.
Proof.
  unfold OS_SetTaskExecuteTime. intros H Ht.
  destruct (OS_TaskFind g s) as [r|] eqn:Hr; simpl in H; [|done].
  case_decide; [|injection H as _ <-; eauto].
  destruct (task_array s !! r) as [tr|] eqn:Htr; simpl in H; [|done].
  unfold write_slot in H. case_decide; simpl in H; [|done]. injection H as _ <-. simpl.
  destruct (decide (i = r)) as [->|Hne].
  - rewrite list_lookup_insert_eq by done. eexists. split; [done|]. simpl.
    split; congruence.
  - rewrite list_lookup_insert_ne by done. eauto.
Qed.

(** C8, counterexample.  Entry point 1 is registered SUSPENDED; the call
    OS_TaskCreateSimple(1), a registration and not a state-set operation,
    returns OK and leaves the task BLOCKED. *)
Lemma C8_reregistration_leaves_suspended :
  OS_TaskCreate 1 1 SUSPENDED 0 0 OS_init = Some (OK, suspended_table) ∧
  OS_GetTaskState 1 suspended_table = Some SUSPENDED ∧
  ∃ s', OS_TaskCreateSimple 1 suspended_table = Some (OK, s') ∧
        OS_GetTaskState 1 s' = Some BLOCKED.
Proof.
  split; [reflexivity|]. split; [reflexivity|]. eexists. split; reflexivity.
Qed.

Section SuspensionClaim.

Context {Env : Type} (call : fncPtr → Z → Env → Z * Env).

(** A call that returns and stores no state for the entry point of a
    SUSPENDED task leaves the task SUSPENDED, with its entry point. *)
Lemma OS_step_keeps_suspended c s e s' e' i t :
  OS_inv s → task_array s !! i = Some t → state t = SUSPENDED → function t ≠ NULL →
  OS_step call c (s, e) = Some (s', e') → ¬ sets_state_of (function t) c →
  ∃ t', task_array s' !! i = Some t' ∧ function t' = function t ∧
        state t' = SUSPENDED.
Proof.
  intros HI Ht Hst Hnn Hstep Hc.
  assert (task_count s ≤ length (task_array s)) as Hlen.
  { rewrite (inv_length s HI). apply (inv_count s HI). }
  destruct c; simpl in Hstep, Hc;
    match type of Hstep with
    | (?m ≫= _) = _ => destruct m as [x|] eqn:Hm; simpl in Hstep; [|done]
    end; injection Hstep as <- <-.
  - destruct x as [fb s1]. exists t. split; [|done].
    eapply TaskCreate_other; [done|exact Hm|done|done|]. intros Heq. by apply Hc.
  - destruct x as [fb s1]. exists t. split; [|done].
    eapply TaskCreate_other; [done|exact Hm|done|done|]. intros Heq. by apply Hc.
  - destruct x as [fb s1]. exists t. split; [|done].
    eapply TaskCreate_other; [done|exact Hm|done|done|]. intros Heq. by apply Hc.
  - exists t. split; [|done].
    destruct (TaskTimer_keeps_suspended s i t Hlen Ht Hst) as (s1 & H1 & Ht1 & _).
    congruence.
  - destruct x as [[s1 e1] log]. exists t. split; [|done]. simpl.
    destruct (TaskExecution_spec call s e Hlen) as (arr' & e2 & log2 & Hrun & _ & _ & Hlook).
    { eapply (exec_loop_callable call _ 0). exact Hm. }
    rewrite Hm in Hrun. injection Hrun as -> -> ->. simpl.
    specialize (Hlook i t Ht). rewrite decide_False in Hlook; [by destruct Hlook|].
    intros [_ Hr]. congruence.
  - destruct x as [fb s1]. exists t. split; [|done].
    eapply SetTaskState_other; [exact Hm|done|]. intros Heq. by apply Hc.
  - destruct x as [fb s1].
    destruct (SetTaskPeriod_state _ _ _ _ _ i t Hm Ht) as (t' & Ht' & Hf' & Hs').
    exists t'. split; [done|]. split; congruence.
  - destruct x as [fb s1].
    destruct (SetTaskExecuteTime_state _ _ _ _ _ i t Hm Ht) as (t' & Ht' & Hf' & Hs').
    exists t'. split; [done|]. split; congruence.
Qed.

Lemma OS_run_keeps_suspended cs : ∀ s e s' e' i t,
  OS_inv s → task_array s !! i = Some t → state t = SUSPENDED → function t ≠ NULL →
  OS_run call cs (s, e) = Some (s', e') →
  Forall (λ c, ¬ sets_state_of (function t) c) cs →
  ∃ t', task_array s' !! i = Some t' ∧ function t' = function t ∧
        state t' = SUSPENDED.
Proof.
  induction cs as [|c cs IH]; intros s e s' e' i t HI Ht Hst Hnn Hrun Hcs.
  - injection Hrun as <- <-. eauto.
  - apply Forall_cons in Hcs as [Hc Hcs].
    change (OS_step call c (s, e) ≫= OS_run call cs = Some (s', e')) in Hrun.
    destruct (OS_step call c (s, e)) as [[s1 e1]|] eqn:Hstep; [|done].
    destruct (OS_step_keeps_suspended c s e s1 e1 i t HI Ht Hst Hnn Hstep Hc)
      as (t1 & Ht1 & Hf1 & Hst1).
    destruct (IH s1 e1 s' e' i t1) as (t' & Ht' & Hf' & Hst');
      [by eapply OS_step_inv|done|done|congruence|exact Hrun| |].
    + by rewrite Hf1.
    + exists t'. split; [done|]. split; congruence.
Qed.

(** C8, amended.  Let slot [i] below the tail index hold a SUSPENDED task.
    Every sequence of timer ticks returns and leaves the record (deadline,
    period, state and the rest) unchanged.  No schedule of timer and
    execution passes runs the body of the task: with any other body in its
    place, the bodies of the other entry points being the same, the
    schedule has the same outcome, table, environment and values returned;
    a schedule that returns leaves the record unchanged and returns no
    value of a call of slot [i]; and every schedule returns when no null
    entry point of the table is BLOCKED or READY.  And every sequence of
    calls of the public interface that returns leaves the task SUSPENDED
    unless one of them is a call that stores a state for this entry point:
    OS_SetTaskState, or a registration of the same entry point through
    OS_TaskCreate, OS_TaskCreateSimple or OS_TaskScheduleSimple. *)
Theorem C8_suspended_task_is_frozen s i t :
  OS_inv s → i < task_count s →
  task_array s !! i = Some t → state t = SUSPENDED → function t ≠ NULL →
  (∀ n, ∃ s', OS_ticks n s = Some s' ∧ task_array s' !! i = Some t) ∧
  (∀ ps e,
     (∀ call', agree_off (function t) call call' →
               OS_passes call' ps s e = OS_passes call ps s e) ∧
     (∀ s' e' log, OS_passes call ps s e = Some (s', e', log) →
                   task_array s' !! i = Some t ∧ calls_of i log = []) ∧
     (no_null_task s →
      ∃ s' e' log, OS_passes call ps s e = Some (s', e', log) ∧
                   task_array s' !! i = Some t ∧ calls_of i log = [])) ∧
  (∀ cs e s' e',
     OS_run call cs (s, e) = Some (s', e') →
     Forall (λ c, ¬ sets_state_of (function t) c) cs →
     ∃ t', task_array s' !! i = Some t' ∧ function t' = function t ∧
           state t' = SUSPENDED).
Proof.
  intros HI Hi Ht Hst Hnn.
  assert (task_count s ≤ length (task_array s)) as Hlen.
  { rewrite (inv_length s HI). apply (inv_count s HI). }
  split; [|split].
  - intros n. by apply OS_ticks_keep_suspended.
  - intros ps e. split; [|split].
    + intros call' Hagree. by apply (OS_passes_suspended_ext call call' ps s e i t).
    + intros s' e' log Hrun. by apply (OS_passes_suspended_frame call ps s e s' e' log i t).
    + intros Hn. by apply OS_passes_keep_suspended.
  - intros cs e s' e' Hrun Hcs. by eapply OS_run_keeps_suspended.
Qed.

End SuspensionClaim.

Lemma suspended_table_inv : OS_inv suspended_table.
Proof.
  eapply (TaskCreate_inv 1%Z 1%Z SUSPENDED 0%Z 0%Z OS_init OK);
    [exact OS_init_inv|reflexivity].
Qed.

Lemma suspended_table_no_null_task : no_null_task suspended_table.
Proof.
  intros j t Hj Ht Hf. assert (j = 0) as -> by (simpl in Hj; lia).
  injection Ht as <-. done.
Qed.

Lemma C8_suspended_task_is_frozen_witness :
  ∃ s' e' log,
    OS_passes ten_tasks [Tick; Run; Tick; Tick; Run] suspended_table () =
      Some (s', e', log) ∧
    task_array s' !! 0 = Some (mkTask 1 1 0 SUSPENDED 0) ∧ calls_of 0 log = [] ∧
    OS_passes (ten_tasks_but 1%Z) [Tick; Run; Tick; Tick; Run] suspended_table () =
      Some (s', e', log).
Proof.
  destruct (C8_suspended_task_is_frozen ten_tasks suspended_table 0 (mkTask 1 1 0 SUSPENDED 0))
    as (_ & Hpasses & _).
  - exact suspended_table_inv.
  - vm_compute. lia.
  - reflexivity.
  - reflexivity.
  - vm_compute. congruence.
  - destruct (Hpasses [Tick; Run; Tick; Tick; Run] ()) as (Hext & _ & Hreturns).
    destruct (Hreturns suspended_table_no_null_task) as (s' & e' & log & Hrun & Ht & Hlog).
    exists s', e', log. split; [exact Hrun|]. split; [exact Ht|]. split; [exact Hlog|].
    rewrite <- Hrun. apply Hext. intros g d e Hg. unfold ten_tasks_but.
    rewrite decide_False by exact Hg. reflexivity.
Defined.


(** ** The scenario of one task with period 10 (C3) *)

Lemma scenario_tick A ctx st d T :
  OS_TaskTimer (scenario_table A ctx st d T) =
    Some (mkOS (<[0 := timer_slot (wrap32 (T + period_1ms)) (mkTask A period_10ms d st ctx)]>
                  (replicate OS_MAX_TASK_NUM zero_task))
               1 (wrap32 (T + period_1ms))).
Proof. reflexivity. Qed.

Lemma scenario_tick_blocked A ctx d T :
  (0 ≤ T)%Z → (T + 1 < d)%Z → (d < 2 ^ 32)%Z →
  OS_TaskTimer (scenario_table A ctx BLOCKED d T) =
    Some (scenario_table A ctx BLOCKED d (T + 1)).
Proof.
  intros H0 Hlt Hd. rewrite scenario_tick. unfold period_1ms.
  rewrite wrap32_small by (unfold uint32; lia).
  unfold timer_slot. cbn [state execute_time task_period function data_ptr].
  rewrite decide_True by done. rewrite decide_True by done.
  rewrite decide_False by lia. done.
Qed.

Lemma scenario_tick_due A ctx d T :
  (0 ≤ T)%Z → (T + 1 = d)%Z → (d + 10 < 2 ^ 32)%Z →
  OS_TaskTimer (scenario_table A ctx BLOCKED d T) =
    Some (scenario_table A ctx READY (d + 10) d).
Proof.
  intros H0 Heq Hd. rewrite scenario_tick. unfold period_1ms.
  rewrite wrap32_small by (unfold uint32; lia).
  assert (wrap32 (d + wrap32 (period_10ms * period_1ms)) = (d + 10)%Z) as Hsum.
  { rewrite wrap32_add_r. apply wrap32_small. unfold uint32. vm_compute (_ * _)%Z. lia. }
  unfold timer_slot. cbn [state execute_time task_period function data_ptr].
  rewrite decide_True by done. rewrite decide_True by done.
  rewrite decide_True by lia. rewrite Hsum.
  unfold scenario_table. do 3 f_equal. lia.
Qed.

Lemma OS_ticks_S n s : OS_ticks (S n) s = OS_TaskTimer s ≫= OS_ticks n.
Proof. reflexivity. Qed.

Lemma scenario_ticks_blocked A ctx d j : ∀ T,
  (0 ≤ T)%Z → (T + Z.of_nat j < d)%Z → (d < 2 ^ 32)%Z →
  OS_ticks j (scenario_table A ctx BLOCKED d T) =
    Some (scenario_table A ctx BLOCKED d (T + Z.of_nat j)).
Proof.
  induction j as [|j IH]; intros T H0 Hlt Hd.
  - simpl. by rewrite Z.add_0_r.
  - rewrite OS_ticks_S, scenario_tick_blocked by lia.
    change (OS_ticks j (scenario_table A ctx BLOCKED d (T + 1)) =
            Some (scenario_table A ctx BLOCKED d (T + Z.of_nat (S j)))).
    rewrite IH by lia. do 2 f_equal. lia.
Qed.

Lemma scenario_ticks_due A ctx d n T :
  (0 ≤ T)%Z → (T + Z.of_nat n = d)%Z → 0 < n → (d + 10 < 2 ^ 32)%Z →
  OS_ticks n (scenario_table A ctx BLOCKED d T) =
    Some (scenario_table A ctx READY (d + 10) d).
Proof.
  revert T. induction n as [|n IH]; intros T H0 Heq Hn Hd; [lia|].
  rewrite OS_ticks_S. destruct n as [|n].
  - rewrite scenario_tick_due by lia. done.
  - rewrite scenario_tick_blocked by lia. apply IH; lia.
Qed.

Section Scenario.

Context {Env : Type} (call : fncPtr → Z → Env → Z * Env).
Context (A ctx : Z).
Hypothesis A_not_null : A ≠ NULL.
Hypothesis A_returns_ten : ∀ d e, wrap32 (call A d e).1 = period_10ms.

Lemma scenario_run d T e :
  OS_TaskExecution call (scenario_table A ctx READY d T) e =
    Some (scenario_table A ctx BLOCKED d T, (call A ctx e).2, [mkInv 0 period_10ms]).
Proof.
  unfold OS_TaskExecution, scenario_table. simpl. unfold exec_slot. simpl.
  rewrite decide_False by done.
  pose proof (A_returns_ten ctx e) as Hr.
  destruct (call A ctx e) as [r e']. simpl in *. rewrite Hr. reflexivity.
Qed.

Lemma scenario_round d T e :
  (0 ≤ T)%Z → (T + 10 = d)%Z → (d + 10 < 2 ^ 32)%Z →
  ∃ e', ticks_then_run call 10 (scenario_table A ctx BLOCKED d T) e =
          Some (scenario_table A ctx BLOCKED (d + 10) d, e', [mkInv 0 period_10ms]).
Proof.
  intros H0 Heq Hd. unfold ticks_then_run.
  rewrite (scenario_ticks_due A ctx d 10 T) by lia.
  change (∃ e', OS_TaskExecution call (scenario_table A ctx READY (d + 10) d) e =
                Some (scenario_table A ctx BLOCKED (d + 10) d, e', [mkInv 0 period_10ms])).
  rewrite scenario_run. eauto.
Qed.

Lemma scenario_cycles_S k s e :
  scenario_cycles call (S k) s e =
    ticks_then_run call 10 s e ≫= λ '(s1, e1, _), scenario_cycles call k s1 e1.
Proof. reflexivity. Qed.

Lemma scenario_cycles_spec k : ∀ d T e,
  (0 ≤ T)%Z → (T + 10 = d)%Z → (d + 10 * Z.of_nat k < 2 ^ 32)%Z →
  ∃ e', scenario_cycles call k (scenario_table A ctx BLOCKED d T) e =
          Some (scenario_table A ctx BLOCKED (d + 10 * Z.of_nat k)
                               (T + 10 * Z.of_nat k), e').
Proof.
  induction k as [|k IH]; intros d T e H0 Heq Hd.
  - exists e. simpl. by rewrite !Z.add_0_r.
  - destruct (scenario_round d T e) as (e1 & Hround); [lia|lia|lia|].
    rewrite scenario_cycles_S, Hround.
    destruct (IH (d + 10)%Z d e1) as (e' & Hrest); [lia|lia|lia|].
    exists e'. etransitivity; [exact Hrest|]. do 3 f_equal; lia.
Qed.

(** C3, amended.  From the initial state, OS_TaskCreate(A, 10, BLOCKED, ctx,
    0) returns OK with deadline 0.  A becomes READY at the first tick, T = 1,
    with deadline 10.  An execution pass in which A returns 10 calls it once
    and leaves it BLOCKED with deadline 10.  It stays BLOCKED for the next
    eight ticks and is READY again at T = 10 with deadline 20.  From there
    the cycle is exact: after the pass at T = d (d = 10, 20, ...) the task is
    BLOCKED with deadline d + 10, stays BLOCKED for nine ticks, is READY at
    the tenth, T = d + 10, with deadline d + 20, and the pass puts it back to
    BLOCKED; [k] rounds of ten ticks and a pass lead from T = 10 to
    T = 10 (k + 1).  All this as long as the deadline stays below 2^32. *)
Theorem C3_period_ten_scenario :
  OS_TaskCreate A period_10ms BLOCKED ctx 0 OS_init =
    Some (OK, scenario_table A ctx BLOCKED 0 0) ∧
  OS_ticks 1 (scenario_table A ctx BLOCKED 0 0) =
    Some (scenario_table A ctx READY 10 1) ∧
  (∀ e, OS_TaskExecution call (scenario_table A ctx READY 10 1) e =
          Some (scenario_table A ctx BLOCKED 10 1, (call A ctx e).2,
                [mkInv 0 period_10ms])) ∧
  (∀ j, j < 9 → OS_ticks j (scenario_table A ctx BLOCKED 10 1) =
                  Some (scenario_table A ctx BLOCKED 10 (1 + Z.of_nat j))) ∧
  OS_ticks 9 (scenario_table A ctx BLOCKED 10 1) =
    Some (scenario_table A ctx READY 20 10) ∧
  (∀ d, (10 ≤ d)%Z → (d + 20 < 2 ^ 32)%Z →
        (∀ e, OS_TaskExecution call (scenario_table A ctx READY (d + 10) d) e =
                Some (scenario_table A ctx BLOCKED (d + 10) d, (call A ctx e).2,
                      [mkInv 0 period_10ms])) ∧
        (∀ j, j < 10 → OS_ticks j (scenario_table A ctx BLOCKED (d + 10) d) =
                         Some (scenario_table A ctx BLOCKED (d + 10) (d + Z.of_nat j))) ∧
        OS_ticks 10 (scenario_table A ctx BLOCKED (d + 10) d) =
          Some (scenario_table A ctx READY (d + 20) (d + 10))) ∧
  (∀ k e, (10 * (Z.of_nat k + 2) < 2 ^ 32)%Z →
        ∃ e', scenario_cycles call k (scenario_table A ctx BLOCKED 20 10) e =
                Some (scenario_table A ctx BLOCKED (10 * (Z.of_nat k + 2))
                                     (10 * (Z.of_nat k + 1)), e')).
Proof.
  split; [reflexivity|]. split; [reflexivity|]. split; [apply scenario_run|].
  split; [|split; [|split]].
  - intros j Hj. apply scenario_ticks_blocked; lia.
  - apply (scenario_ticks_due A ctx 10 9 1); lia.
  - intros d Hd Hmax. split; [intros e; apply scenario_run|]. split.
    + intros j Hj. apply scenario_ticks_blocked; lia.
    + replace (d + 20)%Z with (d + 10 + 10)%Z by lia.
      apply (scenario_ticks_due A ctx (d + 10) 10 d); lia.
  - intros k e Hk.
    destruct (scenario_cycles_spec k 20 10 e) as (e' & Hrun); [lia|lia|lia|].
    exists e'. rewrite Hrun. do 3 f_equal; lia.
Qed.

End Scenario.

(** C3, counterexample.  With entry point 1 as task A: after the
    registration the first tick already makes A READY, at T = 1 and with
    deadline 10; and when ten ticks have passed, T = 10, the stored deadline
    is 10, not 20. *)
Lemma C3_ready_at_first_tick :
  OS_TaskCreate 1 period_10ms BLOCKED 0 0 OS_init =
    Some (OK, scenario_table 1 0 BLOCKED 0 0) ∧
  OS_ticks 1 (scenario_table 1 0 BLOCKED 0 0) = Some (scenario_table 1 0 READY 10 1) ∧
  OS_ticks 10 (scenario_table 1 0 BLOCKED 0 0) = Some (scenario_table 1 0 READY 10 10) ∧
  scenario_table 1 0 READY 10 10 ≠ scenario_table 1 0 READY 20 10.
Proof. repeat split; try reflexivity. vm_compute. congruence. Qed.

Lemma C3_period_ten_scenario_witness :
  OS_ticks 9 (scenario_table 1 0 BLOCKED 10 1) = Some (scenario_table 1 0 READY 20 10) ∧
  ∃ e', scenario_cycles ten_tasks 3 (scenario_table 1 0 BLOCKED 20 10) () =
          Some (scenario_table 1 0 BLOCKED 50 40, e').
Proof.
  destruct (C3_period_ten_scenario ten_tasks 1 0) as (_ & _ & _ & _ & H9 & _ & Hcycles).
  - vm_compute. congruence.
  - intros d e. reflexivity.
  - split; [exact H9|]. destruct (Hcycles 3 ()) as (e' & He'); [vm_compute; reflexivity|].
    exists e'. exact He'.
Defined.


(** * Further properties of the interface

    What follows covers the accessors, the two short forms of registration
    and the behaviour of the operations beyond the statements above. *)

(** ** Lookup and the accessors *)

Lemma find_loop_same_functions f (arr arr' : list OS_struct) n : ∀ i,
  (∀ j, function <$> arr' !! j = function <$> arr !! j) →
  find_loop f arr' n i = find_loop f arr n i.
Proof.
  induction n as [|n IH]; intros i H; [done|].
  simpl. pose proof (H i) as Hi.
  destruct (arr' !! i) as [t'|], (arr !! i) as [t|]; simpl in Hi; try done.
  injection Hi as Hi. simpl. rewrite Hi. case_decide; [done|]. by apply IH.
Qed.

Lemma TaskFind_same_functions f s s' :
  same_functions s s' → OS_TaskFind f s' = OS_TaskFind f s.
Proof.
  intros [Hc Hf]. unfold OS_TaskFind. rewrite Hc. by apply find_loop_same_functions.
Qed.

Lemma getters_found f s r t :
  OS_TaskFind f s = Some r → r < OS_MAX_TASK_NUM → task_array s !! r = Some t →
  OS_GetTaskState f s = Some (state t) ∧
  OS_GetTaskPeriod f s = Some (task_period t) ∧
  OS_GetTaskExecuteTime f s = Some (execute_time t).
Proof.
  intros Hr Hlt Ht. unfold OS_GetTaskState, OS_GetTaskPeriod, OS_GetTaskExecuteTime.
  rewrite Hr. simpl. rewrite !decide_True by done. by rewrite Ht.
Qed.

Lemma getters_absent f s :
  OS_TaskFind f s = Some (OS_MAX_TASK_NUM + 1) →
  OS_TaskIsInQueue f s = Some false ∧
  OS_GetTaskState f s = Some SUSPENDED ∧
  OS_GetTaskPeriod f s = Some 0%Z ∧
  OS_GetTaskExecuteTime f s = Some 0%Z.
Proof.
  intros Hr.
  unfold OS_TaskIsInQueue, OS_GetTaskState, OS_GetTaskPeriod, OS_GetTaskExecuteTime.
  rewrite Hr. done.
Qed.

(** What lookup finds in a well-formed table: either nothing, or a slot
    below the tail index with its record. *)
Lemma TaskFind_cases f s :
  OS_inv s →
  (OS_TaskFind f s = Some (OS_MAX_TASK_NUM + 1) ∧ ∀ i, ¬ holds s i f) ∨
  (∃ r t, OS_TaskFind f s = Some r ∧ r < task_count s ∧ r < OS_MAX_TASK_NUM ∧
          task_array s !! r = Some t ∧ function t = f).
Proof.
  intros HI. destruct (TaskFind_total f s) as [r Hr].
  { rewrite (inv_length s HI). apply (inv_count s HI). }
  destruct (TaskFind_Some f s r Hr) as [[-> Hno]|[(Hrc & t & Ht & Hf) _]]; [by left|].
  right. exists r, t. pose proof (inv_count s HI). repeat split; try done; lia.
Qed.

(** The record of another entry point is not the slot lookup returns. *)
Lemma getters_write_other f g s r tr t' :
  OS_inv s → task_array s !! r = Some tr → function tr = f →
  function t' = f → g ≠ f →
  let s' := mkOS (<[r:=t']> (task_array s)) (task_count s) (os_time s) in
  OS_TaskIsInQueue g s' = OS_TaskIsInQueue g s ∧
  OS_GetTaskState g s' = OS_GetTaskState g s ∧
  OS_GetTaskPeriod g s' = OS_GetTaskPeriod g s ∧
  OS_GetTaskExecuteTime g s' = OS_GetTaskExecuteTime g s.
Proof.
  intros HI Htr Hf Hf' Hg s'.
  assert (same_functions s s') as Hsame.
  { apply (same_functions_write s r tr); [done|congruence]. }
  pose proof (TaskFind_same_functions g s s' Hsame) as Hfind.
  unfold OS_TaskIsInQueue, OS_GetTaskState, OS_GetTaskPeriod, OS_GetTaskExecuteTime.
  rewrite Hfind. split; [done|].
  destruct (TaskFind_cases g s HI) as [[-> _]|(q & tq & -> & _ & Hq & Htq & Hfq)]; [done|].
  subst s'. simpl. rewrite !decide_True by done.
  rewrite list_lookup_insert_ne; [done|]. intros ->. congruence.
Qed.

Lemma TaskIsInQueue_found f s r :
  OS_TaskFind f s = Some r → r < OS_MAX_TASK_NUM → OS_TaskIsInQueue f s = Some true.
Proof.
  intros Hr Hlt. unfold OS_TaskIsInQueue. rewrite Hr. simpl.
  f_equal. by apply bool_decide_eq_true.
Qed.

(** The accessors after one field of the record lookup returns for [f] was
    rewritten. *)
Lemma getters_write_found f s r t t' :
  OS_inv s → OS_TaskFind f s = Some r → r < OS_MAX_TASK_NUM →
  task_array s !! r = Some t → function t = f → function t' = f →
  let s' := mkOS (<[r:=t']> (task_array s)) (task_count s) (os_time s) in
  OS_inv s' ∧
  OS_TaskIsInQueue f s' = Some true ∧
  OS_GetTaskState f s' = Some (state t') ∧
  OS_GetTaskPeriod f s' = Some (task_period t') ∧
  OS_GetTaskExecuteTime f s' = Some (execute_time t') ∧
  ∀ g, g ≠ f →
    OS_TaskIsInQueue g s' = OS_TaskIsInQueue g s ∧
    OS_GetTaskState g s' = OS_GetTaskState g s ∧
    OS_GetTaskPeriod g s' = OS_GetTaskPeriod g s ∧
    OS_GetTaskExecuteTime g s' = OS_GetTaskExecuteTime g s.
Proof.
  intros HI Hr Hlt Ht Hf Hf' s'.
  assert (same_functions s s') as Hsame.
  { apply (same_functions_write s r t); [done|congruence]. }
  assert (OS_TaskFind f s' = Some r) as Hr'.
  { by rewrite (TaskFind_same_functions f s s' Hsame). }
  assert (task_array s' !! r = Some t') as Ht'.
  { subst s'. simpl. apply list_lookup_insert_eq. by eapply lookup_lt_Some. }
  split; [apply (inv_write_same s r t); [done|done|congruence]|].
  split; [by apply (TaskIsInQueue_found f s' r)|].
  destruct (getters_found f s' r t' Hr' Hlt Ht') as (H1 & H2 & H3).
  split; [done|]. split; [done|]. split; [done|].
  intros g Hg. by apply (getters_write_other f g s r t t').
Qed.

(** OS_TaskIsInQueue answers true exactly when some slot below the tail
    index holds the entry point, and false exactly when none does. *)
Theorem TaskIsInQueue_reflects_table f s :
  OS_inv s →
  (OS_TaskIsInQueue f s = Some true ↔ ∃ i, holds s i f) ∧
  (OS_TaskIsInQueue f s = Some false ↔ ∀ i, ¬ holds s i f).
Proof.
  intros HI. pose proof (inv_count s HI) as Hc.
  destruct (TaskFind_cases f s HI) as [[Hr Hno]|(r & t & Hr & Hrc & Hlt & Ht & Hf)].
  - destruct (getters_absent f s Hr) as [Hq _]. rewrite Hq. split; split; try done.
    intros [i Hi]. by destruct (Hno i).
  - rewrite (TaskIsInQueue_found f s r Hr Hlt). split; split; try done.
    + intros _. exists r. split; [done|eauto].
    + intros Hno. destruct (Hno r). split; [done|eauto].
Qed.

(** An entry point that is not registered: the three getters answer their
    default values (SUSPENDED, 0, 0) and the three setters return
    NOK_NULL_PTR and leave the state as it is. *)
Theorem accessors_of_unregistered_task f s st p x :
  OS_inv s → OS_TaskIsInQueue f s = Some false →
  OS_GetTaskState f s = Some SUSPENDED ∧
  OS_GetTaskPeriod f s = Some 0%Z ∧
  OS_GetTaskExecuteTime f s = Some 0%Z ∧
  OS_SetTaskState f st s = Some (NOK_NULL_PTR, s) ∧
  OS_SetTaskPeriod f p s = Some (NOK_NULL_PTR, s) ∧
  OS_SetTaskExecuteTime f x s = Some (NOK_NULL_PTR, s).
Proof.
  intros HI Hq.
  destruct (TaskFind_cases f s HI) as [[Hr Hno]|(r & t & Hr & Hrc & Hlt & Ht & Hf)].
  - destruct (getters_absent f s Hr) as (_ & H1 & H2 & H3).
    split; [done|]. split; [done|]. split; [done|].
    unfold OS_SetTaskState, OS_SetTaskPeriod, OS_SetTaskExecuteTime. rewrite Hr. done.
  - rewrite (TaskIsInQueue_found f s r Hr Hlt) in Hq. discriminate.
Qed.

(** OS_SetTaskState on a registered entry point returns OK; afterwards
    OS_GetTaskState answers the new state, the period and the deadline of
    the task are as before, the task is still registered, and the answers
    of the accessors for every other entry point, the tail index and the
    clock are unchanged. *)
Theorem SetTaskState_then_get f st s :
  OS_inv s → OS_TaskIsInQueue f s = Some true →
  ∃ s', OS_SetTaskState f st s = Some (OK, s') ∧ OS_inv s' ∧
        OS_GetTaskState f s' = Some st ∧
        OS_GetTaskPeriod f s' = OS_GetTaskPeriod f s ∧
        OS_GetTaskExecuteTime f s' = OS_GetTaskExecuteTime f s ∧
        OS_TaskIsInQueue f s' = Some true ∧
        task_count s' = task_count s ∧ OS_GetOsTime s' = OS_GetOsTime s ∧
        ∀ g, g ≠ f →
          OS_TaskIsInQueue g s' = OS_TaskIsInQueue g s ∧
          OS_GetTaskState g s' = OS_GetTaskState g s ∧
          OS_GetTaskPeriod g s' = OS_GetTaskPeriod g s ∧
          OS_GetTaskExecuteTime g s' = OS_GetTaskExecuteTime g s.
Proof.
  intros HI Hq.
  destruct (TaskFind_cases f s HI) as [[Hr Hno]|(r & t & Hr & Hrc & Hlt & Ht & Hf)].
  { destruct (getters_absent f s Hr) as [Hq' _]. congruence. }
  destruct (getters_found f s r t Hr Hlt Ht) as (_ & Hp & Hx).
  destruct (getters_write_found f s r t
              (mkTask (function t) (task_period t) (execute_time t) st (data_ptr t)))
    as (HI' & Hin & H1 & H2 & H3 & Hother); try done.
  eexists. split.
  { unfold OS_SetTaskState. rewrite Hr. simpl. rewrite decide_True by done.
    rewrite Ht. simpl. unfold write_slot.
    rewrite decide_True by (by eapply lookup_lt_Some). done. }
  split; [done|]. split; [done|]. split; [by rewrite Hp|]. split; [by rewrite Hx|].
  split; [done|]. split; [done|]. split; [done|]. done.
Qed.

(** OS_SetTaskPeriod on a registered entry point returns OK for every
    period, also one outside the bounds that registration enforces;
    afterwards OS_GetTaskPeriod answers the new period, state and deadline
    of the task are as before, and nothing else changes. *)
Theorem SetTaskPeriod_then_get f p s :
  OS_inv s → OS_TaskIsInQueue f s = Some true →
  ∃ s', OS_SetTaskPeriod f p s = Some (OK, s') ∧ OS_inv s' ∧
        OS_GetTaskPeriod f s' = Some p ∧
        OS_GetTaskState f s' = OS_GetTaskState f s ∧
        OS_GetTaskExecuteTime f s' = OS_GetTaskExecuteTime f s ∧
        OS_TaskIsInQueue f s' = Some true ∧
        task_count s' = task_count s ∧ OS_GetOsTime s' = OS_GetOsTime s ∧
        ∀ g, g ≠ f →
          OS_TaskIsInQueue g s' = OS_TaskIsInQueue g s ∧
          OS_GetTaskState g s' = OS_GetTaskState g s ∧
          OS_GetTaskPeriod g s' = OS_GetTaskPeriod g s ∧
          OS_GetTaskExecuteTime g s' = OS_GetTaskExecuteTime g s.
Proof.
  intros HI Hq.
  destruct (TaskFind_cases f s HI) as [[Hr Hno]|(r & t & Hr & Hrc & Hlt & Ht & Hf)].
  { destruct (getters_absent f s Hr) as [Hq' _]. congruence. }
  destruct (getters_found f s r t Hr Hlt Ht) as (Hs & _ & Hx).
  destruct (getters_write_found f s r t
              (mkTask (function t) p (execute_time t) (state t) (data_ptr t)))
    as (HI' & Hin & H1 & H2 & H3 & Hother); try done.
  eexists. split.
  { unfold OS_SetTaskPeriod. rewrite Hr. simpl. rewrite decide_True by done.
    rewrite Ht. simpl. unfold write_slot.
    rewrite decide_True by (by eapply lookup_lt_Some). done. }
  split; [done|]. split; [done|]. split; [by rewrite Hs|]. split; [by rewrite Hx|].
  split; [done|]. split; [done|]. split; [done|]. done.
Qed.

(** OS_SetTaskExecuteTime on a registered entry point returns OK;
    afterwards OS_GetTaskExecuteTime answers the new deadline, state and
    period of the task are as before, and nothing else changes. *)
Theorem SetTaskExecuteTime_then_get f x s :
  OS_inv s → OS_TaskIsInQueue f s = Some true →
  ∃ s', OS_SetTaskExecuteTime f x s = Some (OK, s') ∧ OS_inv s' ∧
        OS_GetTaskExecuteTime f s' = Some x ∧
        OS_GetTaskState f s' = OS_GetTaskState f s ∧
        OS_GetTaskPeriod f s' = OS_GetTaskPeriod f s ∧
        OS_TaskIsInQueue f s' = Some true ∧
        task_count s' = task_count s ∧ OS_GetOsTime s' = OS_GetOsTime s ∧
        ∀ g, g ≠ f →
          OS_TaskIsInQueue g s' = OS_TaskIsInQueue g s ∧
          OS_GetTaskState g s' = OS_GetTaskState g s ∧
          OS_GetTaskPeriod g s' = OS_GetTaskPeriod g s ∧
          OS_GetTaskExecuteTime g s' = OS_GetTaskExecuteTime g s.
Proof.
  intros HI Hq.
  destruct (TaskFind_cases f s HI) as [[Hr Hno]|(r & t & Hr & Hrc & Hlt & Ht & Hf)].
  { destruct (getters_absent f s Hr) as [Hq' _]. congruence. }
  destruct (getters_found f s r t Hr Hlt Ht) as (Hs & Hp & _).
  destruct (getters_write_found f s r t
              (mkTask (function t) (task_period t) x (state t) (data_ptr t)))
    as (HI' & Hin & H1 & H2 & H3 & Hother); try done.
  eexists. split.
  { unfold OS_SetTaskExecuteTime. rewrite Hr. simpl. rewrite decide_True by done.
    rewrite Ht. simpl. unfold write_slot.
    rewrite decide_True by (by eapply lookup_lt_Some). done. }
  split; [done|]. split; [done|]. split; [by rewrite Hs|]. split; [by rewrite Hp|].
  split; [done|]. split; [done|]. split; [done|]. done.
Qed.

Lemma TaskIsInQueue_reflects_table_witness :
  OS_TaskIsInQueue 1 suspended_table = Some true ∧
  OS_TaskIsInQueue 7 suspended_table = Some false.
Proof.
  destruct (TaskIsInQueue_reflects_table 1%Z suspended_table suspended_table_inv)
    as [[_ Hin] _].
  destruct (TaskIsInQueue_reflects_table 7%Z suspended_table suspended_table_inv)
    as [_ [_ Hout]].
  split.
  - apply Hin. exists 0. split; [simpl; lia|]. by exists (mkTask 1 1 0 SUSPENDED 0).
  - apply Hout. intros i [Hi (t & Ht & Hf)].
    assert (i = 0) as -> by (simpl in Hi; lia). injection Ht as <-. done.
Defined.

Lemma accessors_of_unregistered_task_witness :
  OS_GetTaskPeriod 7 suspended_table = Some 0%Z ∧
  OS_SetTaskPeriod 7 5 suspended_table = Some (NOK_NULL_PTR, suspended_table).
Proof.
  destruct (accessors_of_unregistered_task 7%Z suspended_table READY 5%Z 9%Z)
    as (_ & Hp & _ & _ & Hset & _).
  - exact suspended_table_inv.
  - vm_compute. reflexivity.
  - split; [exact Hp|exact Hset].
Defined.

Lemma SetTaskState_then_get_witness :
  ∃ s', OS_SetTaskState 1 READY suspended_table = Some (OK, s') ∧
        OS_GetTaskState 1 s' = Some READY.
Proof.
  destruct (SetTaskState_then_get 1%Z READY suspended_table) as (s' & Hset & _ & Hget & _).
  - exact suspended_table_inv.
  - vm_compute. reflexivity.
  - exists s'. split; [exact Hset|exact Hget].
Defined.

Lemma SetTaskPeriod_then_get_witness :
  ∃ s', OS_SetTaskPeriod 1 0 suspended_table = Some (OK, s') ∧
        OS_GetTaskPeriod 1 s' = Some 0%Z.
Proof.
  destruct (SetTaskPeriod_then_get 1%Z 0%Z suspended_table) as (s' & Hset & _ & Hget & _).
  - exact suspended_table_inv.
  - vm_compute. reflexivity.
  - exists s'. split; [exact Hset|exact Hget].
Defined.

Lemma SetTaskExecuteTime_then_get_witness :
  ∃ s', OS_SetTaskExecuteTime 1 40 suspended_table = Some (OK, s') ∧
        OS_GetTaskExecuteTime 1 s' = Some 40%Z.
Proof.
  destruct (SetTaskExecuteTime_then_get 1%Z 40%Z suspended_table)
    as (s' & Hset & _ & Hget & _).
  - exact suspended_table_inv.
  - vm_compute. reflexivity.
  - exists s'. split; [exact Hset|exact Hget].
Defined.

(** ** Registration seen through the accessors *)

(** A registration that passes both guards: where the record goes and what
    else stays. *)
Lemma TaskCreate_result f p st d df s :
  OS_inv s → valid_period p → task_count s < OS_MAX_TASK_NUM →
  ∃ r s' t0,
    OS_TaskCreate f p st d df s = Some (OK, s') ∧ OS_inv s' ∧
    r < task_count s' ∧
    task_array s !! r = Some t0 ∧ (function t0 = f ∨ function t0 = NULL) ∧
    task_array s' !! r = Some (mkTask f p (wrap32 (os_time s + df)) st d) ∧
    (∀ j, j ≠ r → task_array s' !! j = task_array s !! j) ∧
    os_time s' = os_time s ∧
    task_count s ≤ task_count s' ≤ task_count s + 1.
Proof.
  intros HI Hp Hc.
  destruct (TaskFind_cases f s HI) as [[Hr Hno]|(r & t & Hr & Hrc & Hlt & Ht & Hf)].
  - destruct (TaskCreate_new f p st d df s HI Hp Hc Hno)
      as (r & [(t0 & Ht0 & Hf0) Hfirst] & Hrc & Heq).
    exists r. eexists. exists t0. split; [exact Heq|].
    split; [by eapply TaskCreate_inv|]. simpl. unfold with_record.
    split; [case_decide; lia|]. split; [done|]. split; [by right|].
    split; [by rewrite list_lookup_insert_eq by (by eapply lookup_lt_Some)|].
    split; [by intros j Hj; rewrite list_lookup_insert_ne|].
    split; [done|]. case_decide; lia.
  - exists r. eexists. exists t. split.
    { apply (TaskCreate_found f p st d df s r); [done|done|done|]. split; [done|eauto]. }
    split.
    { eapply TaskCreate_inv; [exact HI|].
      apply (TaskCreate_found f p st d df s r); [done|done|done|]. split; [done|eauto]. }
    simpl. unfold with_record. split; [done|]. split; [done|]. split; [by left|].
    split; [by rewrite list_lookup_insert_eq by (by eapply lookup_lt_Some)|].
    split; [by intros j Hj; rewrite list_lookup_insert_ne|].
    split; [done|]. lia.
Qed.

(** A registration on a well-formed table returns; OK needs both guards
    passed, and any other feedback leaves the state as it was. *)
Lemma TaskCreate_outcome f p st d df s :
  OS_inv s →
  ∃ fb s', OS_TaskCreate f p st d df s = Some (fb, s') ∧
           (fb = OK → valid_period p ∧ task_count s < OS_MAX_TASK_NUM) ∧
           (fb ≠ OK → s' = s).
Proof.
  intros HI. pose proof (inv_count s HI) as Hcnt.
  destruct (decide (valid_period p)) as [Hp|Hp].
  - destruct (decide (task_count s < OS_MAX_TASK_NUM)) as [Hc|Hc].
    + destruct (TaskCreate_result f p st d df s HI Hp Hc) as (r & s' & t0 & Heq & _).
      exists OK, s'. split; [done|]. split; [done|]. intros Hne. by destruct Hne.
    + exists NOK_CNT_LIMIT, s. split; [apply TaskCreate_cnt_limit; [done|lia]|]. done.
  - exists NOK_TIME_LIMIT, s. split; [by apply TaskCreate_time_limit|]. done.
Qed.

(** The feedback of OS_TaskCreate on a well-formed table, in the order of
    its tests: NOK_TIME_LIMIT exactly for a period outside
    [OS_MIN_TIME, OS_MAX_TIME] (both bounds are accepted), NOK_CNT_LIMIT
    exactly for a valid period with the tail index at OS_MAX_TASK_NUM, OK
    otherwise.  The call always returns, never moves the clock, and changes
    nothing unless it returns OK. *)
Theorem TaskCreate_feedback_cases f p st d df s :
  OS_inv s →
  ∃ fb s', OS_TaskCreate f p st d df s = Some (fb, s') ∧
           (fb = NOK_TIME_LIMIT ↔ ¬ valid_period p) ∧
           (fb = NOK_CNT_LIMIT ↔ valid_period p ∧ task_count s = OS_MAX_TASK_NUM) ∧
           (fb = OK ↔ valid_period p ∧ task_count s < OS_MAX_TASK_NUM) ∧
           (fb ≠ OK → s' = s) ∧
           OS_GetOsTime s' = OS_GetOsTime s.
Proof.
  intros HI. pose proof (inv_count s HI) as Hcnt.
  destruct (decide (valid_period p)) as [Hp|Hp].
  - destruct (decide (task_count s < OS_MAX_TASK_NUM)) as [Hc|Hc].
    + destruct (TaskCreate_result f p st d df s HI Hp Hc)
        as (r & s' & t0 & Heq & _ & _ & _ & _ & _ & _ & Ht & _).
      exists OK, s'. split; [done|]. split; [split; [done|tauto]|].
      split; [split; [done|intros [_ ?]; lia]|]. split; [tauto|]. split; [done|done].
    + exists NOK_CNT_LIMIT, s. split; [apply TaskCreate_cnt_limit; [done|lia]|].
      split; [split; [done|tauto]|]. split; [split; [intros _; split; [done|lia]|done]|].
      split; [split; [done|intros [_ ?]; lia]|]. done.
  - exists NOK_TIME_LIMIT, s. split; [by apply TaskCreate_time_limit|].
    split; [tauto|]. split; [split; [done|tauto]|]. split; [split; [done|tauto]|]. done.
Qed.

Lemma TaskCreate_feedback_cases_witness :
  ∃ s', OS_TaskCreate 7 OS_MAX_TIME BLOCKED 0 0 suspended_table = Some (OK, s').
Proof.
  destruct (TaskCreate_feedback_cases 7%Z OS_MAX_TIME BLOCKED 0%Z 0%Z suspended_table)
    as (fb & s' & Heq & _ & _ & Hok & _).
  - exact suspended_table_inv.
  - exists s'. rewrite Heq. f_equal. f_equal. apply Hok.
    split; [vm_compute; split; congruence|vm_compute; lia].
Defined.

(** Registration and lookup: after a registration of a non-null entry point
    that passes both guards, the task is reported as registered and the
    getters answer the registered state, period and the deadline
    (clock + defer) mod 2^32. *)
Theorem TaskCreate_then_get f p st d df s :
  OS_inv s → f ≠ NULL → valid_period p → task_count s < OS_MAX_TASK_NUM →
  ∃ s', OS_TaskCreate f p st d df s = Some (OK, s') ∧
        OS_TaskIsInQueue f s' = Some true ∧
        OS_GetTaskState f s' = Some st ∧
        OS_GetTaskPeriod f s' = Some p ∧
        OS_GetTaskExecuteTime f s' = Some (wrap32 (OS_GetOsTime s + df)).
Proof.
  intros HI Hf Hp Hc.
  destruct (TaskCreate_result f p st d df s HI Hp Hc)
    as (r & s' & t0 & Heq & HI' & Hr & _ & _ & Hnew & _).
  exists s'. split; [done|].
  assert (OS_TaskFind f s' = Some r) as Hfind.
  { apply TaskFind_holds; [done| |done]. split; [done|]. eexists. split; [exact Hnew|done]. }
  pose proof (inv_count s' HI').
  split; [apply (TaskIsInQueue_found f s' r); [done|lia]|].
  destruct (getters_found f s' r _ Hfind ltac:(lia) Hnew) as (H1 & H2 & H3).
  split; [exact H1|]. split; [exact H2|exact H3].
Qed.

Lemma TaskCreate_then_get_witness :
  ∃ s', OS_TaskCreate 7 5 READY 9 3 suspended_table = Some (OK, s') ∧
        OS_GetTaskPeriod 7 s' = Some 5%Z ∧ OS_GetTaskExecuteTime 7 s' = Some 3%Z.
Proof.
  destruct (TaskCreate_then_get 7%Z 5%Z READY 9%Z 3%Z suspended_table)
    as (s' & Heq & _ & _ & Hp & Hx).
  - exact suspended_table_inv.
  - vm_compute. congruence.
  - vm_compute. split; congruence.
  - vm_compute. lia.
  - exists s'. split; [exact Heq|]. split; [exact Hp|exact Hx].
Defined.

(** A registration does not disturb other tasks: whatever OS_TaskCreate
    returns for [f], the accessors answer for every other non-null entry
    point as before. *)
Theorem TaskCreate_keeps_other_tasks f p st d df s :
  OS_inv s →
  ∃ fb s', OS_TaskCreate f p st d df s = Some (fb, s') ∧
    ∀ g, g ≠ f → g ≠ NULL →
      OS_TaskIsInQueue g s' = OS_TaskIsInQueue g s ∧
      OS_GetTaskState g s' = OS_GetTaskState g s ∧
      OS_GetTaskPeriod g s' = OS_GetTaskPeriod g s ∧
      OS_GetTaskExecuteTime g s' = OS_GetTaskExecuteTime g s.
Proof.
  intros HI.
  destruct (TaskCreate_outcome f p st d df s HI) as (fb & s' & Heq & Hok & Hsame).
  exists fb, s'. split; [done|]. intros g Hgf Hgn.
  destruct (decide (fb = OK)) as [->|Hne]; [|by rewrite (Hsame Hne)].
  destruct (Hok eq_refl) as [Hp Hc].
  destruct (TaskCreate_result f p st d df s HI Hp Hc)
    as (r & s2 & t0 & Heq2 & HI' & Hr & Ht0 & Hf0 & Hnew & Hold & _ & Hcnt).
  rewrite Heq in Heq2. injection Heq2 as <-.
  destruct (TaskFind_cases g s HI) as [[Hfind Hno]|(q & tq & Hfind & Hqc & Hq & Htq & Hfq)].
  - assert (OS_TaskFind g s' = Some (OS_MAX_TASK_NUM + 1)) as Hfind'.
    { apply TaskFind_fresh.
      - rewrite (inv_length s' HI'). apply (inv_count s' HI').
      - intros j (Hj & tj & Htj & Hfj). destruct (decide (j = r)) as [->|Hjr].
        + rewrite Hnew in Htj. injection Htj as <-. simpl in Hfj. congruence.
        + rewrite (Hold j Hjr) in Htj.
          destruct (decide (j < task_count s)) as [Hlt|Hge].
          * apply (Hno j). split; [done|eauto].
          * assert (function tj = NULL); [|congruence].
            apply (inv_tail s HI j tj Htj). lia. }
    destruct (getters_absent g s Hfind) as (-> & -> & -> & ->).
    destruct (getters_absent g s' Hfind') as (-> & -> & -> & ->). done.
  - assert (q ≠ r) as Hqr.
    { intros ->. assert (tq = t0) as -> by congruence. destruct Hf0; congruence. }
    assert (task_array s' !! q = Some tq) as Htq' by (by rewrite (Hold q Hqr)).
    assert (OS_TaskFind g s' = Some q) as Hfind'.
    { apply TaskFind_holds; [done| |done]. split; [lia|eauto]. }
    rewrite (TaskIsInQueue_found g s q Hfind Hq), (TaskIsInQueue_found g s' q Hfind' Hq).
    destruct (getters_found g s q tq Hfind Hq Htq) as (-> & -> & ->).
    destruct (getters_found g s' q tq Hfind' Hq Htq') as (-> & -> & ->). done.
Qed.

Lemma TaskCreate_keeps_other_tasks_witness :
  ∃ fb s', OS_TaskCreate 7 5 READY 9 3 suspended_table = Some (fb, s') ∧
           OS_GetTaskState 1 s' = OS_GetTaskState 1 suspended_table.
Proof.
  destruct (TaskCreate_keeps_other_tasks 7%Z 5%Z READY 9%Z 3%Z suspended_table)
    as (fb & s' & Heq & Hother).
  - exact suspended_table_inv.
  - exists fb, s'. split; [exact Heq|].
    destruct (Hother 1%Z) as (_ & Hst & _); [vm_compute; congruence..|exact Hst].
Defined.

(** ** The table over arbitrary runs of the interface *)

Section Runs.

Context {Env : Type} (call : fncPtr → Z → Env → Z * Env).

Lemma OS_step_count c s e s' e' :
  OS_inv s → OS_step call c (s, e) = Some (s', e') →
  task_count s ≤ task_count s' ≤ task_count s + 1.
Proof.
  intros HI Hstep.
  assert (∀ f p st d df x, OS_TaskCreate f p st d df s = Some x →
            task_count s ≤ task_count x.2 ≤ task_count s + 1) as Hcreate.
  { intros f p st d df [fb x] Hx.
    destruct (TaskCreate_outcome f p st d df s HI) as (fb0 & s0 & Heq & Hok & Hsame).
    rewrite Hx in Heq. injection Heq as <- <-. simpl.
    destruct (decide (fb = OK)) as [->|Hne]; [|rewrite (Hsame Hne); lia].
    destruct (Hok eq_refl) as [Hp Hc].
    destruct (TaskCreate_result f p st d df s HI Hp Hc)
      as (r & s2 & t0 & Heq2 & _ & _ & _ & _ & _ & _ & _ & Hcnt).
    rewrite Hx in Heq2. by injection Heq2 as <-. }
  destruct c; simpl in Hstep;
    match type of Hstep with
    | (?m ≫= _) = _ => destruct m as [x|] eqn:Hm; simpl in Hstep; [|done]
    end; injection Hstep as <- <-.
  - by eapply Hcreate.
  - by eapply Hcreate.
  - by eapply Hcreate.
  - destruct (TaskTimer_spec s) as (arr' & Heq & _).
    { rewrite (inv_length s HI). apply (inv_count s HI). }
    rewrite Hm in Heq. injection Heq as ->. simpl. lia.
  - destruct x as [[s1 e1] log]. apply exec_loop_frame in Hm as (Hc & _). simpl. lia.
  - destruct (SetTaskState_total f st s HI) as (fb & s1 & Heq & [Hc _]).
    rewrite Hm in Heq. injection Heq as ->. simpl. lia.
  - destruct (SetTaskPeriod_total f period s HI) as (fb & s1 & Heq & [Hc _]).
    rewrite Hm in Heq. injection Heq as ->. simpl. lia.
  - destruct (SetTaskExecuteTime_total f time s HI) as (fb & s1 & Heq & [Hc _]).
    rewrite Hm in Heq. injection Heq as ->. simpl. lia.
Qed.

Lemma OS_run_count cs : ∀ s e s' e',
  OS_inv s → OS_run call cs (s, e) = Some (s', e') →
  task_count s ≤ task_count s' ≤ task_count s + length cs.
Proof.
  induction cs as [|c cs IH]; intros s e s' e' HI Hrun.
  - injection Hrun as <- <-. simpl. lia.
  - change (OS_step call c (s, e) ≫= OS_run call cs = Some (s', e')) in Hrun.
    destruct (OS_step call c (s, e)) as [[s1 e1]|] eqn:Hstep; [|done].
    pose proof (OS_step_count c s e s1 e1 HI Hstep).
    pose proof (IH s1 e1 s' e' (OS_step_inv call c s e s1 e1 HI Hstep) Hrun).
    simpl. lia.
Qed.

(** The tail index never goes down, whatever is called, and goes up by at
    most one per call.  So once it has reached OS_MAX_TASK_NUM it stays
    there: after any later run of the interface, also one in which every
    task stopped and was reclaimed, OS_TaskCreate with a valid period
    returns NOK_CNT_LIMIT and changes nothing. *)
Theorem tail_index_never_decreases cs s e s' e' :
  OS_inv s → OS_run call cs (s, e) = Some (s', e') →
  task_count s ≤ task_count s' ≤ task_count s + length cs ∧
  (task_count s = OS_MAX_TASK_NUM →
   ∀ f p st d df, valid_period p →
     OS_TaskCreate f p st d df s' = Some (NOK_CNT_LIMIT, s')).
Proof.
  intros HI Hrun. pose proof (OS_run_count cs s e s' e' HI Hrun) as Hcnt.
  split; [done|]. intros Hfull f p st d df Hp.
  apply TaskCreate_cnt_limit; [done|lia].
Qed.

(** Every reachable state is well formed: the table has OS_MAX_TASK_NUM
    slots, the tail index is at most OS_MAX_TASK_NUM, the clock is a 32-bit
    value, every slot from the tail index on has a null entry point, no
    non-null entry point is held by two slots, and at most OS_MAX_TASK_NUM
    records are active. *)
Theorem reachable_table_well_formed s :
  reachable call s →
  length (task_array s) = OS_MAX_TASK_NUM ∧
  task_count s ≤ OS_MAX_TASK_NUM ∧
  uint32 (OS_GetOsTime s) ∧
  (∀ i t, task_array s !! i = Some t → task_count s ≤ i → function t = NULL) ∧
  (∀ i j f, holds s i f → holds s j f → f ≠ NULL → i = j) ∧
  active_count s ≤ OS_MAX_TASK_NUM.
Proof.
  intros Hreach. destruct (reachable_inv call s Hreach) as [Ht Hl Hc Htail Huniq].
  split; [done|]. split; [done|]. split; [done|]. split; [done|]. split.
  - intros i j f (Hi & ti & Hti & Hfi) (Hj & tj & Htj & Hfj) Hf.
    apply (Huniq i j ti tj); congruence.
  - unfold active_count. etransitivity; [apply length_filter|].
    rewrite length_take. lia.
Qed.

(** On a well-formed table no call of the interface runs into undefined
    behaviour, with one exception: every call other than the execution pass
    returns, the accessors return, and the execution pass returns exactly
    when no READY slot below the tail index has a null entry point. *)
Theorem interface_defined_on_well_formed_table s e :
  OS_inv s →
  (∀ c, c ≠ TaskExecution → is_Some (OS_step call c (s, e))) ∧
  (∀ f, is_Some (OS_TaskIsInQueue f s) ∧ is_Some (OS_GetTaskState f s) ∧
        is_Some (OS_GetTaskPeriod f s) ∧ is_Some (OS_GetTaskExecuteTime f s)) ∧
  (is_Some (OS_TaskExecution call s e) ↔ callable (task_array s) 0 (task_count s)).
Proof.
  intros HI.
  assert (task_count s ≤ length (task_array s)) as Hlen.
  { rewrite (inv_length s HI). apply (inv_count s HI). }
  split; [|split].
  - intros c Hc. destruct c; simpl; try done.
    + destruct (TaskCreate_outcome f period st data defer s HI) as (fb & s' & -> & _).
      simpl. eauto.
    + unfold OS_TaskCreateSimple.
      destruct (TaskCreate_outcome f period_1ms BLOCKED NULL 0 s HI) as (fb & s' & -> & _).
      simpl. eauto.
    + unfold OS_TaskScheduleSimple.
      destruct (TaskCreate_outcome f period_1ms BLOCKED NULL defer s HI)
        as (fb & s' & -> & _).
      simpl. eauto.
    + destruct (TaskTimer_spec s Hlen) as (arr' & -> & _). simpl. eauto.
    + destruct (SetTaskState_total f st s HI) as (fb & s' & -> & _). simpl. eauto.
    + destruct (SetTaskPeriod_total f period s HI) as (fb & s' & -> & _). simpl. eauto.
    + destruct (SetTaskExecuteTime_total f time s HI) as (fb & s' & -> & _). simpl. eauto.
  - intros f.
    destruct (TaskFind_cases f s HI) as [[Hr Hno]|(r & t & Hr & Hrc & Hlt & Ht & Hf)].
    + destruct (getters_absent f s Hr) as (-> & -> & -> & ->). eauto.
    + rewrite (TaskIsInQueue_found f s r Hr Hlt).
      destruct (getters_found f s r t Hr Hlt Ht) as (-> & -> & ->). eauto.
  - split.
    + intros [r Hr]. by apply (exec_loop_callable call _ 0 s e r).
    + intros Hcall. destruct (TaskExecution_spec call s e Hlen Hcall) as (? & ? & ? & -> & _).
      eauto.
Qed.

End Runs.

Lemma full_table_reachable : reachable ten_tasks full_table.
Proof.
  exists full_calls, (), (). split; [exact full_calls_typed|]. vm_compute. reflexivity.
Qed.

Lemma tail_index_never_decreases_witness :
  OS_TaskCreate 26 1 BLOCKED 0 0 all_reclaimed = Some (NOK_CNT_LIMIT, all_reclaimed).
Proof.
  destruct (tail_index_never_decreases stop_tasks [TaskTimer; TaskExecution; TaskTimer]
              full_table () all_reclaimed ()) as [_ Hfull].
  - exact (reachable_inv ten_tasks full_table full_table_reachable).
  - vm_compute. reflexivity.
  - apply Hfull; [reflexivity|]. vm_compute. split; congruence.
Defined.

Lemma reachable_table_well_formed_witness :
  task_count full_table ≤ OS_MAX_TASK_NUM ∧ active_count full_table ≤ OS_MAX_TASK_NUM.
Proof.
  destruct (reachable_table_well_formed ten_tasks full_table full_table_reachable)
    as (_ & Hc & _ & _ & _ & Ha).
  split; [exact Hc|exact Ha].
Defined.

Lemma interface_defined_on_well_formed_table_witness :
  is_Some (OS_TaskExecution ten_tasks full_table ()).
Proof.
  destruct (interface_defined_on_well_formed_table ten_tasks full_table ()) as (_ & _ & Hrun).
  - exact (reachable_inv ten_tasks full_table full_table_reachable).
  - apply Hrun. intros j t Hj Ht Hst. exfalso. revert Ht Hst.
    change (task_array full_table) with
      ((λ k, mkTask (Z.of_nat k + 1) 1 0 BLOCKED 0) <$> seq 0 OS_MAX_TASK_NUM).
    rewrite list_lookup_fmap. destruct (seq 0 OS_MAX_TASK_NUM !! j); simpl; [|done].
    intros [= <-]. discriminate.
Defined.

(** ** Deadlines over several ticks *)

Lemma OS_ticks_inv n : ∀ s s', OS_inv s → OS_ticks n s = Some s' → OS_inv s'.
Proof.
  induction n as [|n IH]; intros s s' HI H.
  - by injection H as <-.
  - rewrite OS_ticks_S in H.
    destruct (OS_TaskTimer s) as [s1|] eqn:H1; simpl in H; [|done].
    eapply IH; [|exact H]. by eapply TaskTimer_inv.
Qed.

(** The accessors read the record of the slot that holds a non-null entry
    point. *)
Lemma getters_of_slot s i t :
  OS_inv s → i < task_count s → task_array s !! i = Some t → function t ≠ NULL →
  OS_TaskIsInQueue (function t) s = Some true ∧
  OS_GetTaskState (function t) s = Some (state t) ∧
  OS_GetTaskPeriod (function t) s = Some (task_period t) ∧
  OS_GetTaskExecuteTime (function t) s = Some (execute_time t).
Proof.
  intros HI Hi Ht Hf. pose proof (inv_count s HI).
  assert (OS_TaskFind (function t) s = Some i) as Hfind.
  { apply TaskFind_holds; [done| |done]. split; [done|eauto]. }
  split; [apply (TaskIsInQueue_found _ s i); [done|lia]|].
  apply (getters_found _ s i t); [done|lia|done].
Qed.

Lemma OS_ticks_add n m : ∀ s, OS_ticks (n + m) s = OS_ticks n s ≫= OS_ticks m.
Proof.
  induction n as [|n IH]; intros s; [done|].
  change (S n + m) with (S (n + m)). rewrite !OS_ticks_S.
  destruct (OS_TaskTimer s) as [s1|]; [|done]. apply IH.
Qed.

Lemma TaskTimer_before_deadline s i t :
  task_count s ≤ length (task_array s) → uint32 (os_time s) →
  task_array s !! i = Some t → state t = BLOCKED →
  (os_time s + 1 < execute_time t)%Z → uint32 (execute_time t) →
  ∃ s', OS_TaskTimer s = Some s' ∧ task_array s' !! i = Some t ∧
        os_time s' = (os_time s + 1)%Z ∧ task_count s' = task_count s ∧
        length (task_array s') = length (task_array s).
Proof.
  intros Hlen Hr Ht Hst Hlt Hd.
  destruct (TaskTimer_spec s Hlen) as (arr' & -> & Hl & Hlook).
  assert (wrap32 (os_time s + period_1ms) = (os_time s + 1)%Z) as Hnow.
  { apply wrap32_small. unfold uint32, period_1ms in *. lia. }
  eexists. split; [done|]. simpl. rewrite Hnow. split; [|done].
  rewrite Hlook, Ht. case_decide; [|done]. simpl. f_equal.
  unfold timer_slot. rewrite Hst. simpl. rewrite decide_False by lia. done.
Qed.

Lemma OS_ticks_before_deadline k : ∀ s i t,
  task_count s ≤ length (task_array s) → uint32 (os_time s) →
  task_array s !! i = Some t → state t = BLOCKED →
  (os_time s + Z.of_nat k < execute_time t)%Z → uint32 (execute_time t) →
  ∃ s', OS_ticks k s = Some s' ∧ task_array s' !! i = Some t ∧
        os_time s' = (os_time s + Z.of_nat k)%Z ∧ task_count s' = task_count s ∧
        length (task_array s') = length (task_array s).
Proof.
  induction k as [|k IH]; intros s i t Hlen Hr Ht Hst Hlt Hd.
  - exists s. repeat split; try done. lia.
  - destruct (TaskTimer_before_deadline s i t) as (s1 & H1 & Ht1 & Ho1 & Hc1 & Hl1);
      [done|done|done|done|lia|done|].
    destruct (IH s1 i t) as (s' & Hk & Ht' & Ho' & Hc' & Hl');
      [lia|unfold uint32 in *; lia|done|done|lia|done|].
    exists s'. rewrite OS_ticks_S, H1. split; [exact Hk|]. split; [done|].
    split; [lia|]. split; congruence.
Qed.

Lemma OS_ticks_at_deadline s i t :
  task_count s ≤ length (task_array s) → uint32 (os_time s) →
  i < task_count s → task_array s !! i = Some t → state t = BLOCKED →
  (os_time s < execute_time t)%Z → uint32 (execute_time t) →
  ∃ s', OS_ticks (Z.to_nat (execute_time t - os_time s)) s = Some s' ∧
        os_time s' = execute_time t ∧ task_count s' = task_count s ∧
        task_array s' !! i =
          Some (mkTask (function t) (task_period t)
                       (wrap32 (execute_time t + task_period t)) READY (data_ptr t)).
Proof.
  intros Hlen Hr Hi Ht Hst Hlt Hd.
  set (n := Z.to_nat (execute_time t - os_time s - 1)).
  replace (Z.to_nat (execute_time t - os_time s)) with (n + 1) by lia.
  destruct (OS_ticks_before_deadline n s i t) as (s1 & H1 & Ht1 & Ho1 & Hc1 & Hl1);
    [done|done|done|done|lia|done|].
  destruct (TaskTimer_spec s1) as (arr' & Htick & _ & Hlook); [lia|].
  assert (wrap32 (os_time s1 + period_1ms) = execute_time t) as Hnow.
  { rewrite wrap32_small; unfold uint32, period_1ms in *; lia. }
  eexists. split; [|split; [|split]].
  - rewrite OS_ticks_add, H1.
    transitivity (OS_TaskTimer s1 ≫= OS_ticks 0); [reflexivity|].
    rewrite Htick. reflexivity.
  - simpl. done.
  - simpl. done.
  - simpl. rewrite Hlook, decide_True, Ht1 by lia. simpl. f_equal.
    unfold timer_slot. rewrite Hst. simpl. rewrite Hnow.
    rewrite decide_True by lia. rewrite wrap32_add_r. do 3 f_equal.
    unfold period_1ms. lia.
Qed.

(** A BLOCKED task below the tail index whose deadline d lies ahead of the
    clock T: the ticks that keep the clock below d leave its record as it
    is, and the tick that brings the clock to d makes it READY with deadline
    (d + period) mod 2^32.  The task is readied exactly d - T ticks later,
    not before. *)
Theorem blocked_task_readied_at_deadline s i t :
  task_count s ≤ length (task_array s) → uint32 (OS_GetOsTime s) →
  i < task_count s → task_array s !! i = Some t → state t = BLOCKED →
  (OS_GetOsTime s < execute_time t)%Z → uint32 (execute_time t) →
  (∀ k, (OS_GetOsTime s + Z.of_nat k < execute_time t)%Z →
        ∃ s', OS_ticks k s = Some s' ∧ task_array s' !! i = Some t ∧
              OS_GetOsTime s' = (OS_GetOsTime s + Z.of_nat k)%Z) ∧
  ∃ s', OS_ticks (Z.to_nat (execute_time t - OS_GetOsTime s)) s = Some s' ∧
        OS_GetOsTime s' = execute_time t ∧
        task_array s' !! i =
          Some (mkTask (function t) (task_period t)
                       (wrap32 (execute_time t + task_period t)) READY (data_ptr t)).
Proof.
  unfold OS_GetOsTime. intros Hlen Hr Hi Ht Hst Hlt Hd. split.
  - intros k Hk. destruct (OS_ticks_before_deadline k s i t) as (s' & H1 & H2 & H3 & _);
      try done. eauto.
  - destruct (OS_ticks_at_deadline s i t) as (s' & H1 & H2 & _ & H3); try done. eauto.
Qed.

Lemma blocked_task_readied_at_deadline_witness :
  ∃ s', OS_ticks 5 (mkOS (<[0 := mkTask 1 3 5 BLOCKED 0]>
                            (replicate OS_MAX_TASK_NUM zero_task)) 1 0) = Some s' ∧
        task_array s' !! 0 = Some (mkTask 1 3 8 READY 0).
Proof.
  destruct (blocked_task_readied_at_deadline
              (mkOS (<[0 := mkTask 1 3 5 BLOCKED 0]> (replicate OS_MAX_TASK_NUM zero_task)) 1 0)
              0 (mkTask 1 3 5 BLOCKED 0)) as (_ & s' & Hrun & _ & Hslot).
  - vm_compute. lia.
  - vm_compute. split; congruence.
  - vm_compute. lia.
  - reflexivity.
  - reflexivity.
  - vm_compute. reflexivity.
  - vm_compute. split; congruence.
  - exists s'. split; [exact Hrun|exact Hslot].
Defined.

(** A READY task that is not executed waits: any number of ticks leaves its
    record, deadline included, as it is.  Periods that pass meanwhile are
    not counted. *)
Theorem ready_task_waits_for_execution s i t n :
  task_count s ≤ length (task_array s) →
  task_array s !! i = Some t → state t = READY →
  ∃ s', OS_ticks n s = Some s' ∧ task_array s' !! i = Some t ∧
        task_count s' = task_count s.
Proof.
  revert s. induction n as [|n IH]; intros s Hlen Ht Hst; [by exists s|].
  destruct (TaskTimer_spec s Hlen) as (arr' & Htick & Hl & Hlook).
  destruct (IH (mkOS arr' (task_count s) (wrap32 (os_time s + period_1ms))))
    as (s' & Hrun & Ht' & Hc'); [simpl; lia| |done|].
  { simpl. rewrite Hlook, Ht. case_decide; [|done]. simpl. f_equal.
    unfold timer_slot. rewrite Hst. done. }
  exists s'. rewrite OS_ticks_S, Htick. split; [exact Hrun|]. split; [done|exact Hc'].
Qed.

Lemma ready_task_waits_for_execution_witness :
  ∃ s', OS_ticks 30 ready_table = Some s' ∧
        task_array s' !! 0 = Some (mkTask 1 10 20 READY 0).
Proof.
  destruct (ready_task_waits_for_execution ready_table 0 (mkTask 1 10 20 READY 0) 30)
    as (s' & Hrun & Hslot & _).
  - vm_compute. lia.
  - reflexivity.
  - reflexivity.
  - exists s'. split; [exact Hrun|exact Hslot].
Defined.

(** ** The two short forms of registration *)

(** OS_TaskScheduleSimple(f, defer) with defer ≥ 1 on a table with room,
    while the clock plus defer stays within 32 bits: the call returns OK,
    the task is BLOCKED during the first defer - 1 ticks, and exactly the
    tick number defer makes it READY, with period 1 and the next deadline
    one tick later. *)
Theorem TaskScheduleSimple_first_run f defer s :
  OS_inv s → f ≠ NULL → task_count s < OS_MAX_TASK_NUM →
  (1 ≤ defer)%Z → (OS_GetOsTime s + defer < 2 ^ 32)%Z →
  ∃ s0, OS_TaskScheduleSimple f defer s = Some (OK, s0) ∧
        (∀ k, (Z.of_nat k < defer)%Z →
              ∃ sk, OS_ticks k s0 = Some sk ∧ OS_GetTaskState f sk = Some BLOCKED) ∧
        ∃ sd, OS_ticks (Z.to_nat defer) s0 = Some sd ∧
              OS_GetOsTime sd = (OS_GetOsTime s + defer)%Z ∧
              OS_GetTaskState f sd = Some READY ∧
              OS_GetTaskPeriod f sd = Some 1%Z ∧
              OS_GetTaskExecuteTime f sd = Some (wrap32 (OS_GetOsTime s + defer + 1)).
Proof.
  unfold OS_GetOsTime. intros HI Hf Hc Hd Hmax.
  pose proof (inv_time s HI) as Htime.
  destruct (TaskCreate_result f period_1ms BLOCKED NULL defer s HI)
    as (r & s0 & t0 & Heq & HI0 & Hr & _ & _ & Hnew & _ & Ho & _);
    [vm_compute; split; congruence|done|].
  rewrite wrap32_small in Hnew by (unfold uint32 in *; lia).
  set (t := mkTask f period_1ms (os_time s + defer) BLOCKED NULL) in *.
  assert (task_count s0 ≤ length (task_array s0)) as Hlen.
  { rewrite (inv_length s0 HI0). apply (inv_count s0 HI0). }
  assert (uint32 (os_time s0)) as Htime0 by (by rewrite Ho).
  exists s0. split; [exact Heq|]. split.
  - intros k Hk.
    destruct (OS_ticks_before_deadline k s0 r t) as (sk & Hrun & Ht & _ & Hck & _);
      [done|done|done|done|simpl; lia|unfold uint32 in *; simpl; lia|].
    exists sk. split; [done|].
    destruct (getters_of_slot sk r t) as (_ & Hst & _);
      [by eapply OS_ticks_inv|lia|done|done|exact Hst].
  - destruct (OS_ticks_at_deadline s0 r t) as (sd & Hrun & Hod & Hcd & Ht);
      [done|done|done|done|done|simpl; lia|unfold uint32 in *; simpl; lia|].
    simpl in Hrun, Hod, Ht. rewrite Ho in Hrun.
    replace (os_time s + defer - os_time s)%Z with defer in Hrun by lia.
    exists sd. split; [done|]. split; [done|].
    destruct (getters_of_slot sd r _ (OS_ticks_inv _ _ _ HI0 Hrun) ltac:(lia) Ht Hf)
      as (_ & Hst & Hp & Hx).
    split; [exact Hst|]. split; [exact Hp|]. exact Hx.
Qed.

Lemma TaskScheduleSimple_first_run_witness :
  ∃ s0 sd, OS_TaskScheduleSimple 7 5 suspended_table = Some (OK, s0) ∧
           OS_ticks 5 s0 = Some sd ∧ OS_GetTaskState 7 sd = Some READY.
Proof.
  destruct (TaskScheduleSimple_first_run 7%Z 5%Z suspended_table)
    as (s0 & Heq & _ & sd & Hrun & _ & Hst & _).
  - exact suspended_table_inv.
  - vm_compute. congruence.
  - vm_compute. lia.
  - lia.
  - vm_compute. reflexivity.
  - exists s0, sd. split; [exact Heq|]. split; [exact Hrun|exact Hst].
Defined.

(** OS_TaskCreateSimple(f) on a table with room, the clock not at its last
    value: the call returns OK and registers the task BLOCKED with period 1
    and the current time as deadline, so the very next tick makes it READY,
    with the deadline one tick ahead. *)
Theorem TaskCreateSimple_first_run f s :
  OS_inv s → f ≠ NULL → task_count s < OS_MAX_TASK_NUM →
  (OS_GetOsTime s < 2 ^ 32 - 1)%Z →
  ∃ s0 s1, OS_TaskCreateSimple f s = Some (OK, s0) ∧
           OS_GetTaskState f s0 = Some BLOCKED ∧
           OS_GetTaskPeriod f s0 = Some 1%Z ∧
           OS_GetTaskExecuteTime f s0 = Some (OS_GetOsTime s) ∧
           OS_TaskTimer s0 = Some s1 ∧
           OS_GetTaskState f s1 = Some READY ∧
           OS_GetTaskExecuteTime f s1 = Some (OS_GetOsTime s + 1)%Z.
Proof.
  unfold OS_GetOsTime. intros HI Hf Hc Hmax.
  pose proof (inv_time s HI) as Htime.
  destruct (TaskCreate_result f period_1ms BLOCKED NULL 0 s HI)
    as (r & s0 & t0 & Heq & HI0 & Hr & _ & _ & Hnew & _ & Ho & _);
    [vm_compute; split; congruence|done|].
  rewrite Z.add_0_r, wrap32_small in Hnew by done.
  destruct (getters_of_slot s0 r _ HI0 Hr Hnew Hf) as (_ & Hst0 & Hp0 & Hx0).
  destruct (TaskTimer_spec s0) as (arr' & Htick & _ & Hlook).
  { rewrite (inv_length s0 HI0). apply (inv_count s0 HI0). }
  pose proof (TaskTimer_inv s0 _ HI0 Htick) as HI1.
  assert (wrap32 (os_time s0 + period_1ms) = (os_time s + 1)%Z) as Hnow.
  { rewrite Ho. apply wrap32_small. unfold uint32, period_1ms in *. lia. }
  destruct (getters_of_slot _ r
              (mkTask f period_1ms (os_time s + 1) READY NULL) HI1) as (_ & Hst1 & _ & Hx1).
  { done. }
  { simpl. rewrite Hlook, decide_True, Hnew by done. simpl. f_equal.
    unfold timer_slot. simpl. rewrite Hnow. rewrite decide_True by lia.
    do 1 f_equal. rewrite wrap32_add_r. apply wrap32_small.
    unfold uint32, period_1ms in *. lia. }
  { done. }
  exists s0. eexists. split; [exact Heq|]. split; [exact Hst0|]. split; [exact Hp0|].
  split; [exact Hx0|]. split; [exact Htick|]. split; [exact Hst1|exact Hx1].
Qed.

Lemma TaskCreateSimple_first_run_witness :
  ∃ s0 s1, OS_TaskCreateSimple 7 suspended_table = Some (OK, s0) ∧
           OS_TaskTimer s0 = Some s1 ∧ OS_GetTaskState 7 s1 = Some READY.
Proof.
  destruct (TaskCreateSimple_first_run 7%Z suspended_table)
    as (s0 & s1 & Heq & _ & _ & _ & Htick & Hst & _).
  - exact suspended_table_inv.
  - vm_compute. congruence.
  - vm_compute. lia.
  - vm_compute. reflexivity.
  - exists s0, s1. split; [exact Heq|]. split; [exact Htick|exact Hst].
Defined.

(** ** The tail index after a registration *)

(** A registration that passes both guards moves the tail index by one
    exactly when the entry point is not yet in the table and no slot below
    the tail index is free; a re-registration and a registration into a
    reclaimed slot leave it where it is. *)
Theorem TaskCreate_tail_index f p st d df s :
  OS_inv s → valid_period p → task_count s < OS_MAX_TASK_NUM →
  ∃ s', OS_TaskCreate f p st d df s = Some (OK, s') ∧
        (task_count s' = task_count s + 1 ↔
           OS_TaskIsInQueue f s = Some false ∧ dense s) ∧
        (task_count s' = task_count s ↔
           OS_TaskIsInQueue f s = Some true ∨ ¬ dense s).
Proof.
  intros HI Hp Hc.
  destruct (TaskFind_cases f s HI) as [[Hr Hno]|(r & t & Hr & Hrc & Hlt & Ht & Hf)].
  - destruct (getters_absent f s Hr) as [Hq _].
    destruct (TaskCreate_new f p st d df s HI Hp Hc Hno)
      as (r & [(t0 & Ht0 & Hf0) Hfirst] & Hrc & Heq).
    eexists. split; [exact Heq|]. simpl. rewrite Hq.
    destruct (decide (r = task_count s)) as [->|Hne].
    + assert (dense s) as Hd by (intros j tj Hj Htj; by apply (Hfirst j tj)).
      split; [done|]. split; [lia|]. intros [?|?]; done.
    + assert (¬ dense s) as Hd.
      { intros Hd. apply (Hd r t0); [lia|done|done]. }
      split; [split; [lia|tauto]|]. split; [by right|done].
  - rewrite (TaskIsInQueue_found f s r Hr Hlt).
    eexists. split.
    { apply (TaskCreate_found f p st d df s r); [done|done|done|]. split; [done|eauto]. }
    simpl. split; [split; [lia|intros [? _]; done]|]. split; [by left|done].
Qed.

Lemma TaskCreate_tail_index_witness :
  ∃ s', OS_TaskCreate 7 5 READY 9 3 suspended_table = Some (OK, s') ∧
        task_count s' = 2.
Proof.
  destruct (TaskCreate_tail_index 7%Z 5%Z READY 9%Z 3%Z suspended_table)
    as (s' & Heq & Hgrow & _).
  - exact suspended_table_inv.
  - vm_compute. split; congruence.
  - vm_compute. lia.
  - exists s'. split; [exact Heq|]. apply Hgrow. split; [reflexivity|].
    intros i t Hi Ht. assert (i = 0) as -> by (simpl in Hi; lia).
    injection Ht as <-. done.
Defined.

(** ** Removing a task from outside *)

Lemma SetTaskState_result f st s r t :
  OS_TaskFind f s = Some r → r < OS_MAX_TASK_NUM → task_array s !! r = Some t →
  OS_SetTaskState f st s =
    Some (OK, mkOS (<[r := mkTask (function t) (task_period t) (execute_time t) st
                                  (data_ptr t)]> (task_array s))
                   (task_count s) (os_time s)).
Proof.
  intros Hr Hlt Ht. unfold OS_SetTaskState. rewrite Hr. simpl.
  rewrite decide_True by done. rewrite Ht. simpl. unfold write_slot.
  rewrite decide_True by (by eapply lookup_lt_Some). done.
Qed.

(** OS_SetTaskState(f, STOPPED) on a registered non-null entry point
    returns OK and the task is still reported as registered; the next timer
    tick removes it: OS_TaskIsInQueue answers false, the state getter
    answers its default, the state setter can no longer reach the task, and
    the tail index is where it was, so the slot is free but the table is
    not shorter. *)
Theorem stopping_a_task_removes_it f s :
  OS_inv s → f ≠ NULL → OS_TaskIsInQueue f s = Some true →
  ∃ s1 s2, OS_SetTaskState f STOPPED s = Some (OK, s1) ∧
           OS_TaskIsInQueue f s1 = Some true ∧
           OS_TaskTimer s1 = Some s2 ∧
           OS_TaskIsInQueue f s2 = Some false ∧
           OS_GetTaskState f s2 = Some SUSPENDED ∧
           OS_SetTaskState f BLOCKED s2 = Some (NOK_NULL_PTR, s2) ∧
           task_count s2 = task_count s.
Proof.
  intros HI Hf Hq.
  destruct (TaskFind_cases f s HI) as [[Hr Hno]|(r & t & Hr & Hrc & Hlt & Ht & Hft)].
  { destruct (getters_absent f s Hr) as [Hq' _]. congruence. }
  set (t1 := mkTask (function t) (task_period t) (execute_time t) STOPPED (data_ptr t)).
  destruct (getters_write_found f s r t t1) as (HI1 & Hq1 & _); try done.
  set (s1 := mkOS (<[r:=t1]> (task_array s)) (task_count s) (os_time s)) in *.
  assert (task_array s1 !! r = Some t1) as Ht1.
  { simpl. apply list_lookup_insert_eq. by eapply lookup_lt_Some. }
  destruct (TaskTimer_spec s1) as (arr' & Htick & _).
  { rewrite (inv_length s1 HI1). apply (inv_count s1 HI1). }
  assert (function t1 ≠ NULL) as Hf1 by (simpl; congruence).
  destruct (TaskTimer_reclaims s1 _ r t1 HI1 Hrc Ht1 eq_refl Hf1 Htick)
    as (HI2 & Hc2 & _ & _ & Hq2).
  change (function t1) with (function t) in Hq2. rewrite Hft in Hq2.
  exists s1. eexists. split; [by apply SetTaskState_result|]. split; [done|].
  split; [exact Htick|]. split; [done|].
  destruct (TaskFind_cases f _ HI2) as [[Hr2 _]|(r2 & t2 & Hr2 & _ & Hlt2 & _)].
  - destruct (getters_absent f _ Hr2) as (_ & Hst2 & _).
    split; [done|]. split; [|done]. unfold OS_SetTaskState. rewrite Hr2. done.
  - rewrite (TaskIsInQueue_found f _ r2 Hr2 Hlt2) in Hq2. discriminate.
Qed.

Lemma stopping_a_task_removes_it_witness :
  ∃ s1 s2, OS_SetTaskState 1 STOPPED suspended_table = Some (OK, s1) ∧
           OS_TaskTimer s1 = Some s2 ∧ OS_TaskIsInQueue 1 s2 = Some false.
Proof.
  destruct (stopping_a_task_removes_it 1%Z suspended_table)
    as (s1 & s2 & Hset & _ & Htick & Hq & _).
  - exact suspended_table_inv.
  - vm_compute. congruence.
  - vm_compute. reflexivity.
  - exists s1, s2. split; [exact Hset|]. split; [exact Htick|exact Hq].
Defined.

(** ** Execution passes in the main loop *)

Section Passes.

Context {Env : Type} (call : fncPtr → Z → Env → Z * Env).

Lemma run_ready_slots l : ∀ e, inv_slot <$> (run_ready call l e).2 = l.*1.
Proof.
  induction l as [|[i t] l IH]; intros e; [done|].
  simpl. destruct (call (function t) (data_ptr t) e) as [r e1].
  specialize (IH e1). destruct (run_ready call l e1) as [e2 log].
  simpl in *. f_equal. exact IH.
Qed.

(** An execution pass runs exactly the READY slots below the tail index,
    in increasing slot order: the environment and the values it returns
    are those of applying their bodies one after the other, each once, and
    the log has one entry per task run, in that order.  Every task run has
    a non-null entry point.  The pass leaves the clock and the tail index
    as they are and neither registers nor removes a task: a task that
    returned the terminal value is still reported as registered until the
    next timer tick. *)
Theorem execution_pass_order s e s' e' log :
  task_count s ≤ length (task_array s) →
  OS_TaskExecution call s e = Some (s', e', log) →
  run_ready call (ready_slots s) e = (e', log) ∧
  (∀ j t, (j, t) ∈ ready_slots s ↔
          j < task_count s ∧ task_array s !! j = Some t ∧ state t = READY) ∧
  StronglySorted lt (ready_slots s).*1 ∧
  inv_slot <$> log = (ready_slots s).*1 ∧
  (∀ j t, (j, t) ∈ ready_slots s → function t ≠ NULL) ∧
  OS_GetOsTime s' = OS_GetOsTime s ∧ task_count s' = task_count s ∧
  ∀ f, OS_TaskIsInQueue f s' = OS_TaskIsInQueue f s.
Proof.
  intros Hlen Hrun. pose proof (exec_loop_callable call _ _ _ _ _ Hrun) as Hcall.
  pose proof (TaskExecution_trace call s e s' e' log Hrun) as Htrace.
  destruct (exec_loop_frame call _ _ _ _ _ _ _ Hrun) as (Hc & Ho & _ & Hfun).
  assert (∀ j t, (j, t) ∈ ready_slots s ↔
                 j < task_count s ∧ task_array s !! j = Some t ∧ state t = READY) as Hin.
  { intros j t. unfold ready_slots. rewrite elem_of_ready_range.
    split; intros (? & ? & ?); (split; [lia|done]). }
  split; [done|]. split; [done|].
  split; [apply ready_range_sorted|]. split.
  { rewrite <- (run_ready_slots (ready_slots s) e). by rewrite Htrace. }
  split.
  { intros j t (Hj & Ht & Hst)%Hin. apply (Hcall j t); [lia|done|done]. }
  split; [done|]. split; [done|].
  intros f. unfold OS_TaskIsInQueue.
  by rewrite (TaskFind_same_functions f s s' (conj Hc Hfun)).
Qed.

Lemma OS_passes_round ps s e :
  OS_passes call (Tick :: Run :: ps) s e =
    s1 ← OS_TaskTimer s;
    '(s2, e2, l1) ← OS_TaskExecution call s1 e;
    '(s3, e3, l2) ← OS_passes call ps s2 e2;
    Some (s3, e3, l1 ++ l2).
Proof. reflexivity. Qed.

Lemma OS_passes_round_eq ps s e s1 s2 e2 l1 s3 e3 l2 :
  OS_TaskTimer s = Some s1 → OS_TaskExecution call s1 e = Some (s2, e2, l1) →
  OS_passes call ps s2 e2 = Some (s3, e3, l2) →
  OS_passes call (Tick :: Run :: ps) s e = Some (s3, e3, l1 ++ l2).
Proof.
  intros H1 H2 H3. rewrite OS_passes_round, H1. simpl. rewrite H2. simpl.
  rewrite H3. done.
Qed.

Lemma OS_passes_inv ps : ∀ s e s' e' log,
  OS_inv s → OS_passes call ps s e = Some (s', e', log) →
  OS_inv s' ∧ task_count s' = task_count s.
Proof.
  induction ps as [|[|] ps IH]; intros s e s' e' log HI H; simpl in H.
  - injection H as <- _ _. by split.
  - destruct (OS_TaskTimer s) as [s1|] eqn:H1; simpl in H; [|done].
    destruct (TaskTimer_spec s) as (arr' & Heq & _).
    { rewrite (inv_length s HI). apply (inv_count s HI). }
    destruct (IH _ _ _ _ _ (TaskTimer_inv s s1 HI H1) H) as [HI' Hc].
    split; [done|]. rewrite Hc. rewrite Heq in H1. by injection H1 as <-.
  - destruct (OS_TaskExecution call s e) as [[[s1 e1] l1]|] eqn:H1; simpl in H; [|done].
    destruct (OS_passes call ps s1 e1) as [[[s2 e2] l2]|] eqn:H2; simpl in H; [|done].
    inversion H; subst.
    destruct (IH _ _ _ _ _ (TaskExecution_inv call s e s1 e1 l1 HI H1) H2) as [HI' Hc].
    split; [done|]. rewrite Hc.
    by destruct (exec_loop_frame call _ _ _ _ _ _ _ H1) as (? & _).
Qed.

(** One round of the main loop while the deadline of a BLOCKED slot is
    still ahead. *)
Lemma round_before_deadline s e i t :
  task_count s ≤ length (task_array s) → uint32 (os_time s) → no_null_task s →
  task_array s !! i = Some t → state t = BLOCKED →
  (os_time s + 1 < execute_time t)%Z → uint32 (execute_time t) →
  ∃ s1 s' e' log,
    OS_TaskTimer s = Some s1 ∧ OS_TaskExecution call s1 e = Some (s', e', log) ∧
    task_array s' !! i = Some t ∧ calls_of i log = [] ∧
    os_time s' = (os_time s + 1)%Z ∧ task_count s' = task_count s ∧
    length (task_array s') = length (task_array s) ∧ no_null_task s'.
Proof.
  intros Hlen Hr Hn Ht Hst Hlt Hd.
  destruct (TaskTimer_before_deadline s i t) as (s1 & H1 & Ht1 & Ho1 & Hc1 & Hl1);
    try done.
  pose proof (TaskTimer_no_null_task s s1 Hlen Hn H1) as Hn1.
  destruct (TaskExecution_no_null_task call s1 e) as (s' & e' & log & H2 & Hn' & Hc' & Hl' & Hidle);
    [lia|done|].
  destruct (Hidle i t Ht1) as [Hlog Ht']; [by rewrite Hst|].
  destruct (exec_loop_frame call _ _ _ _ _ _ _ H2) as (_ & Ho' & _).
  exists s1, s', e', log. split; [done|]. split; [done|]. split; [done|].
  split; [done|]. split; [lia|]. split; [lia|]. split; [lia|done].
Qed.

(** The round of the main loop whose tick brings the clock to the deadline
    of a BLOCKED slot, for a task that returns its own period. *)
Lemma round_at_deadline s e i t :
  task_count s ≤ length (task_array s) → uint32 (os_time s) → no_null_task s →
  i < task_count s → task_array s !! i = Some t → state t = BLOCKED →
  (os_time s + 1 = execute_time t)%Z → uint32 (execute_time t) →
  (∀ e0, wrap32 (call (function t) (data_ptr t) e0).1 = task_period t) →
  task_period t ≠ period_end →
  ∃ s1 s' e' log,
    OS_TaskTimer s = Some s1 ∧ OS_TaskExecution call s1 e = Some (s', e', log) ∧
    task_array s' !! i =
      Some (mkTask (function t) (task_period t)
                   (wrap32 (execute_time t + task_period t)) BLOCKED (data_ptr t)) ∧
    calls_of i log = [mkInv i (task_period t)] ∧
    os_time s' = execute_time t ∧ task_count s' = task_count s ∧
    length (task_array s') = length (task_array s) ∧ no_null_task s' ∧
    os_time s1 = execute_time t ∧ task_count s1 = task_count s ∧
    task_array s1 !! i =
      Some (mkTask (function t) (task_period t)
                   (wrap32 (execute_time t + task_period t)) READY (data_ptr t)).
Proof.
  intros Hlen Hr Hn Hi Ht Hst Heq Hd Hret Hp.
  destruct (TaskTimer_spec s Hlen) as (arr1 & H1 & Hl1 & Hlook1).
  set (s1 := mkOS arr1 (task_count s) (wrap32 (os_time s + period_1ms))) in *.
  assert (os_time s1 = execute_time t) as Ho1.
  { simpl. rewrite wrap32_small; unfold uint32, period_1ms in *; lia. }
  pose proof (TaskTimer_no_null_task s s1 Hlen Hn H1) as Hn1.
  set (t1 := mkTask (function t) (task_period t)
                    (wrap32 (execute_time t + task_period t)) READY (data_ptr t)).
  assert (task_array s1 !! i = Some t1) as Ht1.
  { simpl. rewrite Hlook1, decide_True, Ht by done. simpl. f_equal.
    unfold timer_slot. rewrite Hst. simpl.
    rewrite decide_True by (simpl in Ho1; lia).
    rewrite wrap32_add_r. unfold t1. do 3 f_equal. unfold period_1ms. lia. }
  destruct (TaskExecution_no_null_task call s1 e)
    as (s' & e' & log & H2 & Hn' & Hc' & Hl' & _); [simpl; lia|done|].
  destruct (TaskExecution_spec call s1 e) as (arr' & e2 & log2 & H2' & _ & _ & Hlook);
    [simpl; lia|by apply no_null_task_callable|].
  rewrite H2 in H2'. injection H2' as -> <- <-.
  specialize (Hlook i t1 Ht1). rewrite decide_True in Hlook by done.
  destruct Hlook as (ej & Hlog & Harr). simpl in Hlog, Harr.
  rewrite (Hret ej) in Hlog, Harr.
  exists s1. eexists. exists e', log. split; [done|]. split; [exact H2|].
  simpl. split.
  { rewrite Harr. unfold after_call, t1. simpl.
    rewrite !decide_False by (intros ?; done). done. }
  split; [done|]. split; [simpl in Ho1; done|]. split; [done|].
  split; [simpl in *; lia|]. split; [done|]. split; [done|]. split; [done|done].
Qed.

Lemma main_loop_before_deadline k : ∀ s e i t,
  task_count s ≤ length (task_array s) → uint32 (os_time s) → no_null_task s →
  task_array s !! i = Some t → state t = BLOCKED →
  (os_time s + Z.of_nat k < execute_time t)%Z → uint32 (execute_time t) →
  ∃ s' e' log,
    OS_passes call (main_loop k) s e = Some (s', e', log) ∧
    task_array s' !! i = Some t ∧ calls_of i log = [] ∧
    os_time s' = (os_time s + Z.of_nat k)%Z ∧ task_count s' = task_count s ∧
    length (task_array s') = length (task_array s) ∧ no_null_task s'.
Proof.
  induction k as [|k IH]; intros s e i t Hlen Hr Hn Ht Hst Hlt Hd.
  - exists s, e, []. split; [done|]. split; [done|]. split; [done|].
    split; [lia|]. done.
  - destruct (round_before_deadline s e i t)
      as (s1 & s2 & e2 & l1 & H1 & H2 & Ht2 & Hlog1 & Ho2 & Hc2 & Hl2 & Hn2);
      [done|done|done|done|done|lia|done|].
    destruct (IH s2 e2 i t) as (s' & e' & l2 & Hrun & Ht' & Hlog2 & Ho' & Hc' & Hl' & Hn');
      [lia|unfold uint32 in *; lia|done|done|done|lia|done|].
    exists s', e', (l1 ++ l2).
    split; [by apply (OS_passes_round_eq _ _ _ s1 s2 e2)|]. split; [done|].
    split; [unfold calls_of in *; by rewrite list.filter_app, Hlog1, Hlog2|].
    split; [lia|]. split; [lia|]. split; [lia|done].
Qed.

Lemma main_loop_snoc k : main_loop (S k) = main_loop k ++ [Tick; Run].
Proof.
  induction k as [|k IH]; [done|]. simpl. by rewrite <- IH.
Qed.

Lemma OS_passes_snoc_round ps : ∀ s e s0 e0 log0 s1 s' e' l1,
  OS_passes call ps s e = Some (s0, e0, log0) →
  OS_TaskTimer s0 = Some s1 → OS_TaskExecution call s1 e0 = Some (s', e', l1) →
  OS_passes call (ps ++ [Tick; Run]) s e = Some (s', e', log0 ++ l1).
Proof.
  induction ps as [|[|] ps IH]; intros s e s0 e0 log0 s1 s' e' l1 H Ht Hx; simpl in H.
  - injection H as <- <- <-.
    cbn [app]. rewrite <- (app_nil_r l1).
    by apply (OS_passes_round_eq [] s e s1 s' e' l1 s' e' []).
  - destruct (OS_TaskTimer s) as [sa|] eqn:Ha; simpl in H; [|done].
    simpl. rewrite Ha. simpl. by apply (IH sa e s0 e0 log0 s1).
  - destruct (OS_TaskExecution call s e) as [[[sa ea] la]|] eqn:Ha; simpl in H; [|done].
    destruct (OS_passes call ps sa ea) as [[[sb eb] lb]|] eqn:Hb; simpl in H; [|done].
    injection H as <- <- <-.
    simpl. rewrite Ha. simpl. rewrite (IH sa ea sb eb lb s1 s' e' l1 Hb Ht Hx).
    simpl. by rewrite app_assoc.
Qed.

End Passes.

Section RoundsOfTwo.

Context {Env : Type} (call call' : fncPtr → Z → Env → Z * Env).

(** The rounds before the deadline of a BLOCKED slot do not depend on the
    body of its task. *)
Lemma main_loop_before_deadline_ext k : ∀ s e i t,
  OS_inv s → no_null_task s → i < task_count s →
  task_array s !! i = Some t → state t = BLOCKED → function t ≠ NULL →
  (os_time s + Z.of_nat k < execute_time t)%Z → uint32 (execute_time t) →
  agree_off (function t) call call' →
  OS_passes call' (main_loop k) s e = OS_passes call (main_loop k) s e.
Proof.
  induction k as [|k IH]; intros s e i t HI Hn Hi Ht Hst Hf Hlt Hd Hagree; [done|].
  assert (task_count s ≤ length (task_array s)) as Hlen.
  { rewrite (inv_length s HI). apply (inv_count s HI). }
  pose proof (inv_time s HI) as Hr.
  destruct (TaskTimer_before_deadline s i t) as (s1 & H1 & Ht1 & Ho1 & Hc1 & Hl1);
    [done|done|done|done|lia|done|].
  pose proof (TaskTimer_inv s s1 HI H1) as HI1.
  pose proof (TaskTimer_no_null_task s s1 Hlen Hn H1) as Hn1.
  assert (OS_TaskExecution call' s1 e = OS_TaskExecution call s1 e) as Hext.
  { apply (TaskExecution_ext call call' s1 e i t); [done|lia|done|done|congruence|done]. }
  change (main_loop (S k)) with (Tick :: Run :: main_loop k).
  rewrite (OS_passes_round call'), (OS_passes_round call), H1. simpl. rewrite Hext.
  destruct (TaskExecution_no_null_task call s1 e) as (s2 & e2 & l1 & H2 & Hn2 & Hc2 & _);
    [lia|done|].
  rewrite H2. simpl.
  destruct (TaskExecution_idle_slot call s1 e s2 e2 l1 i t) as [Ht2 _];
    [lia|done|done|congruence|].
  destruct (exec_loop_frame call _ _ _ _ _ _ _ H2) as (_ & Ho2 & _).
  rewrite (IH s2 e2 i t);
    [done|by eapply TaskExecution_inv|done|lia|done|done|done|lia|done|done].
Qed.

End RoundsOfTwo.

Section MainLoop.

Context {Env : Type} (call : fncPtr → Z → Env → Z * Env).

(** A periodic task in the main loop.  Let slot [i] below the tail index be
    BLOCKED with deadline d ahead of the clock T, in a well-formed table in
    which no null entry point is BLOCKED or READY, and let its task always
    return its own period P, which is not the terminal value.  The
    application runs one execution pass after every tick.  During the
    rounds that leave the clock below d the body of the task is never run:
    with any other body in its place these rounds return the same table,
    environment and values, and the record of the slot is unchanged.  The
    tick of round d - T brings the clock to d and makes the slot READY, and
    the execution pass of that round runs the READY slots, each once, in
    slot order, slot [i] being one of them; the value P it returns is its
    only entry in the log of all d - T rounds.  After that round the slot
    is BLOCKED again with period P and deadline (d + P) mod 2^32, in a table
    of the same kind: as long as the deadline stays below 2^32 the task
    runs once every P ticks, whatever the other tasks do. *)
Theorem periodic_task_runs_once_per_period s e i t :
  OS_inv s → no_null_task s →
  i < task_count s → task_array s !! i = Some t → state t = BLOCKED →
  (OS_GetOsTime s < execute_time t)%Z → uint32 (execute_time t) →
  (∀ e0, wrap32 (call (function t) (data_ptr t) e0).1 = task_period t) →
  task_period t ≠ period_end →
  (∀ k call', (OS_GetOsTime s + Z.of_nat k < execute_time t)%Z →
     agree_off (function t) call call' →
     ∃ sk ek logk,
       OS_passes call (main_loop k) s e = Some (sk, ek, logk) ∧
       OS_passes call' (main_loop k) s e = Some (sk, ek, logk) ∧
       task_array sk !! i = Some t ∧ calls_of i logk = []) ∧
  ∃ s0 e0 log0 s1 s' e' l1,
    OS_passes call (main_loop (Z.to_nat (execute_time t - OS_GetOsTime s - 1))) s e =
      Some (s0, e0, log0) ∧
    OS_TaskTimer s0 = Some s1 ∧ OS_GetOsTime s1 = execute_time t ∧
    OS_TaskExecution call s1 e0 = Some (s', e', l1) ∧
    run_ready call (ready_slots s1) e0 = (e', l1) ∧
    filter (λ p, p.1 = i) (ready_slots s1) =
      [(i, mkTask (function t) (task_period t)
                  (wrap32 (execute_time t + task_period t)) READY (data_ptr t))] ∧
    OS_passes call (main_loop (Z.to_nat (execute_time t - OS_GetOsTime s))) s e =
      Some (s', e', log0 ++ l1) ∧
    calls_of i (log0 ++ l1) = [mkInv i (task_period t)] ∧
    task_array s' !! i =
      Some (mkTask (function t) (task_period t)
                   (wrap32 (execute_time t + task_period t)) BLOCKED (data_ptr t)) ∧
    OS_GetOsTime s' = execute_time t ∧ task_count s' = task_count s ∧
    OS_inv s' ∧ no_null_task s'.
Proof.
  unfold OS_GetOsTime. intros HI Hn Hi Ht Hst Hlt Hd Hret Hp.
  assert (task_count s ≤ length (task_array s)) as Hlen.
  { rewrite (inv_length s HI). apply (inv_count s HI). }
  pose proof (inv_time s HI) as Hr.
  assert (function t ≠ NULL) as Hf.
  { intros Hnull. destruct (Hn i t Hi Ht Hnull); congruence. }
  split.
  - intros k call' Hk Hagree.
    destruct (main_loop_before_deadline call k s e i t)
      as (sk & ek & logk & Hrun & Ht' & Hlog & _); try done.
    exists sk, ek, logk. split; [done|]. split; [|done].
    by rewrite (main_loop_before_deadline_ext call call' k s e i t).
  - set (k := Z.to_nat (execute_time t - os_time s - 1)).
    replace (Z.to_nat (execute_time t - os_time s)) with (S k) by lia.
    destruct (main_loop_before_deadline call k s e i t)
      as (s0 & e0 & log0 & Hrun0 & Ht0 & Hlog0 & Ho0 & Hc0 & Hl0 & Hn0);
      [done|done|done|done|done|lia|done|].
    destruct (round_at_deadline call s0 e0 i t)
      as (s1 & s' & e' & l1 & H1 & H2 & Ht' & Hlog1 & Ho' & Hc' & Hl' & Hn' & Ho1 & Hc1 & Ht1);
      [lia|unfold uint32 in *; lia|done|lia|done|done|lia|done|done|done|].
    assert (OS_passes call (main_loop (S k)) s e = Some (s', e', log0 ++ l1)) as Hrun.
    { rewrite main_loop_snoc. by apply (OS_passes_snoc_round call _ s e s0 e0 log0 s1). }
    exists s0, e0, log0, s1, s', e', l1.
    split; [done|]. split; [done|]. split; [done|]. split; [done|].
    split; [exact (TaskExecution_trace call s1 e0 s' e' l1 H2)|].
    split.
    { unfold ready_slots. rewrite ready_range_slot, decide_True by lia.
      unfold ready_at. rewrite Ht1. by rewrite decide_True. }
    split; [done|].
    split; [unfold calls_of in *; by rewrite list.filter_app, Hlog0, Hlog1|].
    split; [done|]. split; [done|]. split; [lia|].
    split; [|done]. by destruct (OS_passes_inv call _ _ _ _ _ _ HI Hrun).
Qed.

(** Suspending and resuming a task, in a well-formed table in which no
    null entry point is BLOCKED or READY.  OS_SetTaskState(f, SUSPENDED) on
    a registered non-null entry point returns OK; then every schedule of
    timer and execution passes returns, and the body of the task is never
    run in it: with any other body in its place the schedule returns the
    same table, environment and values, none of them a call of the slot of
    [f].  The task is still reported SUSPENDED, and OS_SetTaskState(f,
    BLOCKED) returns OK and leaves the task BLOCKED with the period and the
    deadline it had before it was suspended. *)
Theorem suspend_then_resume f s :
  OS_inv s → no_null_task s → f ≠ NULL → OS_TaskIsInQueue f s = Some true →
  ∃ r s1,
    holds s r f ∧ OS_SetTaskState f SUSPENDED s = Some (OK, s1) ∧
    ∀ ps e, ∃ s2 e2 log s3,
      OS_passes call ps s1 e = Some (s2, e2, log) ∧ calls_of r log = [] ∧
      (∀ call', agree_off f call call' →
                OS_passes call' ps s1 e = Some (s2, e2, log)) ∧
      OS_GetTaskState f s2 = Some SUSPENDED ∧
      OS_SetTaskState f BLOCKED s2 = Some (OK, s3) ∧
      OS_GetTaskState f s3 = Some BLOCKED ∧
      OS_GetTaskPeriod f s3 = OS_GetTaskPeriod f s ∧
      OS_GetTaskExecuteTime f s3 = OS_GetTaskExecuteTime f s.
Proof.
  intros HI Hn Hf Hq.
  destruct (TaskFind_cases f s HI) as [[Hr Hno]|(r & t & Hr & Hrc & Hlt & Ht & Hft)].
  { destruct (getters_absent f s Hr) as [Hq' _]. congruence. }
  destruct (getters_found f s r t Hr Hlt Ht) as (_ & Hp & Hx).
  set (t1 := mkTask (function t) (task_period t) (execute_time t) SUSPENDED (data_ptr t)).
  destruct (getters_write_found f s r t t1) as (HI1 & _); try done.
  set (s1 := mkOS (<[r:=t1]> (task_array s)) (task_count s) (os_time s)) in *.
  assert (task_array s1 !! r = Some t1) as Ht1.
  { simpl. apply list_lookup_insert_eq. by eapply lookup_lt_Some. }
  assert (no_null_task s1) as Hn1.
  { intros j tj Hj Htj Hfj. destruct (decide (j = r)) as [->|Hne].
    - rewrite Ht1 in Htj. injection Htj as <-. simpl in Hfj. congruence.
    - simpl in Htj. rewrite list_lookup_insert_ne in Htj by done. by apply (Hn j tj). }
  exists r, s1. split; [split; [done|eauto]|]. split; [by apply SetTaskState_result|].
  intros ps e.
  destruct (OS_passes_keep_suspended call ps s1 e r t1) as (s2 & e2 & log & Hrun & Ht2 & Hlog);
    [rewrite (inv_length s1 HI1); apply (inv_count s1 HI1)|done|done|done|].
  destruct (OS_passes_inv call ps _ _ _ _ _ HI1 Hrun) as [HI2 Hc2].
  assert (OS_TaskFind f s2 = Some r) as Hr2.
  { apply TaskFind_holds; [done| |done]. split; [simpl in Hc2; lia|].
    exists t1. split; [done|]. simpl. done. }
  destruct (getters_found f s2 r t1 Hr2 Hlt Ht2) as (Hst2 & _).
  set (t3 := mkTask (function t1) (task_period t1) (execute_time t1) BLOCKED (data_ptr t1)).
  destruct (getters_write_found f s2 r t1 t3) as (_ & _ & Hst3 & Hp3 & Hx3 & _); try done.
  exists s2, e2, log, (mkOS (<[r:=t3]> (task_array s2)) (task_count s2) (os_time s2)).
  split; [done|]. split; [done|]. split.
  { intros call' Hagree.
    assert (function t1 ≠ NULL) as Hf1 by (simpl; congruence).
    assert (agree_off (function t1) call call') as Hag by (simpl; by rewrite Hft).
    rewrite (OS_passes_suspended_ext call call' ps s1 e r t1 HI1 Hrc Ht1 eq_refl Hf1 Hag).
    done. }
  split; [done|].
  split; [exact (SetTaskState_result f BLOCKED s2 r t1 Hr2 Hlt Ht2)|]. split; [done|].
  split; [by rewrite Hp3, Hp|by rewrite Hx3, Hx].
Qed.

End MainLoop.

Lemma execution_pass_order_witness :
  run_ready ten_tasks (ready_slots two_ready) () = ((), [mkInv 0 10; mkInv 1 10]).
Proof.
  apply (execution_pass_order ten_tasks two_ready ()
           (mkOS (<[0 := mkTask 1 10 11 BLOCKED 0]>
                    (<[1 := mkTask 2 10 11 BLOCKED 0]>
                       (replicate OS_MAX_TASK_NUM zero_task))) 2 1) ()).
  - vm_compute. lia.
  - vm_compute. reflexivity.
Defined.

Lemma scenario_table_no_null_task st d now : no_null_task (scenario_table 1 0 st d now).
Proof.
  intros j t Hj Ht Hf. assert (j = 0) as -> by (simpl in Hj; lia).
  injection Ht as <-. done.
Qed.

Lemma scenario_start_inv : OS_inv (scenario_table 1 0 BLOCKED 5 0).
Proof.
  eapply (TaskCreate_inv 1%Z 10%Z BLOCKED 0%Z 5%Z OS_init OK);
    [exact OS_init_inv|reflexivity].
Qed.

Lemma periodic_task_runs_once_per_period_witness :
  ∃ s0 e0 log0 s1 s' e' l1,
    OS_passes ten_tasks (main_loop 4) (scenario_table 1 0 BLOCKED 5 0) () =
      Some (s0, e0, log0) ∧
    OS_TaskTimer s0 = Some s1 ∧
    run_ready ten_tasks (ready_slots s1) e0 = (e', l1) ∧
    OS_passes ten_tasks (main_loop 5) (scenario_table 1 0 BLOCKED 5 0) () =
      Some (s', e', log0 ++ l1) ∧
    calls_of 0 (log0 ++ l1) = [mkInv 0 10].
Proof.
  destruct (periodic_task_runs_once_per_period ten_tasks
              (scenario_table 1 0 BLOCKED 5 0) () 0 (mkTask 1 10 5 BLOCKED 0))
    as (_ & s0 & e0 & log0 & s1 & s' & e' & l1 & H0 & H1 & _ & _ & Htr & _ & Hrun & Hlog & _).
  - exact scenario_start_inv.
  - apply scenario_table_no_null_task.
  - vm_compute. lia.
  - reflexivity.
  - reflexivity.
  - vm_compute. reflexivity.
  - vm_compute. split; [congruence|reflexivity].
  - intros e0. reflexivity.
  - vm_compute. congruence.
  - exists s0, e0, log0, s1, s', e', l1. split; [exact H0|]. split; [exact H1|].
    split; [exact Htr|]. split; [exact Hrun|exact Hlog].
Defined.

Lemma suspend_then_resume_witness :
  ∃ s1 s2 e2 log s3,
    OS_SetTaskState 1 SUSPENDED suspended_table = Some (OK, s1) ∧
    OS_passes ten_tasks [Tick; Run; Tick] s1 () = Some (s2, e2, log) ∧
    OS_passes (ten_tasks_but 1%Z) [Tick; Run; Tick] s1 () = Some (s2, e2, log) ∧
    OS_SetTaskState 1 BLOCKED s2 = Some (OK, s3) ∧
    OS_GetTaskState 1 s3 = Some BLOCKED.
Proof.
  destruct (suspend_then_resume ten_tasks 1%Z suspended_table)
    as (r & s1 & _ & Hset & Hrest).
  - exact suspended_table_inv.
  - exact suspended_table_no_null_task.
  - vm_compute. congruence.
  - vm_compute. reflexivity.
  - destruct (Hrest [Tick; Run; Tick] ())
      as (s2 & e2 & log & s3 & Hrun & _ & Hext & _ & Hres & Hst & _).
    exists s1, s2, e2, log, s3. split; [exact Hset|]. split; [exact Hrun|].
    split.
    { apply Hext. intros g d e Hg. unfold ten_tasks_but.
      rewrite decide_False by exact Hg. reflexivity. }
    split; [exact Hres|exact Hst].
Defined.
